(** * Stock-Market-AI: the symbol, validation, indicator and formatting logic of [app.py]

    A shallow embedding of the computational parts of [src/app.py]
    (class [StockAnalyzer] and the statistics / indicator part of [main]),
    followed by the properties established about them.

    Python values are modelled as follows.
    - [str] is [string]; the literals of the program are ASCII except the
      rupee sign, which is held by its UTF-8 bytes.
    - [float] (and [numpy.float64]) is IEEE 754 binary64, through the
      Standard Library's executable specification [spec_float] with
      [prec = 53] and [emax = 1024]; NaN, the infinities and the signed
      zeros are values of that type.
    - A pandas [DataFrame] is a record of an index and an ordered list of
      named columns.  Frames are objects: variables hold references into a
      store, and [df[name] = ...] updates the object in the store.
    - The rolling mean and the mean of a column follow the arithmetic of
      pandas and numpy step by step (infinities as missing values, the
      compensated sliding sum, pairwise summation), since the last bits
      and the sign of a zero decide what is shown.
    - Streamlit calls are recorded, in order, in a log of user-interface
      events; a Python exception is an explicit result of the monad. *)

From Stdlib Require Import ZArith String Ascii List Bool Lia.
From Stdlib Require Import Floats.SpecFloat Numbers.DecimalString.
From Stdlib Require Import DecimalFacts DecimalPos DecimalN.
From stdpp Require Import gmap strings.

Local Open Scope string_scope.
Local Open Scope list_scope.

(* ===================================================================== *)
(** * Part I: definitions                                                 *)
(* ===================================================================== *)

(** ** Python [str] methods *)

Module PyStr.

(** [s[n:]] *)
Fixpoint str_drop (n : nat) (s : string) : string :=
  match n, s with
  | O, _ => s
  | S k, String _ s' => str_drop k s'
  | S _, EmptyString => EmptyString
  end.

(** [s[:n]] *)
Fixpoint str_take (n : nat) (s : string) : string :=
  match n, s with
  | O, _ => EmptyString
  | S k, String c s' => String c (str_take k s')
  | S _, EmptyString => EmptyString
  end.

(** [s.startswith(pre)] *)
Fixpoint startswith (s pre : string) {struct pre} : bool :=
  match pre, s with
  | EmptyString, _ => true
  | String a pre', String b s' => Ascii.eqb a b && startswith s' pre'
  | String _ _, EmptyString => false
  end.

(** [s.endswith(suf)]: the last [len(suf)] characters of [s] are [suf]. *)
Definition endswith (s suf : string) : bool :=
  (String.length suf <=? String.length s)%nat
  && String.eqb (str_drop (String.length s - String.length suf) s) suf.

(** [sub in s] *)
Fixpoint contains (s sub : string) : bool :=
  startswith s sub
  || match s with
     | EmptyString => false
     | String _ s' => contains s' sub
     end.

(** The left-to-right scan of [s.replace(old, new)] for a non-empty
    [old]: [skip] counts the characters of a match still to be passed
    over; matches are taken leftmost and never overlap. *)
Fixpoint replace_scan (old new : string) (skip : nat) (s : string) : string :=
  match s with
  | EmptyString => EmptyString
  | String c s' =>
      match skip with
      | S k => replace_scan old new k s'
      | O =>
          if startswith s old
          then new +:+ replace_scan old new (String.length old - 1) s'
          else String c (replace_scan old new 0 s')
      end
  end.

(** With an empty [old], Python puts [new] before every character and
    at the end. *)
Fixpoint replace_empty (new s : string) : string :=
  match s with
  | EmptyString => new
  | String c s' => new +:+ String c (replace_empty new s')
  end.

(** [s.replace(old, new)] *)
Definition replace (s old new : string) : string :=
  match old with
  | EmptyString => replace_empty new s
  | String _ _ => replace_scan old new 0 s
  end.

End PyStr.

(** ** [StockAnalyzer.get_stock_data]: the ticker handed to the data provider *)

Module Ticker.
Import PyStr.

(** Lines 24-30 of [get_stock_data]: the symbol handling that precedes
    the call of the provider. *)
Definition get_stock_data_ticker (symbol market : string) : string :=
  if String.eqb market "Indian Stocks" then
    if negb (endswith symbol ".NS" || endswith symbol ".BO")
    then symbol +:+ ".NS"
    else symbol
  else
    replace (replace symbol ".NS" "") ".BO" "".

(** What the specification words describe for the foreign market:
    "strip any recognized domestic suffixes if present", that is, a
    trailing suffix only.  Used for comparison with the program. *)
Definition strip_trailing_suffix_spec (symbol : string) : string :=
  if endswith symbol ".NS" || endswith symbol ".BO"
  then str_take (String.length symbol - 3) symbol
  else symbol.

End Ticker.

Export PyStr Ticker.


(** ** Python [float]: IEEE 754 binary64 *)

Module F64.

Definition prec : Z := 53.
Definition emax : Z := 1024.

Abbreviation f64 := spec_float.

Definition nan : f64 := S754_nan.

(** [float(z)] for an integer [z], rounded to nearest even. *)
Definition of_Z (z : Z) : f64 := binary_normalize prec emax z 0 false.
Definition of_nat (n : nat) : f64 := of_Z (Z.of_nat n).

Definition add : f64 -> f64 -> f64 := SFadd prec emax.
Definition sub : f64 -> f64 -> f64 := SFsub prec emax.
Definition mul : f64 -> f64 -> f64 := SFmul prec emax.
Definition div : f64 -> f64 -> f64 := SFdiv prec emax.
Definition neg : f64 -> f64 := SFopp.

(** [x < y] and [x > y]; both are [False] when an operand is NaN. *)
Definition ltb (x y : f64) : bool := SFltb x y.
Definition gtb (x y : f64) : bool := SFltb y x.

(** [x == y]; [False] when an operand is NaN, [True] for the two
    zeros. *)
Definition feq (x y : f64) : bool := SFeqb x y.

Definition is_nan (x : f64) : bool :=
  match x with S754_nan => true | _ => false end.

Definition is_inf (x : f64) : bool :=
  match x with S754_infinity _ => true | _ => false end.

(** The sign bit of a number. *)
Definition signbit (x : f64) : bool :=
  match x with
  | S754_zero s | S754_infinity s | S754_finite s _ _ => s
  | S754_nan => false
  end.

Definition is_zero (x : f64) : bool :=
  match x with S754_zero _ => true | _ => false end.

(** A number that is neither NaN nor infinite. *)
Definition is_finite (x : f64) : bool :=
  match x with S754_zero _ | S754_finite _ _ _ => true | _ => false end.

(** Strictly positive, [+inf] included. *)
Definition is_pos (x : f64) : bool :=
  match x with
  | S754_finite false _ _ | S754_infinity false => true
  | _ => false
  end.

(** [+0.0], a positive number or [+inf]. *)
Definition is_nonneg (x : f64) : bool :=
  match x with
  | S754_zero false | S754_finite false _ _ | S754_infinity false => true
  | _ => false
  end.

(** A value binary64 can hold: a finite number has a canonical mantissa
    and exponent. *)
Definition valid (x : f64) : bool := valid_binary prec emax x.

(** The decimal [n / 10^k] as the nearest binary64 number, as the
    literal of that decimal denotes it ([n] and [10^k] below 2^53). *)
Definition of_decimal (n : Z) (k : nat) : f64 :=
  div (of_Z n) (of_Z (10 ^ Z.of_nat k)).

End F64.

Export F64.

(** ** Python exceptions raised on the modelled paths *)

Inductive exn : Type :=
| IndexError                    (* [iloc] out of bounds *)
| KeyError (key : string)       (* [df[name]] for a missing column *)
| ValueError                    (* [int(nan)] *)
| OverflowError                 (* [int(inf)] *)
| ReferenceError.               (* model only: a reference with no object *)

Inductive result (A : Type) : Type :=
| Ok (a : A)
| Raise (e : exn).
Arguments Ok {A} a.
Arguments Raise {A} e.

(** ** The format specifications [.2f], [,.2f], [+.2f] and [,] *)

Module PyFormat.

(** [n / d] rounded to the nearest integer, ties to even ([d > 0]). *)
Definition round_half_even_div (n d : Z) : Z :=
  let q := (n / d)%Z in
  let r := (n mod d)%Z in
  if (2 * r <? d)%Z then q
  else if (d <? 2 * r)%Z then (q + 1)%Z
  else if Z.even q then q else (q + 1)%Z.

(** [m * 2^e * 100] rounded to an integer: the digits of the magnitude
    at two decimal places.  Python rounds the exact binary value
    correctly, ties to even. *)
Definition hundredths (m : positive) (e : Z) : Z :=
  if (0 <=? e)%Z then (Z.pos m * 2 ^ e * 100)%Z
  else round_half_even_div (Z.pos m * 100) (2 ^ (- e)).

Definition digits (n : Z) : string :=
  NilZero.string_of_uint (N.to_uint (Z.to_N n)).

Definition two_digits (n : Z) : string :=
  if (n <? 10)%Z then "0" +:+ digits n else digits n.

(** The thousands separator of the [,] option: a comma before every
    group of three digits, counted from the right. *)
Fixpoint group_thousands (s : string) : string :=
  match s with
  | EmptyString => EmptyString
  | String c s' =>
      String c
        ((if (0 <? String.length s')%nat && (String.length s' mod 3 =? 0)%nat
          then "," else "") +:+ group_thousands s')
  end.

Definition sign_str (plus : bool) (negative : bool) : string :=
  if negative then "-" else if plus then "+" else "".

(** The magnitude with two decimals, [grouped] for the [,] option. *)
Definition fixed2_magnitude (grouped : bool) (h : Z) : string :=
  let ip := digits (h / 100) in
  (if grouped then group_thousands ip else ip) +:+ "." +:+ two_digits (h mod 100).

(** [format(x, ".2f")], with [plus] for a leading [+] and [grouped]
    for [,]. *)
Definition format_fixed2 (plus grouped : bool) (x : f64) : string :=
  match x with
  | S754_nan => sign_str plus false +:+ "nan"
  | S754_infinity s => sign_str plus s +:+ "inf"
  | S754_zero s => sign_str plus s +:+ fixed2_magnitude grouped 0
  | S754_finite s m e => sign_str plus s +:+ fixed2_magnitude grouped (hundredths m e)
  end.

(** [format(n, ",")] for an [int]. *)
Definition format_int_grouped (n : Z) : string :=
  (if (n <? 0)%Z then "-" else "") +:+ group_thousands (digits (Z.abs n)).

(** [int(x)]: truncation toward zero. *)
Definition int_of_float (x : f64) : result Z :=
  match x with
  | S754_nan => Raise ValueError
  | S754_infinity _ => Raise OverflowError
  | S754_zero _ => Ok 0%Z
  | S754_finite s m e =>
      let a := if (0 <=? e)%Z then (Z.pos m * 2 ^ e)%Z
               else (Z.pos m / 2 ^ (- e))%Z in
      Ok (if s then (- a)%Z else a)
  end.

End PyFormat.

Export PyFormat.

(** ** What the specification calls a two-decimal amount

    "A grouped mode (thousands separators, 2 decimal places) ..., a plain
    2-decimal mode otherwise."  The definitions below say what such a text
    is, from the number it renders and not from the way [format_fixed2]
    builds it; the program is compared with them. *)

Module AmountSpec.

(** The value of a decimal digit. *)
Definition digit_of (c : ascii) : option Z :=
  let n := Z.of_nat (nat_of_ascii c) in
  if (48 <=? n)%Z && (n <=? 57)%Z then Some (n - 48)%Z else None.

(** The number that a string of decimal digits writes, read from the
    left; [None] when a character is not a digit. *)
Fixpoint read_digits (acc : Z) (s : string) : option Z :=
  match s with
  | EmptyString => Some acc
  | String c s' =>
      match digit_of c with
      | Some d => read_digits (10 * acc + d) s'
      | None => None
      end
  end.

(** [s] is the decimal numeral of [n]: it writes [n] and has no
    leading zero, the numeral of zero being "0". *)
Definition numeral_of (n : Z) (s : string) : Prop :=
  read_digits 0 s = Some n
  /\ (s = "0" \/ exists c s', s = String c s' /\ c <> "0"%char).

(** Digits cut into groups of three from the right: a first group of
    one to three characters, then groups of exactly three. *)
Definition thousands_groups (groups : list string) : Prop :=
  match groups with
  | [] => False
  | g :: rest =>
      (1 <= String.length g <= 3)%nat
      /\ Forall (fun g' => String.length g' = 3%nat) rest
  end.

(** [h] is the number of hundredths nearest to [m * 2^e], the even
    one of the two when they are equally near.  [m * 2^e * 100] is
    [num / den] below. *)
Definition nearest_hundredth (m : positive) (e : Z) (h : Z) : Prop :=
  let num := (Z.pos m * 100 * 2 ^ Z.max e 0)%Z in
  let den := (2 ^ Z.max (- e) 0)%Z in
  (2 * Z.abs (num - h * den) <= den)%Z
  /\ ((2 * Z.abs (num - h * den) = den)%Z -> Z.even h = true).

(** [text] writes [h] hundredths with two decimals: a minus sign when
    [negative], the numeral of the whole part in groups of three, joined
    by commas when [grouped] and by nothing otherwise, a point, and
    the two digits of the hundredths. *)
Definition two_decimal_text (grouped negative : bool) (h : Z) (text : string) : Prop :=
  exists (groups : list string) (f1 f2 : ascii),
    thousands_groups groups
    /\ numeral_of (h / 100) (String.concat "" groups)
    /\ digit_of f1 = Some (h mod 100 / 10)%Z
    /\ digit_of f2 = Some (h mod 100 mod 10)%Z
    /\ text = (if negative then "-" else "")
              +:+ String.concat (if grouped then "," else "") groups
              +:+ "." +:+ String f1 (String f2 "").

(** The number a [Decimal.uint] denotes, read from the left. *)
Fixpoint uint_value (acc : Z) (d : Decimal.uint) : Z :=
  match d with
  | Decimal.Nil => acc
  | Decimal.D0 l => uint_value (10 * acc + 0) l
  | Decimal.D1 l => uint_value (10 * acc + 1) l
  | Decimal.D2 l => uint_value (10 * acc + 2) l
  | Decimal.D3 l => uint_value (10 * acc + 3) l
  | Decimal.D4 l => uint_value (10 * acc + 4) l
  | Decimal.D5 l => uint_value (10 * acc + 5) l
  | Decimal.D6 l => uint_value (10 * acc + 6) l
  | Decimal.D7 l => uint_value (10 * acc + 7) l
  | Decimal.D8 l => uint_value (10 * acc + 8) l
  | Decimal.D9 l => uint_value (10 * acc + 9) l
  end.

End AmountSpec.

Export AmountSpec.


(** ** pandas: [Series] and [DataFrame] *)

Module Pandas.

(** The values of a column, in row order. *)
Definition Series : Type := list f64.

Record DataFrame : Type := mkDataFrame {
  index : list Z;                      (* the timestamp of every row *)
  columns : list (string * Series)     (* the named columns, in order *)
}.

(** [len(df)] *)
Definition nrows (df : DataFrame) : nat := length (index df).

(** [df.empty]: some axis has length zero. *)
Definition is_empty (df : DataFrame) : bool :=
  (nrows df =? 0)%nat || (length (columns df) =? 0)%nat.

(** [name in df.columns] *)
Definition has_column (df : DataFrame) (name : string) : bool :=
  existsb (fun c => String.eqb (fst c) name) (columns df).

Fixpoint lookup_column (cols : list (string * Series)) (name : string) : option Series :=
  match cols with
  | [] => None
  | (n, v) :: rest => if String.eqb n name then Some v else lookup_column rest name
  end.

(** [df[name] = v] on the columns: an existing column is overwritten in
    its place, a new one is appended. *)
Fixpoint set_column (cols : list (string * Series)) (name : string) (v : Series)
  : list (string * Series) :=
  match cols with
  | [] => [(name, v)]
  | (n, old) :: rest =>
      if String.eqb n name then (n, v) :: rest
      else (n, old) :: set_column rest name v
  end.

(** Every column has one value per row. *)
Definition well_formed (df : DataFrame) : bool :=
  forallb (fun c => (length (snd c) =? nrows df)%nat) (columns df).

(** [s.iloc[i]]: a negative [i] counts from the end. *)
Definition iloc (s : Series) (i : Z) : result f64 :=
  let n := Z.of_nat (length s) in
  let j := if (i <? 0)%Z then (n + i)%Z else i in
  if (0 <=? j)%Z && (j <? n)%Z then
    match nth_error s (Z.to_nat j) with
    | Some x => Ok x
    | None => Raise IndexError
    end
  else Raise IndexError.

(** [s.diff()] *)
Fixpoint diff_from (prev : f64) (s : Series) : Series :=
  match s with
  | [] => []
  | x :: rest => sub x prev :: diff_from x rest
  end.

Definition diff (s : Series) : Series :=
  match s with
  | [] => []
  | x :: rest => nan :: diff_from x rest
  end.

(** [s.where(cond, other)]: keep the value where [cond] holds. *)
Definition where_ (cond : f64 -> bool) (other : f64) (s : Series) : Series :=
  map (fun x => if cond x then x else other) s.

Definition dropna (s : Series) : Series := List.filter (fun x => negb (is_nan x)) s.

(** [values[a:b]] *)
Definition slice (a b : nat) (values : Series) : Series :=
  firstn (b - a) (skipn a values).

(** *** [s.rolling(window=w).mean()]

    pandas is a library outside the repository.  The definitions below
    follow its implementation for a window given as a number of rows:
    [Rolling._prep_values], the bounds of [FixedWindowIndexer], and
    [roll_mean] with [add_mean], [remove_mean] and [calc_mean] of
    [pandas/_libs/window/aggregations.pyx], which keeps a compensated
    running sum as the window slides. *)

(** [_prep_values]: the infinities become NaN before the aggregation. *)
Definition prep_values (s : Series) : Series :=
  map (fun x => if is_inf x then nan else x) s.

(** The accumulators of [roll_mean]. *)
Record mean_state : Type := mk_mean_state {
  nobs : Z;                         (* observations in the window *)
  sum_x : f64;                      (* their running sum *)
  neg_ct : Z;                       (* how many have the sign bit *)
  compensation_add : f64;
  compensation_remove : f64;
  num_consecutive_same_value : Z;   (* length of the run of equal values *)
  prev_value : f64                  (* the observation added last *)
}.

(** [add_mean]: one more observation, by Kahan summation; NaN is not an
    observation. *)
Definition add_mean (st : mean_state) (val : f64) : mean_state :=
  if feq val val then
    let y := sub val (compensation_add st) in
    let t := add (sum_x st) y in
    mk_mean_state
      (nobs st + 1)
      t
      (if signbit val then neg_ct st + 1 else neg_ct st)
      (sub (sub t (sum_x st)) y)
      (compensation_remove st)
      (if feq val (prev_value st)
       then num_consecutive_same_value st + 1
       else 1)
      val
  else st.

(** [remove_mean]: an observation leaves the window. *)
Definition remove_mean (st : mean_state) (val : f64) : mean_state :=
  if feq val val then
    let y := sub (neg val) (compensation_remove st) in
    let t := add (sum_x st) y in
    mk_mean_state
      (nobs st - 1)
      t
      (if signbit val then neg_ct st - 1 else neg_ct st)
      (compensation_add st)
      (sub (sub t (sum_x st)) y)
      (num_consecutive_same_value st)
      (prev_value st)
  else st.

(** [calc_mean]: NaN below [minp] observations; the value itself for a
    window of equal values; zero when rounding gave the mean the sign
    that no observation has. *)
Definition calc_mean (minp : Z) (st : mean_state) : f64 :=
  if (minp <=? nobs st)%Z && (0 <? nobs st)%Z then
    let result := div (sum_x st) (of_Z (nobs st)) in
    if (nobs st <=? num_consecutive_same_value st)%Z then prev_value st
    else if (neg_ct st =? 0)%Z && ltb result (S754_zero false) then S754_zero false
    else if (neg_ct st =? nobs st)%Z && gtb result (S754_zero false) then S754_zero false
    else result
  else nan.

(** The bounds of the window that ends at row [i]: rows
    [window_start w i .. window_end i - 1]. *)
Definition window_start (w i : nat) : nat := i + 1 - w.
Definition window_end (i : nat) : nat := i + 1.

(** The accumulators at the start of a window. *)
Definition mean_init (first : f64) : mean_state :=
  mk_mean_state 0 (S754_zero false) 0 (S754_zero false) (S754_zero false) 0 first.

(** One turn of the loop of [roll_mean]: at row 0, and whenever the
    window does not overlap the one before, the window is summed
    afresh; otherwise the rows that left are removed and the new row is
    added. *)
Definition roll_mean_step (values : Series) (w : nat) (st : mean_state) (i : nat)
  : mean_state :=
  let s := window_start w i in
  let e := window_end i in
  if (i =? 0)%nat || (window_end (i - 1) <=? s)%nat then
    fold_left add_mean (slice s e values) (mean_init (nth s values nan))
  else
    fold_left add_mean (slice (window_end (i - 1)) e values)
      (fold_left remove_mean (slice (window_start w (i - 1)) s values) st).

Fixpoint roll_mean_from (values : Series) (w : nat) (minp : Z)
         (rows : list nat) (st : mean_state) : Series :=
  match rows with
  | [] => []
  | i :: rest =>
      let st' := roll_mean_step values w st i in
      calc_mean minp st' :: roll_mean_from values w minp rest st'
  end.

Definition roll_mean (values : Series) (w : nat) (minp : Z) : Series :=
  roll_mean_from values w minp (seq 0 (length values)) (mean_init nan).

(** [min_periods] defaults to the size of the window. *)
Definition rolling_mean (w : nat) (s : Series) : Series :=
  roll_mean (prep_values s) w (Z.of_nat w).

(** The value of the rolling mean at row [i]. *)
Definition rolling_mean_at (w : nat) (s : Series) (i : nat) : f64 :=
  nth i (rolling_mean w s) nan.

(** The accumulators after the turn of row [i]. *)
Definition state_at (values : Series) (w : nat) (i : nat) : mean_state :=
  fold_left (roll_mean_step values w) (seq 0 (S i)) (mean_init nan).

(** The number of rows below [n] whose value satisfies [p]. *)
Definition count_upto (p : f64 -> bool) (values : Series) (n : nat) : Z :=
  Z.of_nat (length (List.filter p (firstn n values))).

(** *** [s.mean()]

    pandas' [nanmean] puts zero where the value is NaN, sums with
    numpy, and divides by the number of values that are not NaN.  numpy
    sums a contiguous array of floats pairwise: fewer than 8 values one
    after the other, up to 128 values in 8 interleaved partial sums, more
    than that in two halves. *)

(** [r[k] += a[i + k]] for the eight partial sums. *)
Fixpoint add_lanes (r a : Series) : Series :=
  match r, a with
  | x :: r', y :: a' => add x y :: add_lanes r' a'
  | _, _ => r
  end.

(** The loop over the blocks of eight that follow the first. *)
Fixpoint sum_lanes (blocks : nat) (r a : Series) : Series * Series :=
  match blocks with
  | O => (r, a)
  | S k => sum_lanes k (add_lanes r (firstn 8 a)) (skipn 8 a)
  end.

(** A block of 8 to 128 values. *)
Definition sum_block (a : Series) : f64 :=
  let n := length a in
  let '(r, rest) := sum_lanes (n / 8 - 1) (firstn 8 a) (skipn 8 a) in
  match r with
  | [r0; r1; r2; r3; r4; r5; r6; r7] =>
      fold_left add rest
        (add (add (add r0 r1) (add r2 r3)) (add (add r4 r5) (add r6 r7)))
  | _ => nan
  end.

(** [pairwise_sum]; the recursion halves the array, [fuel] bounds its
    depth. *)
Fixpoint pairwise_sum_fuel (fuel : nat) (a : Series) : f64 :=
  let n := length a in
  if (n <? 8)%nat then fold_left add a (S754_zero true)
  else if (n <=? 128)%nat then sum_block a
  else
    match fuel with
    | O => sum_block a
    | S fuel' =>
        let n2 := (n / 2 - (n / 2) mod 8)%nat in
        add (pairwise_sum_fuel fuel' (firstn n2 a))
            (pairwise_sum_fuel fuel' (skipn n2 a))
    end.

Definition pairwise_sum (a : Series) : f64 := pairwise_sum_fuel (length a) a.

(** [numpy.add.reduce]: the sum is added to the identity of the
    reduction. *)
Definition np_sum (a : Series) : f64 := add (S754_zero true) (pairwise_sum a).

(** [s.mean()], NaN skipped; NaN when nothing is left. *)
Definition series_mean (s : Series) : f64 :=
  let count := length (dropna s) in
  if (0 <? count)%nat
  then div (np_sum (map (fun x => if is_nan x then S754_zero false else x) s))
           (of_nat count)
  else nan.

(** [s.max()] and [s.min()], NaN skipped. *)
Definition series_max (s : Series) : f64 :=
  match dropna s with
  | [] => nan
  | x :: rest => fold_left (fun a b => if ltb a b then b else a) rest x
  end.

Definition series_min (s : Series) : f64 :=
  match dropna s with
  | [] => nan
  | x :: rest => fold_left (fun a b => if ltb b a then b else a) rest x
  end.

(** Element-wise [a / b] of two series on the same index. *)
Fixpoint div_series (a b : Series) : Series :=
  match a, b with
  | x :: a', y :: b' => div x y :: div_series a' b'
  | _, _ => []
  end.

End Pandas.

Export Pandas.

(** ** The store of frames, the Streamlit log and exceptions *)

Module Run.

Definition loc : Type := nat.

(** What the program asks Streamlit to show. *)
Inductive ui_event : Type :=
| StSubheader (text : string)
| StMetric (label value : string) (delta : option string)
| StPlotlyChart (kind : string) (traces : list Series)
| StError (message : string)
| StErrorExn (message : string) (e : exn).  (* [message] followed by [str(e)] *)

Record world : Type := mkWorld {
  heap : gmap loc DataFrame;   (* the frame objects *)
  ui : list ui_event           (* the Streamlit calls so far, oldest first *)
}.

(** A computation reads and updates the world and returns or raises;
    what was done before an exception stays done. *)
Definition M (A : Type) : Type := world -> result A * world.

Definition ret {A} (a : A) : M A := fun w => (Ok a, w).

Definition bind {A B} (m : M A) (k : A -> M B) : M B :=
  fun w =>
    match m w with
    | (Ok a, w') => k a w'
    | (Raise e, w') => (Raise e, w')
    end.

Definition raise {A} (e : exn) : M A := fun w => (Raise e, w).

(** [try: body  except Exception as e: handler(e)] *)
Definition try_except {A} (body : M A) (handler : exn -> M A) : M A :=
  fun w =>
    match body w with
    | (Ok a, w') => (Ok a, w')
    | (Raise e, w') => handler e w'
    end.

Definition lift {A} (r : result A) : M A := fun w => (r, w).

#[global] Instance M_ret : MRet M := @ret.
#[global] Instance M_bind : MBind M := fun A B k m => bind m k.
#[global] Instance M_throw : MThrow exn M := @raise.

Definition emit (e : ui_event) : M unit :=
  fun w => (Ok tt, mkWorld (heap w) (ui w ++ [e])).

(** The object behind a reference.  A reference without an object does
    not occur in a run of the program; the model raises there. *)
Definition read_frame (r : loc) : M DataFrame :=
  fun w =>
    match heap w !! r with
    | Some df => (Ok df, w)
    | None => (Raise ReferenceError, w)
    end.

Definition write_frame (r : loc) (df : DataFrame) : M unit :=
  fun w => (Ok tt, mkWorld (<[r := df]> (heap w)) (ui w)).

(** [len(df)] *)
Definition len (r : loc) : M nat :=
  df ← read_frame r; ret (nrows df).

(** [df[name]] *)
Definition getitem (r : loc) (name : string) : M Series :=
  df ← read_frame r;
  match lookup_column (columns df) name with
  | Some s => ret s
  | None => raise (KeyError name)
  end.

(** [df[name] = s]: the frame object itself is updated. *)
Definition setitem (r : loc) (name : string) (s : Series) : M unit :=
  df ← read_frame r;
  write_frame r (mkDataFrame (index df) (set_column (columns df) name s)).

Definition st_subheader (text : string) : M unit := emit (StSubheader text).
Definition st_metric (label value : string) (delta : option string) : M unit :=
  emit (StMetric label value delta).
Definition st_plotly_chart (kind : string) (traces : list Series) : M unit :=
  emit (StPlotlyChart kind traces).
Definition st_error (message : string) : M unit := emit (StError message).
Definition st_error_exn (message : string) (e : exn) : M unit :=
  emit (StErrorExn message e).

End Run.

Export Run.


(** ** class [StockAnalyzer] *)

Module StockAnalyzer.

Definition required_columns : list string :=
  ["Open"; "High"; "Low"; "Close"; "Volume"].

(** [process_stock_data(self, df)]: [df] is [None] or a reference to a
    frame; the result is [None] or that same reference. *)
Definition process_stock_data (df : option loc) : M (option loc) :=
  match df with
  | None => ret None
  | Some r =>
      f ← read_frame r;
      if is_empty f then ret None
      else
        try_except
          (if forallb (has_column f) required_columns
           then ret (Some r)
           else (st_error "Missing required columns in data";; ret None))
          (fun e => st_error_exn "Error processing data: " e;; ret None)
  end.

(** [get_currency_symbol(self, market, stock_info)]; [stock_info] is
    not used by the body. *)
Definition get_currency_symbol (market : string) : string :=
  if String.eqb market "Indian Stocks" then "₹" else "$".

(** [format_currency(self, value, currency_symbol)] *)
Definition format_currency (value : f64) (currency_symbol : string) : string :=
  if String.eqb currency_symbol "₹"
  then currency_symbol +:+ format_fixed2 false true value
  else currency_symbol +:+ format_fixed2 false false value.

End StockAnalyzer.

Export StockAnalyzer.

(** ** [main]: statistics and indicators (lines 157-240) *)

Module Main.

Definition zero : f64 := of_Z 0.
Definition one : f64 := of_Z 1.
Definition hundred : f64 := of_Z 100.

(** Lines 166-193: the price and volume charts. *)
Definition price_charts (selected_symbol : string) (df : loc) : M unit :=
  st_subheader ("📊 " +:+ selected_symbol +:+ " Price Chart");;
  o ← getitem df "Open";
  h ← getitem df "High";
  l ← getitem df "Low";
  c ← getitem df "Close";
  st_plotly_chart "Candlestick" [o; h; l; c];;
  v ← getitem df "Volume";
  st_plotly_chart "Bar" [v].

(** Lines 199-201: latest price and the change on the previous bar. *)
Definition latest_change (df : loc) : M (f64 * f64) :=
  c ← getitem df "Close";
  latest_price ← lift (iloc c (-1));
  c1 ← getitem df "Close";
  a ← lift (iloc c1 (-1));
  c2 ← getitem df "Close";
  b ← lift (iloc c2 (-2));
  let price_change := sub a b in
  c3 ← getitem df "Close";
  d ← lift (iloc c3 (-2));
  let price_change_pct := mul (div price_change d) hundred in
  ret (latest_price, price_change_pct).

(** Lines 196-211: the key statistics. *)
Definition key_statistics (df : loc) (currency_symbol : string) : M unit :=
  st_subheader "📌 Key Statistics";;
  '(latest_price, price_change_pct) ← latest_change df;
  st_metric "Latest Price"
            (format_currency latest_price currency_symbol)
            (Some (format_fixed2 true false price_change_pct +:+ "%"));;
  h ← getitem df "High";
  st_metric "52-Week High" (format_currency (series_max h) currency_symbol) None;;
  l ← getitem df "Low";
  st_metric "52-Week Low" (format_currency (series_min l) currency_symbol) None;;
  v ← getitem df "Volume";
  n ← lift (int_of_float (series_mean v));
  st_metric "Average Volume" (format_int_grouped n) None.

(** Lines 219-220 and 222-223: one moving-average metric, shown only
    when the frame has at least [w] rows. *)
Definition moving_average_metric (df : loc) (currency_symbol : string)
           (w : nat) (column label : string) : M unit :=
  n ← len df;
  if (w <=? n)%nat then
    ma ← getitem df column;
    x ← lift (iloc ma (-1));
    st_metric label (format_currency x currency_symbol) None
  else ret tt.

(** Lines 213-223: the moving averages. *)
Definition moving_averages (df : loc) (currency_symbol : string) : M unit :=
  c ← getitem df "Close";
  setitem df "MA50" (rolling_mean 50 c);;
  c' ← getitem df "Close";
  setitem df "MA200" (rolling_mean 200 c');;
  st_subheader "📉 Moving Averages";;
  moving_average_metric df currency_symbol 50 "MA50" "50-Day MA";;
  moving_average_metric df currency_symbol 200 "MA200" "200-Day MA".

(** Line 232 for one row: [100 - (100 / (1 + rs))]. *)
Definition rsi_of_rs (rs : f64) : f64 :=
  sub hundred (div hundred (add one rs)).

Definition avg_gain (close : Series) : Series :=
  rolling_mean 14 (where_ (fun d => gtb d zero) zero (diff close)).

Definition avg_loss (close : Series) : Series :=
  rolling_mean 14 (map neg (where_ (fun d => ltb d zero) zero (diff close))).

(** Lines 228-232 as a function of the close column. *)
Definition rsi_series (close : Series) : Series :=
  let gain := avg_gain close in
  let loss := avg_loss close in
  let rs := div_series gain loss in
  map rsi_of_rs rs.

(** Lines 226-240: the RSI column and its chart. *)
Definition technical_indicators (df : loc) : M unit :=
  st_subheader "📈 Technical Indicators";;
  c ← getitem df "Close";
  setitem df "RSI" (rsi_series c);;
  r ← getitem df "RSI";
  st_plotly_chart "Scatter" [r].

(** Lines 157-240 inside the handler of lines 307-309.  [df] is the
    frame the provider returned.  The news and chat sections that
    follow in [main] call the external services and do not use the
    frame's derived columns; they are not part of the model. *)
Definition main_indicators (selected_symbol market : string) (df : loc) : M unit :=
  try_except
    (df' ← process_stock_data (Some df);
     let currency_symbol := get_currency_symbol market in
     match df' with
     | Some df =>
         price_charts selected_symbol df;;
         key_statistics df currency_symbol;;
         moving_averages df currency_symbol;;
         technical_indicators df
     | None => st_error "Unable to fetch data for the selected symbol"
     end)
    (fun e =>
       st_error_exn "An error occurred: " e;;
       st_error "Please try another symbol or check if the stock exists").

(** A run from a store that holds the fetched frame at reference [0]
    and an empty page. *)
Definition run_main (selected_symbol market : string) (fetched : DataFrame)
  : result unit * world :=
  main_indicators selected_symbol market 0%nat (mkWorld {[ 0%nat := fetched ]} []).

End Main.

Export Main.

(** ** Order of the bars, and sample frames *)

(** Timestamps strictly increasing, the order the specification asks of a
    price series. *)
Fixpoint ascending (ts : list Z) : bool :=
  match ts with
  | [] => true
  | t :: rest =>
      match rest with
      | [] => true
      | t' :: _ => (t <? t')%Z && ascending rest
      end
  end.

(** No value is below the one before it, by the comparison of floats. *)
Fixpoint non_decreasing (s : Series) : bool :=
  match s with
  | [] => true
  | x :: rest =>
      match rest with
      | [] => true
      | y :: _ => negb (ltb y x) && non_decreasing rest
      end
  end.

Module Samples.

(** A frame with the five required columns; every price of a bar and
    its volume are the same whole number, which is all the examples
    need. *)
Definition bars (timestamps values : list Z) : DataFrame :=
  let c := map of_Z values in
  mkDataFrame timestamps
    [("Open", c); ("High", c); ("Low", c); ("Close", c); ("Volume", c)].

(** One bar. *)
Definition one_bar : DataFrame := bars [1%Z] [100%Z].

(** Two bars in time order. *)
Definition two_bars : DataFrame := bars [1%Z; 2%Z] [100%Z; 110%Z].

(** Fifty and forty-nine weekly bars, closes 1001, 1002, ... *)
Definition fifty_bars : DataFrame :=
  bars (map Z.of_nat (seq 1 50)) (map Z.of_nat (seq 1001 50)).

Definition forty_nine_bars : DataFrame :=
  bars (map Z.of_nat (seq 1 49)) (map Z.of_nat (seq 1001 49)).

(** Fifty bars as above, the first close missing. *)
Definition fifty_bars_nan_close : DataFrame :=
  let c := map of_Z (map Z.of_nat (seq 1001 50)) in
  mkDataFrame (map Z.of_nat (seq 1 50))
    [("Open", c); ("High", c); ("Low", c); ("Close", nan :: tl c); ("Volume", c)].

(** Fifty bars at one and the same price, 0.015. *)
Definition fifty_bars_flat : DataFrame :=
  let c := repeat (of_decimal 15 3) 50 in
  mkDataFrame (map Z.of_nat (seq 1 50))
    [("Open", c); ("High", c); ("Low", c); ("Close", c); ("Volume", c)].

(** Two bars, the later one first. *)
Definition two_bars_unsorted : DataFrame := bars [2%Z; 1%Z] [110%Z; 100%Z].

(** Two bars without a [Volume] column. *)
Definition no_volume : DataFrame :=
  mkDataFrame [1%Z; 2%Z]
    [("Open", [of_Z 100; of_Z 110]); ("High", [of_Z 100; of_Z 110]);
     ("Low", [of_Z 100; of_Z 110]); ("Close", [of_Z 100; of_Z 110])].

(** The required columns and no bar. *)
Definition zero_bars : DataFrame := bars [] [].

(** Fifteen weekly closes that never move. *)
Definition flat_closes : Series := map of_Z (repeat 100%Z 15).

(** Fifteen weekly closes rising by one each week. *)
Definition rising_closes : Series :=
  map of_Z [1; 2; 3; 4; 5; 6; 7; 8; 9; 10; 11; 12; 13; 14; 15]%Z.

(** A page with nothing on it and the frame [df] at reference [0]. *)
Definition fresh (df : DataFrame) : world := mkWorld {[ 0%nat := df ]} [].

End Samples.

Export Samples.

(** ** The frame after the indicator lines *)

(** The frame object once lines 214-215 have run on it: the two
    moving-average columns are set on the frame itself. *)
Definition after_moving_averages (df : DataFrame) (close : Series) : DataFrame :=
  mkDataFrame (index df)
    (set_column (set_column (columns df) "MA50" (rolling_mean 50 close))
                "MA200" (rolling_mean 200 close)).

(** ... and once line 232 has run as well. *)
Definition after_indicators (df : DataFrame) (close : Series) : DataFrame :=
  mkDataFrame (index df)
    (set_column (columns (after_moving_averages df close)) "RSI" (rsi_series close)).

(** The names of the columns the indicator lines write. *)
Definition derived_columns : list string := ["MA50"; "MA200"; "RSI"].

(* ===================================================================== *)
(** * Part I, continued: fetching, the whole of [main], news and chat     *)
(* ===================================================================== *)

(** No value is above the one before it, by the comparison of floats. *)
Fixpoint non_increasing (s : Series) : bool :=
  match s with
  | [] => true
  | x :: rest =>
      match rest with
      | [] => true
      | y :: _ => negb (ltb x y) && non_increasing rest
      end
  end.

(** Fifteen weekly closes falling by one each week. *)
Definition falling_closes : Series :=
  map of_Z [15; 14; 13; 12; 11; 10; 9; 8; 7; 6; 5; 4; 3; 2; 1]%Z.

(** ** [get_stock_data] and the start of [main] *)

Module Fetch.

(** [stock.info]: a dict of descriptive fields.  A field that is absent
    and a field that is [None] read the same through [.get]. *)
Definition StockInfo : Type := gmap string string.

(** Lines 98-123: the preset symbols of each market. *)
Definition default_symbols : list (string * list string) :=
  [("Indian Stocks",
    ["RELIANCE.NS"; "TCS.NS"; "HDFCBANK.NS"; "INFY.NS"; "ICICIBANK.NS";
     "BHARTIARTL.NS"; "WIPRO.NS"; "ZOMATO.NS"; "PAYTM.NS"; "JIOFIN.NS"]);
   ("US Stocks",
    ["AAPL"; "GOOGL"; "MSFT"; "AMZN"; "TSLA"; "META"; "NVDA"; "NFLX"; "JPM"; "V"])].

(** Lines 139-140: a custom symbol, when one is typed, replaces the
    preset that was picked. *)
Definition choose_symbol (selected_symbol custom_symbol : string) : string :=
  match custom_symbol with
  | EmptyString => selected_symbol
  | String _ _ => custom_symbol
  end.

(** Lines 157-240 and 304-305 without the handler: the body that
    [main_indicators] runs inside [try]. *)
Definition indicators_body (selected_symbol market : string) (df : loc) : M unit :=
  df' ← process_stock_data (Some df);
  let currency_symbol := get_currency_symbol market in
  match df' with
  | Some df =>
      price_charts selected_symbol df;;
      key_statistics df currency_symbol;;
      moving_averages df currency_symbol;;
      technical_indicators df
  | None => st_error "Unable to fetch data for the selected symbol"
  end.

(** Lines 307-309: the handler of [main]. *)
Definition report_exception (e : exn) : M unit :=
  st_error_exn "An error occurred: " e;;
  st_error "Please try another symbol or check if the stock exists".

Section Provider.

(** yfinance is outside the repository.  [history t] stands for
    [yf.Ticker(t).history(period="1y", interval="1wk")]: it puts a
    frame in the store and returns its reference, or raises.  [info t]
    stands for [yf.Ticker(t).info]. *)
Variable history : string -> M loc.
Variable info : string -> M StockInfo.

(** [get_stock_data(self, symbol, market)]: [None], the pair
    [(df, info)] or the pair [(None, None)]. *)
Definition get_stock_data (symbol market : string)
  : M (option (option loc * option StockInfo)) :=
  let ticker := get_stock_data_ticker symbol market in
  try_except
    (df ← history ticker;
     f ← read_frame df;
     if is_empty f
     then (st_error ("No data found for " +:+ ticker);; ret None)
     else (i ← info ticker; ret (Some (Some df, Some i))))
    (fun e =>
       st_error_exn ("Error fetching data for " +:+ ticker +:+ ": ") e;;
       ret (Some (None, None))).

(** Lines 139-240 and 304-309: [main] from the choice of the symbol
    to the RSI chart.  A [return] ends [main]; the news and chat
    sections, which follow the RSI chart inside the same [try], are
    modelled apart. *)
Definition main_run (selected_symbol custom_symbol market : string) : M unit :=
  let selected_symbol := choose_symbol selected_symbol custom_symbol in
  try_except
    (result ← get_stock_data selected_symbol market;
     match result with
     | None => st_error "Failed to fetch data"
     | Some (None, _) => ret tt
     | Some (Some df, _) => indicators_body selected_symbol market df
     end)
    report_exception.

End Provider.

(** Sample providers: one whose every request raises [e], one that
    answers every request with the frame at [r], one that answers with
    the fields [i]. *)
Definition failing {A : Type} (e : exn) : string -> M A := fun _ => raise e.
Definition serving (r : loc) : string -> M loc := fun _ => ret r.
Definition described (i : StockInfo) : string -> M StockInfo := fun _ => ret i.

End Fetch.

Export Fetch.

(** ** News and the chat prompt (lines 46-60 and 242-283) *)

Module News.

(** One news result: a dict of text fields. *)
Definition Article : Type := gmap string string.

(** What the news section puts on the page. *)
Inductive page_item : Type :=
| PgMarkdown (text : string)
| PgImage (url : string)
| PgWrite (text : string).

(** Line 244: [info.get('longName') or info.get('shortName') or
    selected_symbol]; an absent or empty name is falsy. *)
Definition company_name (stock_info : StockInfo) (selected_symbol : string) : string :=
  match stock_info !! "longName" with
  | Some (String c s) => String c s
  | _ =>
      match stock_info !! "shortName" with
      | Some (String c s) => String c s
      | _ => selected_symbol
      end
  end.

Section NewsProvider.

(** DuckDuckGo search is outside the repository: [ddgs_news q] stands
    for the list of the results of [ddgs.news(keywords=q, ...)]. *)
Variable ddgs_news : string -> M (list Article).

(** [get_stock_news(self, company_name)] *)
Definition get_stock_news (company : string) : M (option (list Article)) :=
  try_except
    (news_results ← ddgs_news company; ret (Some news_results))
    (fun e => st_error_exn "Error fetching news: " e;; ret None).

End NewsProvider.

(** [article.get(key, default)] *)
Definition get_or (article : Article) (key default : string) : string :=
  match article !! key with
  | Some v => v
  | None => default
  end.

(** Lines 251-262: one article.  [article['title']] and
    [article['url']] raise [KeyError] before anything is shown. *)
Definition render_article (article : Article) : result (list page_item) :=
  match article !! "title" with
  | None => Raise (KeyError "title")
  | Some title =>
      match article !! "url" with
      | None => Raise (KeyError "url")
      | Some url =>
          Ok [PgMarkdown ("### [" +:+ title +:+ "](" +:+ url +:+ ")");
              PgImage (match article !! "image" with
                       | Some (String c s) => String c s
                       | _ => "https://via.placeholder.com/150"
                       end);
              PgWrite (get_or article "body" "No summary available.");
              PgWrite ("**Source:** " +:+ get_or article "source" "Unknown"
                       +:+ "  |  **Published at:** " +:+ get_or article "date" "None");
              PgWrite "---"]
      end
  end.

(** Lines 249-262: the loop; what earlier articles showed stays when a
    later one raises. *)
Fixpoint render_articles (articles : list Article) : list page_item * result unit :=
  match articles with
  | [] => ([], Ok tt)
  | article :: rest =>
      match render_article article with
      | Raise e => ([], Raise e)
      | Ok items =>
          let '(more, r) := render_articles rest in
          (items ++ more, r)
      end
  end.

(** Lines 248-264: [if news_articles: ... else: ...]; [None] and the
    empty list are falsy. *)
Definition news_section (news_articles : option (list Article))
  : list page_item * result unit :=
  match news_articles with
  | Some (article :: rest) => render_articles (article :: rest)
  | _ => ([PgWrite "No news articles found."], Ok tt)
  end.

(** The outcome of building the prompt: the text, or the exception
    raised by [len(None)] or by a missing title. *)
Inductive prompt_result : Type :=
| Prompt (text : string)
| PromptTypeError
| PromptRaises (e : exn).

Definition newline : string := String "010"%char EmptyString.

(** [sep.join(parts)] *)
Fixpoint join (sep : string) (parts : list string) : string :=
  match parts with
  | [] => EmptyString
  | p :: rest =>
      match rest with
      | [] => p
      | _ :: _ => p +:+ sep +:+ join sep rest
      end
  end.

(** [article['title']] *)
Definition article_title (article : Article) : result string :=
  match article !! "title" with
  | Some t => Ok t
  | None => Raise (KeyError "title")
  end.

(** [news_articles[i]['title']] *)
Definition title_at (news_articles : list Article) (i : nat) : result string :=
  match nth_error news_articles i with
  | None => Raise IndexError
  | Some article => article_title article
  end.

(** A list comprehension: the elements in order, up to the first one
    that raises. *)
Fixpoint collect (rs : list (result string)) : result (list string) :=
  match rs with
  | [] => Ok []
  | Raise e :: _ => Raise e
  | Ok x :: rest =>
      match collect rest with
      | Ok xs => Ok (x :: xs)
      | Raise e => Raise e
      end
  end.

(** Line 278: [[news_articles[i]['title'] for i in range(min(5,
    len(news_articles)))]] *)
Definition headlines (news_articles : list Article) : result (list string) :=
  collect (map (title_at news_articles) (seq 0 (Nat.min 5 (length news_articles)))).

(** Lines 272-283: the text of the prompt, given the number of
    articles and the headlines.  [low] and [high] are [df['Low'].min()]
    and [df['High'].max()]. *)
Definition prompt_text (selected_symbol market : string)
           (latest_price low high : f64) (currency_symbol : string)
           (count : nat) (titles : list string) (user_question : string) : string :=
  "Stock: " +:+ selected_symbol +:+ newline
  +:+ "Market: " +:+ market +:+ newline
  +:+ "Latest Price: " +:+ format_currency latest_price currency_symbol +:+ newline
  +:+ "52-Week Range: " +:+ format_currency low currency_symbol
  +:+ " - " +:+ format_currency high currency_symbol +:+ newline
  +:+ newline
  +:+ "News: " +:+ digits (Z.of_nat count) +:+ " articles found" +:+ newline
  +:+ join newline titles +:+ newline
  +:+ newline
  +:+ "User Question: " +:+ user_question +:+ newline
  +:+ newline
  +:+ "Please provide a detailed and informative answer based on the available data."
  +:+ newline.

(** Lines 272-283: building the prompt.  [len(news_articles)] raises
    [TypeError] when the news fetch returned [None]. *)
Definition chat_prompt (selected_symbol market : string)
           (latest_price low high : f64) (currency_symbol : string)
           (news_articles : option (list Article)) (user_question : string)
  : prompt_result :=
  match news_articles with
  | None => PromptTypeError
  | Some articles =>
      match headlines articles with
      | Raise e => PromptRaises e
      | Ok titles =>
          Prompt (prompt_text selected_symbol market latest_price low high
                              currency_symbol (length articles) titles user_question)
      end
  end.

(** Sample articles: a complete one, one with empty image and body,
    one without a title. *)
Definition full_article : Article :=
  {[ "title" := "Results out"; "url" := "https://example.com/a";
     "image" := "https://example.com/a.png"; "body" := "Quarterly results.";
     "source" := "Wire"; "date" := "2024-01-01" ]}.
Definition bare_article : Article :=
  {[ "title" := "Shares rise"; "url" := "https://example.com/b";
     "image" := ""; "body" := "" ]}.
Definition untitled_article : Article :=
  {[ "url" := "https://example.com/c" ]}.

End News.

Export News.

(* ===================================================================== *)
(** * Part II: properties                                                 *)
(* ===================================================================== *)

(** ** The model on sample inputs *)

Example ticker_ex1 : get_stock_data_ticker "RELIANCE" "Indian Stocks" = "RELIANCE.NS".
Proof. reflexivity. Qed.
Example ticker_ex2 : get_stock_data_ticker "RELIANCE.BO" "Indian Stocks" = "RELIANCE.BO".
Proof. reflexivity. Qed.
Example ticker_ex3 : get_stock_data_ticker "INFY.NS" "US Stocks" = "INFY".
Proof. reflexivity. Qed.
Example ticker_ex4 : get_stock_data_ticker "A.NS.B" "US Stocks" = "A.B".
Proof. reflexivity. Qed.
Example ticker_ex5 : get_stock_data_ticker ".N.BOS" "US Stocks" = ".NS".
Proof. reflexivity. Qed.
Example replace_ex1 : replace "abc" "" "-" = "-a-b-c-".
Proof. reflexivity. Qed.
Example replace_ex2 : replace "aaa" "aa" "b" = "ba".
Proof. reflexivity. Qed.
Example fmt_ex1 : format_fixed2 false true (of_decimal 12345 1) = "1,234.50".
Proof. vm_compute. reflexivity. Qed.
Example fmt_ex2 : format_fixed2 false false (of_decimal 2675 3) = "2.67".
Proof. vm_compute. reflexivity. Qed.
Example fmt_ex3 : format_fixed2 true false (of_decimal 125 3) = "+0.12".
Proof. vm_compute. reflexivity. Qed.
Example fmt_ex4 : format_fixed2 false true (neg (of_Z 1234567)) = "-1,234,567.00".
Proof. vm_compute. reflexivity. Qed.
Example fmt_ex5 : format_fixed2 false true (of_decimal 5 3) = "0.01".
Proof. vm_compute. reflexivity. Qed.
Example fmt_ex6 : format_int_grouped 123456 = "123,456".
Proof. vm_compute. reflexivity. Qed.
Example fmt_ex7 : int_of_float (of_decimal (-12399) 2) = Ok (-123)%Z.
Proof. vm_compute. reflexivity. Qed.
Example fmt_ex8 : format_fixed2 true false (neg (of_decimal 1 3)) = "-0.00".
Proof. vm_compute. reflexivity. Qed.
Example fmt_ex9 : format_fixed2 false false (of_decimal 375 3) = "0.38".
Proof. vm_compute. reflexivity. Qed.

(** ** Strings *)

#[local] Arguments String.append !s1 s2 : simpl nomatch.

Section StringFacts.

Lemma str_length_app (a b : string) :
  String.length (a +:+ b) = (String.length a + String.length b)%nat.
Proof. induction a as [|c a IH]; simpl; [reflexivity | now rewrite IH]. Qed.

Lemma str_app_assoc (a b c : string) : (a +:+ b) +:+ c = a +:+ (b +:+ c).
Proof. induction a as [|x a IH]; simpl; [reflexivity | now rewrite IH]. Qed.

Lemma str_drop_app (p q : string) : str_drop (String.length p) (p +:+ q) = q.
Proof. induction p as [|c p IH]; simpl; [now destruct q | exact IH]. Qed.

Lemma str_take_drop (n : nat) (s : string) : str_take n s +:+ str_drop n s = s.
Proof.
  revert s; induction n as [|n IH]; intros [|c s]; simpl; try reflexivity.
  now rewrite IH.
Qed.

Lemma str_drop_length (n : nat) (s : string) :
  String.length (str_drop n s) = (String.length s - n)%nat.
Proof. revert s; induction n as [|n IH]; intros [|c s]; simpl; auto. Qed.

Lemma startswith_app (pre r : string) : startswith (pre +:+ r) pre = true.
Proof.
  induction pre as [|c pre IH]; simpl; [reflexivity|].
  now rewrite Ascii.eqb_refl.
Qed.

Lemma startswith_split (s pre : string) :
  startswith s pre = true -> s = pre +:+ str_drop (String.length pre) s.
Proof.
  revert s; induction pre as [|c pre IH]; intros s H; simpl in *.
  - now destruct s.
  - destruct s as [|b s]; [discriminate|].
    apply andb_true_iff in H as [Hc Hs].
    apply Ascii.eqb_eq in Hc; subst b.
    simpl. f_equal. now apply IH.
Qed.

Lemma startswith_iff (s pre : string) :
  startswith s pre = true <-> exists r, s = pre +:+ r.
Proof.
  split.
  - intros H. eexists. now apply startswith_split.
  - intros [r ->]. apply startswith_app.
Qed.

Lemma endswith_app (p suf : string) : endswith (p +:+ suf) suf = true.
Proof.
  unfold endswith. rewrite str_length_app.
  apply andb_true_iff; split.
  - apply Nat.leb_le. lia.
  - replace (String.length p + String.length suf - String.length suf)%nat
      with (String.length p) by lia.
    rewrite str_drop_app. apply String.eqb_refl.
Qed.

(** [endswith] is the suffix relation. *)
Lemma endswith_iff (s suf : string) :
  endswith s suf = true <-> exists p, s = p +:+ suf.
Proof.
  split.
  - unfold endswith. intros H.
    apply andb_true_iff in H as [_ H]. apply String.eqb_eq in H.
    remember (String.length s - String.length suf)%nat as n.
    exists (str_take n s). rewrite <- H. symmetry. apply str_take_drop.
  - intros [p ->]. apply endswith_app.
Qed.

Lemma endswith_false_iff (s suf : string) :
  endswith s suf = false <-> ~ exists p, s = p +:+ suf.
Proof.
  rewrite <- endswith_iff. destruct (endswith s suf); split; intros; congruence.
Qed.

End StringFacts.

(** ** [str.replace] *)

Section ReplaceFacts.

Variables (o : ascii) (old' : string).
Let old : string := String o old'.

Lemma replace_scan_skip (new : string) (k : nat) (s : string) :
  replace_scan old new k s = replace_scan old new 0 (str_drop k s).
Proof.
  revert s; induction k as [|k IH]; intros s.
  - now destruct s.
  - destruct s as [|c s]; [reflexivity|]. simpl str_drop. rewrite <- IH. reflexivity.
Qed.

(** One step of the scan at the head of the string. *)
Lemma replace_cons (new : string) (c : ascii) (s : string) :
  replace (String c s) old new =
    if startswith (String c s) old
    then new +:+ replace (str_drop (String.length old') s) old new
    else String c (replace s old new).
Proof.
  unfold replace, old. cbn [replace_scan].
  destruct (startswith (String c s) (String o old')); [|reflexivity].
  rewrite replace_scan_skip.
  replace (String.length (String o old') - 1)%nat with (String.length old')
    by (simpl; lia).
  reflexivity.
Qed.

Lemma replace_nil (new : string) : replace "" old new = "".
Proof. reflexivity. Qed.

Lemma replace_match (new r : string) :
  replace (old +:+ r) old new = new +:+ replace r old new.
Proof.
  unfold old at 1. cbn [String.append]. rewrite replace_cons.
  change (String o (old' +:+ r)) with (old +:+ r).
  rewrite startswith_app, str_drop_app. reflexivity.
Qed.

Lemma replace_nomatch (new : string) (c : ascii) (s : string) :
  startswith (String c s) old = false ->
  replace (String c s) old new = String c (replace s old new).
Proof. intros H. now rewrite replace_cons, H. Qed.

(** Deleting the occurrences of [old] never makes the string longer. *)
Lemma replace_del_length_le (s : string) :
  (String.length (replace s old "") <= String.length s)%nat.
Proof.
  remember (String.length s) as n eqn:Hn. revert s Hn.
  induction n as [n IH] using lt_wf_ind. intros [|c s] Hn.
  - rewrite replace_nil. simpl. lia.
  - rewrite replace_cons.
    destruct (startswith (String c s) old) eqn:Hs.
    + cbn [String.append].
      pose proof (str_drop_length (String.length old') s) as Hd.
      simpl in Hn.
      specialize (IH (String.length (str_drop (String.length old') s))
                     ltac:(lia) _ eq_refl).
      lia.
    + simpl in *. specialize (IH (String.length s) ltac:(lia) s eq_refl). lia.
Qed.

(** ... and makes it strictly shorter when there is an occurrence. *)
Lemma replace_del_length_lt (s : string) :
  contains s old = true ->
  (String.length (replace s old "") < String.length s)%nat.
Proof.
  induction s as [|c s IH]; intros H.
  - discriminate H.
  - cbn [contains] in H. rewrite replace_cons.
    destruct (startswith (String c s) old) eqn:Hs.
    + cbn [String.append].
      pose proof (replace_del_length_le (str_drop (String.length old') s)) as Hle.
      rewrite str_drop_length in Hle. cbn [String.length]. lia.
    + simpl in H. specialize (IH H). cbn [String.length]. lia.
Qed.

(** Without an occurrence the string is returned as it is. *)
Lemma replace_not_contains (new s : string) :
  contains s old = false -> replace s old new = s.
Proof.
  induction s as [|c s IH]; intros H; [reflexivity|].
  cbn [contains] in H. apply orb_false_iff in H as [Hs Hc].
  rewrite replace_nomatch by exact Hs. now rewrite IH.
Qed.

End ReplaceFacts.

(** A three-character pattern whose first character does not occur again
    cannot overlap itself: [replace] then deletes every occurrence of it,
    wherever it stands. *)
Lemma replace_del_occurrence (a b c : ascii) (u v : string) :
  a <> b -> a <> c ->
  replace (u +:+ String a (String b (String c "")) +:+ v)
          (String a (String b (String c ""))) "" =
  replace u (String a (String b (String c ""))) ""
  +:+ replace v (String a (String b (String c ""))) "".
Proof.
  intros Hab Hac.
  remember (String a (String b (String c "")) +:+ v) as pv eqn:Hpv.
  remember (String.length u) as n eqn:Hn. revert u Hn.
  induction n as [n IH] using lt_wf_ind. intros u Hn.
  destruct u as [|x u].
  - rewrite replace_nil. cbn [String.append]. subst pv.
    rewrite replace_match. reflexivity.
  - destruct (startswith (String x u) (String a (String b (String c "")))) eqn:Hu.
    + (* the occurrence lies inside [u] *)
      apply startswith_split in Hu.
      remember (str_drop (String.length (String a (String b (String c ""))))
                         (String x u)) as w eqn:Hw.
      clear Hw. cbn [String.append] in Hu. injection Hu as -> ->.
      change (String a (String b (String c w)) +:+ pv)
        with (String a (String b (String c "")) +:+ (w +:+ pv)).
      change (String a (String b (String c w)))
        with (String a (String b (String c "")) +:+ w).
      rewrite !replace_match. cbn [String.append].
      apply (IH (String.length w)); [|reflexivity].
      cbn [String.length] in Hn. lia.
    + cbn [String.append]. rewrite !replace_cons, Hu.
      destruct (startswith (String x (u +:+ pv))
                  (String a (String b (String c "")))) eqn:Huv.
      * (* an occurrence across the end of [u]: impossible *)
        exfalso. subst pv. simpl in Hu, Huv.
        destruct u as [|y [|z u]]; simpl in Hu, Huv.
        -- destruct (Ascii.eqb_spec a x); [|discriminate].
           destruct (Ascii.eqb_spec b a); [congruence | discriminate].
        -- destruct (Ascii.eqb_spec a x); [|discriminate].
           destruct (Ascii.eqb_spec b y); [|discriminate].
           destruct (Ascii.eqb_spec c a); [congruence | discriminate].
        -- rewrite Hu in Huv. discriminate.
      * cbn [String.append]. f_equal.
        cbn [String.length] in Hn. apply (IH (String.length u)); [lia | reflexivity].
Qed.

(** ** The ticker: domestic suffix, foreign deletion, idempotence *)

Lemma ticker_domestic (s : string) :
  get_stock_data_ticker s "Indian Stocks" =
    if endswith s ".NS" || endswith s ".BO" then s else s +:+ ".NS".
Proof.
  unfold get_stock_data_ticker. cbn [String.eqb Ascii.eqb Bool.eqb].
  now destruct (endswith s ".NS" || endswith s ".BO").
Qed.

Lemma ticker_foreign (s m : string) :
  m <> "Indian Stocks" ->
  get_stock_data_ticker s m = replace (replace s ".NS" "") ".BO" "".
Proof.
  intros Hm. unfold get_stock_data_ticker.
  destruct (String.eqb_spec m "Indian Stocks"); [contradiction | reflexivity].
Qed.

Lemma ticker_domestic_has_suffix (s : string) :
  endswith (get_stock_data_ticker s "Indian Stocks") ".NS"
  || endswith (get_stock_data_ticker s "Indian Stocks") ".BO" = true.
Proof.
  rewrite ticker_domestic.
  destruct (endswith s ".NS" || endswith s ".BO") eqn:E; [exact E|].
  now rewrite endswith_app.
Qed.

(** C7: for the domestic market, a symbol that ends with neither [.NS]
    nor [.BO] comes back with exactly the one suffix [.NS] appended, and
    a symbol that already ends with [.NS] or [.BO] comes back unchanged. *)
Theorem domestic_suffix_once (s : string) :
  ((~ exists p, s = p +:+ ".NS") /\ (~ exists p, s = p +:+ ".BO") ->
     get_stock_data_ticker s "Indian Stocks" = s +:+ ".NS")
  /\ ((exists p, s = p +:+ ".NS") \/ (exists p, s = p +:+ ".BO") ->
     get_stock_data_ticker s "Indian Stocks" = s).
Proof.
  rewrite ticker_domestic. split.
  - intros [Hns Hbo].
    apply endswith_false_iff in Hns. apply endswith_false_iff in Hbo.
    now rewrite Hns, Hbo.
  - intros [H | H]; apply endswith_iff in H; rewrite H;
      [reflexivity | now rewrite orb_true_r].
Qed.

Lemma domestic_suffix_once_witness :
  get_stock_data_ticker "TCS" "Indian Stocks" = "TCS.NS"
  /\ get_stock_data_ticker "TCS.BO" "Indian Stocks" = "TCS.BO".
Proof.
  split.
  - apply (proj1 (domestic_suffix_once "TCS")).
    split; apply endswith_false_iff; reflexivity.
  - apply (proj2 (domestic_suffix_once "TCS.BO")).
    right. apply endswith_iff. reflexivity.
Defined.

(** C3, as the program has it: the ticker computation is idempotent for
    the domestic market on every symbol; for any other market it is
    idempotent at [s] exactly when the ticker of [s] contains neither
    [.NS] nor [.BO]. *)
Theorem ticker_idempotent_iff (s m : string) :
  get_stock_data_ticker (get_stock_data_ticker s m) m = get_stock_data_ticker s m
  <-> (m = "Indian Stocks"
       \/ (contains (get_stock_data_ticker s m) ".NS" = false
           /\ contains (get_stock_data_ticker s m) ".BO" = false)).
Proof.
  destruct (String.eqb_spec m "Indian Stocks") as [-> | Hm].
  - split; [now left | intros _].
    rewrite (ticker_domestic (get_stock_data_ticker s "Indian Stocks")).
    now rewrite ticker_domestic_has_suffix.
  - set (t := get_stock_data_ticker s m). split.
    + intros Hfix. right.
      rewrite ticker_foreign in Hfix by exact Hm.
      destruct (contains t ".NS") eqn:Hns.
      * exfalso.
        pose proof (replace_del_length_lt "." "NS" t Hns) as H1.
        pose proof (replace_del_length_le "." "BO" (replace t ".NS" "")) as H2.
        rewrite Hfix in H2. lia.
      * split; [reflexivity|].
        rewrite (replace_not_contains "." "NS" "" t Hns) in Hfix.
        destruct (contains t ".BO") eqn:Hbo; [|reflexivity].
        exfalso.
        pose proof (replace_del_length_lt "." "BO" t Hbo) as H1.
        rewrite Hfix in H1. lia.
    + intros [-> | [Hns Hbo]]; [contradiction|].
      rewrite ticker_foreign by exact Hm.
      rewrite (replace_not_contains "." "NS" "" t Hns).
      now rewrite (replace_not_contains "." "BO" "" t Hbo).
Qed.

(** C3 as stated fails for the foreign market: deleting [.BO] from
    [.N.BOS] leaves [.NS], which a second normalization deletes. *)
Lemma ticker_not_idempotent_foreign :
  get_stock_data_ticker (get_stock_data_ticker ".N.BOS" "US Stocks") "US Stocks"
  <> get_stock_data_ticker ".N.BOS" "US Stocks".
Proof. vm_compute. discriminate. Qed.

(** C10: for the foreign market the ticker is the symbol with [.NS]
    deleted and then [.BO] deleted; each deletion removes an occurrence
    wherever it stands in the string; and on a symbol that carries [.NS]
    inside, not at its end, the result differs from stripping a trailing
    suffix only. *)
Theorem foreign_deletes_everywhere :
  (forall s, get_stock_data_ticker s "US Stocks"
             = replace (replace s ".NS" "") ".BO" "")
  /\ (forall u v, replace (u +:+ ".NS" +:+ v) ".NS" ""
                  = replace u ".NS" "" +:+ replace v ".NS" "")
  /\ (forall u v, replace (u +:+ ".BO" +:+ v) ".BO" ""
                  = replace u ".BO" "" +:+ replace v ".BO" "")
  /\ (exists s, contains s ".NS" = true
                /\ endswith s ".NS" = false /\ endswith s ".BO" = false
                /\ get_stock_data_ticker s "US Stocks" = "A.B"
                /\ strip_trailing_suffix_spec s = s
                /\ get_stock_data_ticker s "US Stocks" <> strip_trailing_suffix_spec s).
Proof.
  split; [|split; [|split]].
  - intros s. apply ticker_foreign. discriminate.
  - intros u v. apply (replace_del_occurrence "." "N" "S"); discriminate.
  - intros u v. apply (replace_del_occurrence "." "B" "O"); discriminate.
  - exists "A.NS.B". repeat split; try reflexivity. vm_compute. discriminate.
Qed.

(** ** Currency formatting *)

Section FormatFacts.

Lemma replace_comma_cons (c : ascii) (s : string) :
  replace (String c s) "," "" =
    if Ascii.eqb "," c then replace s "," "" else String c (replace s "," "").
Proof.
  rewrite (replace_cons "," "" "" c s). cbn [startswith str_drop String.length].
  rewrite andb_true_r. now destruct (Ascii.eqb "," c).
Qed.

Lemma replace_comma_app (a b : string) :
  replace (a +:+ b) "," "" = replace a "," "" +:+ replace b "," "".
Proof.
  induction a as [|c a IH]; [reflexivity|].
  cbn [String.append]. rewrite !replace_comma_cons, IH.
  now destruct (Ascii.eqb "," c).
Qed.

Lemma contains_comma_cons (c : ascii) (s : string) :
  contains (String c s) "," = Ascii.eqb "," c || contains s ",".
Proof. cbn [contains startswith]. now rewrite andb_true_r. Qed.

(** Deleting the commas undoes the grouping of a comma-free string. *)
Lemma replace_group_thousands (s : string) :
  contains s "," = false -> replace (group_thousands s) "," "" = s.
Proof.
  induction s as [|c s IH]; intros H; [reflexivity|].
  rewrite contains_comma_cons in H. apply orb_false_iff in H as [Hc Hs].
  cbn [group_thousands]. rewrite replace_comma_cons, Hc, replace_comma_app, IH by exact Hs.
  now destruct ((0 <? String.length s)%nat && (String.length s mod 3 =? 0)%nat).
Qed.

Lemma string_of_uint_no_comma (d : Decimal.uint) :
  contains (NilEmpty.string_of_uint d) "," = false.
Proof.
  induction d; cbn [NilEmpty.string_of_uint];
    rewrite ?contains_comma_cons, ?IHd; reflexivity.
Qed.

Lemma digits_no_comma (n : Z) : contains (digits n) "," = false.
Proof.
  unfold digits, NilZero.string_of_uint.
  destruct (N.to_uint (Z.to_N n)); try apply string_of_uint_no_comma.
  reflexivity.
Qed.

Lemma two_digits_no_comma (n : Z) : contains (two_digits n) "," = false.
Proof.
  unfold two_digits. destruct (n <? 10)%Z; [|apply digits_no_comma].
  cbn [String.append]. rewrite contains_comma_cons, digits_no_comma. reflexivity.
Qed.

Lemma ungroup_magnitude (h : Z) :
  replace (fixed2_magnitude true h) "," "" = fixed2_magnitude false h.
Proof.
  unfold fixed2_magnitude. rewrite !replace_comma_app.
  rewrite replace_group_thousands by apply digits_no_comma.
  rewrite (replace_not_contains "," "" "" (two_digits (h mod 100)))
    by apply two_digits_no_comma.
  reflexivity.
Qed.

(** The grouped mode is the plain mode with separators put in. *)
Lemma ungroup_format_fixed2 (plus : bool) (x : f64) :
  replace (format_fixed2 plus true x) "," "" = format_fixed2 plus false x.
Proof.
  destruct x as [s | s | | s m e]; cbn [format_fixed2];
    rewrite ?replace_comma_app, ?ungroup_magnitude;
    try (destruct plus; reflexivity);
    destruct plus, s; reflexivity.
Qed.

End FormatFacts.

(** ** The text of an amount, against what a two-decimal amount is *)

Section AmountFacts.

Lemma hundredths_nonneg (m : positive) (e : Z) : (0 <= hundredths m e)%Z.
Proof.
  unfold hundredths. destruct (Z.leb_spec 0 e).
  - pose proof (Z.pow_pos_nonneg 2 e ltac:(lia) ltac:(lia)). nia.
  - unfold round_half_even_div.
    assert (Hd : (0 < 2 ^ (- e))%Z) by (apply Z.pow_pos_nonneg; lia).
    pose proof (Z.div_pos (Z.pos m * 100) (2 ^ (- e)) ltac:(lia) Hd) as Hq.
    destruct (_ <? _)%Z; [exact Hq|].
    destruct (_ <? _)%Z; [lia|]. destruct (Z.even _); lia.
Qed.

Lemma below_as_nat (n bound : Z) :
  (0 <= n < bound)%Z -> In (Z.to_nat n) (seq 0 (Z.to_nat bound)).
Proof. intros H. apply in_seq. lia. Qed.

(** The two digits after the point. *)
Lemma two_digits_shape (n : Z) :
  (0 <= n < 100)%Z ->
  match two_digits n with
  | String a (String b EmptyString) =>
      (Ascii.leb "0" a && Ascii.leb a "9") && (Ascii.leb "0" b && Ascii.leb b "9")
  | _ => false
  end = true.
Proof.
  intros H.
  assert (Hall : forallb
                   (fun k => match two_digits (Z.of_nat k) with
                             | String a (String b EmptyString) =>
                                 (Ascii.leb "0" a && Ascii.leb a "9")
                                 && (Ascii.leb "0" b && Ascii.leb b "9")
                             | _ => false
                             end)
                   (seq 0 (Z.to_nat 100)) = true) by (vm_compute; reflexivity).
  rewrite forallb_forall in Hall.
  specialize (Hall _ (below_as_nat n 100 H)).
  now rewrite Z2Nat.id in Hall by lia.
Qed.

(** Up to three digits before the point: nothing to group. *)
Lemma group_thousands_short (n : Z) :
  (0 <= n < 1000)%Z -> group_thousands (digits n) = digits n.
Proof.
  intros H.
  assert (Hall : forallb
                   (fun k => String.eqb (group_thousands (digits (Z.of_nat k)))
                                        (digits (Z.of_nat k)))
                   (seq 0 (Z.to_nat 1000)) = true) by (vm_compute; reflexivity).
  rewrite forallb_forall in Hall.
  specialize (Hall _ (below_as_nat n 1000 H)).
  rewrite Z2Nat.id in Hall by lia. now apply String.eqb_eq.
Qed.

End AmountFacts.

Section AmountSpecFacts.

(** Rounding to the nearest, ties to even. *)
Lemma round_half_even_div_nearest (n d : Z) :
  (0 < d)%Z ->
  let q := round_half_even_div n d in
  (2 * Z.abs (n - q * d) <= d)%Z
  /\ ((2 * Z.abs (n - q * d) = d)%Z -> Z.even q = true).
Proof.
  intros Hd. unfold round_half_even_div.
  pose proof (Z.div_mod n d ltac:(lia)) as Hdm.
  pose proof (Z.mod_pos_bound n d Hd) as Hr.
  destruct (Z.ltb_spec (2 * (n mod d)) d) as [Hlt | Hge]; cbv zeta.
  - split; [nia | intros H; nia].
  - destruct (Z.ltb_spec d (2 * (n mod d))) as [Hgt | Hle].
    + split; [nia | intros H; nia].
    + destruct (Z.even (n / d)) eqn:Hev.
      * split; [nia | intros _; exact Hev].
      * split; [nia|]. intros _.
        replace (n / d + 1)%Z with (Z.succ (n / d)) by lia.
        rewrite Z.even_succ, <- Z.negb_even, Hev. reflexivity.
Qed.

Lemma hundredths_nearest (m : positive) (e : Z) :
  nearest_hundredth m e (hundredths m e).
Proof.
  unfold nearest_hundredth, hundredths.
  destruct (Z.leb_spec 0 e) as [He | He].
  - rewrite Z.max_l, Z.max_r by lia. cbv zeta. change (2 ^ 0)%Z with 1%Z.
    replace (Z.pos m * 100 * 2 ^ e - Z.pos m * 2 ^ e * 100 * 1)%Z with 0%Z by lia.
    split; [cbn; lia | cbn; lia].
  - rewrite Z.max_r, Z.max_l by lia. cbv zeta. change (2 ^ 0)%Z with 1%Z.
    rewrite Z.mul_1_r.
    apply round_half_even_div_nearest. apply Z.pow_pos_nonneg; lia.
Qed.

(** Reading back the digits of a number. *)
Lemma read_string_of_uint (d : Decimal.uint) (acc : Z) :
  read_digits acc (NilEmpty.string_of_uint d) = Some (uint_value acc d).
Proof.
  revert acc. induction d; intros acc; cbn [NilEmpty.string_of_uint uint_value];
    [reflexivity | ..]; cbn [read_digits]; apply IHd.
Qed.

Lemma of_uint_acc_value (d : Decimal.uint) (acc : positive) :
  Z.pos (Pos.of_uint_acc d acc) = uint_value (Z.pos acc) d.
Proof.
  revert acc. induction d; intros acc; cbn [Pos.of_uint_acc uint_value];
    [reflexivity | ..]; rewrite IHd; f_equal; lia.
Qed.

Lemma of_uint_value (d : Decimal.uint) : Z.of_N (Pos.of_uint d) = uint_value 0 d.
Proof.
  induction d; cbn [Pos.of_uint uint_value]; [reflexivity | exact IHd | ..];
    cbn [Z.of_N]; rewrite of_uint_acc_value; reflexivity.
Qed.

Lemma unorm_fixed_point (d : Decimal.uint) :
  Decimal.unorm d = d ->
  NilEmpty.string_of_uint d = "0"
  \/ exists c s', NilEmpty.string_of_uint d = String c s' /\ c <> "0"%char.
Proof.
  intros H. destruct d as [|d|d|d|d|d|d|d|d|d|d];
    try (right; eexists _, _; split; [reflexivity | discriminate]).
  - discriminate H.
  - left. unfold Decimal.unorm in H. rewrite nzhead_D0 in H.
    destruct (Decimal.nzhead d) eqn:E.
    + injection H as <-. reflexivity.
    + exfalso. apply (nzhead_nonzero d d). now rewrite E, H.
    + discriminate H.
    + discriminate H.
    + discriminate H.
    + discriminate H.
    + discriminate H.
    + discriminate H.
    + discriminate H.
    + discriminate H.
    + discriminate H.
Qed.

(** [digits n] is the numeral of [n]. *)
Lemma digits_numeral (n : Z) : (0 <= n)%Z -> numeral_of n (digits n).
Proof.
  intros Hn. unfold numeral_of, digits.
  set (d := N.to_uint (Z.to_N n)).
  assert (Hd : Decimal.unorm d = d).
  { unfold d. rewrite <- (Unsigned.of_to (Z.to_N n)) at 2.
    now rewrite Unsigned.to_of. }
  assert (Hz : NilZero.string_of_uint d = NilEmpty.string_of_uint d).
  { destruct d; try reflexivity. discriminate Hd. }
  rewrite Hz. split; [|now apply unorm_fixed_point].
  rewrite read_string_of_uint, <- of_uint_value.
  change (Pos.of_uint d) with (N.of_uint d). unfold d.
  rewrite Unsigned.of_to. f_equal. apply Z2N.id, Hn.
Qed.

Lemma digits_nonempty (n : Z) : digits n <> "".
Proof.
  unfold digits. destruct (N.to_uint (Z.to_N n)); discriminate.
Qed.

(** The two digits after the point. *)
Lemma two_digits_value (r : Z) :
  (0 <= r < 100)%Z ->
  exists f1 f2,
    two_digits r = String f1 (String f2 "")
    /\ digit_of f1 = Some (r / 10)%Z /\ digit_of f2 = Some (r mod 10)%Z.
Proof.
  intros H.
  assert (Hall : forallb
                   (fun k =>
                      match two_digits (Z.of_nat k) with
                      | String f1 (String f2 EmptyString) =>
                          match digit_of f1, digit_of f2 with
                          | Some a, Some b =>
                              (a =? Z.of_nat k / 10)%Z && (b =? Z.of_nat k mod 10)%Z
                          | _, _ => false
                          end
                      | _ => false
                      end)
                   (seq 0 (Z.to_nat 100)) = true) by (vm_compute; reflexivity).
  rewrite forallb_forall in Hall.
  specialize (Hall _ (below_as_nat r 100 H)).
  rewrite Z2Nat.id in Hall by lia.
  destruct (two_digits r) as [|f1 [|f2 [|]]]; try discriminate.
  destruct (digit_of f1) as [a|] eqn:E1; [|discriminate].
  destruct (digit_of f2) as [b|] eqn:E2; [|discriminate].
  apply andb_true_iff in Hall as [Ha Hb].
  apply Z.eqb_eq in Ha, Hb. subst. now exists f1, f2.
Qed.

Lemma str_app_nil_r (s : string) : s +:+ "" = s.
Proof. induction s as [|c s IH]; [reflexivity|]. cbn [String.append]. now rewrite IH. Qed.

(** Cutting into groups of three. *)
Lemma concat_empty_cons (g : string) (rest : list string) :
  String.concat "" (g :: rest) = g +:+ String.concat "" rest.
Proof.
  destruct rest; cbn [String.concat]; [now rewrite str_app_nil_r | reflexivity].
Qed.

Lemma groups_length (g : string) (rest : list string) :
  Forall (fun g' => String.length g' = 3%nat) rest ->
  String.length (String.concat "" (g :: rest))
  = (String.length g + 3 * length rest)%nat.
Proof.
  intros H. revert g. induction H as [|g' rest Hg' _ IH]; intros g.
  - cbn [String.concat length]. lia.
  - rewrite concat_empty_cons, str_length_app, IH, Hg'. cbn [length]. lia.
Qed.

Lemma group_thousands_groups (s : string) :
  s <> "" ->
  exists groups,
    thousands_groups groups
    /\ String.concat "" groups = s
    /\ String.concat "," groups = group_thousands s.
Proof.
  induction s as [|c s IH]; intros Hs; [contradiction|].
  destruct s as [|c' s'].
  - exists [String c ""]. split; [|split]; try reflexivity.
    split; [cbn; lia | constructor].
  - destruct (IH ltac:(discriminate)) as (groups & Hg & Hcat & Hsep).
    destruct groups as [|g rest]; [contradiction|].
    destruct Hg as [Hlen Hrest].
    pose proof (groups_length g rest Hrest) as Htot. rewrite Hcat in Htot.
    set (s := String c' s') in *.
    assert (Hpos : (0 <? String.length s)%nat = true) by (unfold s; reflexivity).
    cbn [group_thousands]. rewrite Hpos. cbn [andb].
    destruct (Nat.eqb_spec (String.length s mod 3) 0) as [Hm | Hm].
    + (* the rest is whole groups: [c] opens a new group *)
      exists (String c "" :: g :: rest). split; [|split].
      * split; [cbn; lia|]. constructor; [|exact Hrest].
        rewrite Htot in Hm.
        replace (String.length g + 3 * length rest)%nat
          with (String.length g + length rest * 3)%nat in Hm by lia.
        rewrite Nat.Div0.mod_add in Hm.
        destruct (String.length g) as [|[|[|[|n]]]]; cbn in Hm; try lia.
      * rewrite concat_empty_cons, Hcat. reflexivity.
      * change (String.concat "," (String c "" :: g :: rest))
          with (String c "" +:+ "," +:+ String.concat "," (g :: rest)).
        rewrite Hsep. reflexivity.
    + (* [c] joins the first group *)
      exists (String c g :: rest). split; [|split].
      * split; [|exact Hrest]. cbn [String.length].
        rewrite Htot in Hm.
        replace (String.length g + 3 * length rest)%nat
          with (String.length g + length rest * 3)%nat in Hm by lia.
        rewrite Nat.Div0.mod_add in Hm.
        destruct (String.length g) as [|[|[|[|n]]]]; cbn in Hm; lia.
      * rewrite concat_empty_cons. cbn [String.append].
        now rewrite <- concat_empty_cons, Hcat.
      * rewrite <- Hsep. destruct rest; reflexivity.
Qed.

(** The magnitude printed by [format_fixed2] is a two-decimal text. *)
Lemma fixed2_magnitude_text (grouped negative : bool) (h : Z) :
  (0 <= h)%Z ->
  two_decimal_text grouped negative h
    ((if negative then "-" else "") +:+ fixed2_magnitude grouped h).
Proof.
  intros Hh. unfold two_decimal_text, fixed2_magnitude.
  destruct (group_thousands_groups (digits (h / 100)) (digits_nonempty _))
    as (groups & Hg & Hcat & Hsep).
  destruct (two_digits_value (h mod 100) ltac:(apply Z.mod_pos_bound; lia))
    as (f1 & f2 & Htd & Hf1 & Hf2).
  exists groups, f1, f2.
  split; [exact Hg|]. split.
  { rewrite Hcat. apply digits_numeral. apply Z.div_pos; lia. }
  split; [exact Hf1|]. split; [exact Hf2|].
  rewrite Htd. destruct grouped; [now rewrite Hsep | now rewrite Hcat].
Qed.

End AmountSpecFacts.

(** C9: [format_currency] writes the currency symbol and then the value
    as a two-decimal amount, with thousands separators exactly when the
    symbol is the rupee sign: the text has a minus sign for a negative
    value, the numeral of the whole part cut into groups of three from the
    right, joined by commas for the rupee sign and by nothing for every
    other symbol, a point and two digits, and the number it writes is the
    value rounded to the nearest hundredth, ties to even.  The grouped
    text without its commas is the plain text.  1234.5 is shown as
    "₹1,234.50" and as "$1234.50". *)
Theorem format_currency_modes :
  (forall (s : bool) (m : positive) (e : Z) (sym : string),
      exists h text,
        nearest_hundredth m e h
        /\ format_currency (S754_finite s m e) sym = sym +:+ text
        /\ two_decimal_text (String.eqb sym "₹") s h text)
  /\ (forall (s : bool) (sym : string),
        exists text,
          format_currency (S754_zero s) sym = sym +:+ text
          /\ two_decimal_text (String.eqb sym "₹") s 0 text)
  /\ (forall v, replace (format_fixed2 false true v) "," ""
                = format_fixed2 false false v)
  /\ format_currency (of_decimal 12345 1) "₹" = "₹1,234.50"
  /\ format_currency (of_decimal 12345 1) "$" = "$1234.50".
Proof.
  split; [|split; [|split; [|split]]].
  - intros s m e sym. exists (hundredths m e).
    exists ((if s then "-" else "")
            +:+ fixed2_magnitude (String.eqb sym "₹") (hundredths m e)).
    split; [apply hundredths_nearest|]. split.
    + unfold format_currency. destruct (String.eqb sym "₹"); destruct s; reflexivity.
    + apply fixed2_magnitude_text, hundredths_nonneg.
  - intros s sym.
    exists ((if s then "-" else "") +:+ fixed2_magnitude (String.eqb sym "₹") 0).
    split.
    + unfold format_currency. destruct (String.eqb sym "₹"); destruct s; reflexivity.
    + apply fixed2_magnitude_text. lia.
  - intros v. apply ungroup_format_fixed2.
  - vm_compute. reflexivity.
  - vm_compute. reflexivity.
Qed.

(** ** Running computations of [M] *)

Section RunFacts.

Context {A B : Type}.

Lemma bind_ok (m : M A) (k : A -> M B) (w w' : world) (a : A) :
  m w = (Ok a, w') -> (m ≫= k) w = k a w'.
Proof. intros H. unfold mbind, M_bind, bind. now rewrite H. Qed.

Lemma bind_raise (m : M A) (k : A -> M B) (w w' : world) (e : exn) :
  m w = (Raise e, w') -> (m ≫= k) w = (Raise e, w').
Proof. intros H. unfold mbind, M_bind, bind. now rewrite H. Qed.

Lemma try_except_ok (m : M A) (h : exn -> M A) (w w' : world) (a : A) :
  m w = (Ok a, w') -> try_except m h w = (Ok a, w').
Proof. intros H. unfold try_except. now rewrite H. Qed.

Lemma try_except_raise (m : M A) (h : exn -> M A) (w w' : world) (e : exn) :
  m w = (Raise e, w') -> try_except m h w = h e w'.
Proof. intros H. unfold try_except. now rewrite H. Qed.

End RunFacts.

Lemma read_frame_ok (w : world) (r : loc) (df : DataFrame) :
  heap w !! r = Some df -> read_frame r w = (Ok df, w).
Proof. intros H. unfold read_frame. now rewrite H. Qed.

Lemma len_ok (w : world) (r : loc) (df : DataFrame) :
  heap w !! r = Some df -> len r w = (Ok (nrows df), w).
Proof. intros H. unfold len. now rewrite (bind_ok _ _ _ _ _ (read_frame_ok _ _ _ H)). Qed.

Lemma getitem_ok (w : world) (r : loc) (df : DataFrame) (name : string) (s : Series) :
  heap w !! r = Some df -> lookup_column (columns df) name = Some s ->
  getitem r name w = (Ok s, w).
Proof.
  intros H Hc. unfold getitem.
  rewrite (bind_ok _ _ _ _ _ (read_frame_ok _ _ _ H)). now rewrite Hc.
Qed.

Lemma setitem_ok (w : world) (r : loc) (df : DataFrame) (name : string) (s : Series) :
  heap w !! r = Some df ->
  setitem r name s w =
    (Ok tt, mkWorld (<[r := mkDataFrame (index df) (set_column (columns df) name s)]> (heap w))
                    (ui w)).
Proof.
  intros H. unfold setitem.
  now rewrite (bind_ok _ _ _ _ _ (read_frame_ok _ _ _ H)).
Qed.

(** ** Columns *)

Lemma has_column_lookup (df : DataFrame) (name : string) :
  has_column df name = true <-> exists s, lookup_column (columns df) name = Some s.
Proof.
  unfold has_column. induction (columns df) as [|[n v] cols IH]; simpl.
  - split; [discriminate | intros [s H]; discriminate].
  - destruct (String.eqb n name); simpl; [|exact IH].
    split; [intros _; now exists v | reflexivity].
Qed.

Lemma lookup_set_column_eq (cols : list (string * Series)) (name : string) (v : Series) :
  lookup_column (set_column cols name v) name = Some v.
Proof.
  induction cols as [|[n old] cols IH]; simpl.
  - now rewrite String.eqb_refl.
  - destruct (String.eqb n name) eqn:E; simpl; rewrite E; [reflexivity | exact IH].
Qed.

Lemma lookup_set_column_ne (cols : list (string * Series)) (name other : string) (v : Series) :
  name <> other ->
  lookup_column (set_column cols name v) other = lookup_column cols other.
Proof.
  intros Hne. induction cols as [|[n old] cols IH]; simpl.
  - destruct (String.eqb_spec name other); [contradiction | reflexivity].
  - destruct (String.eqb_spec n name) as [-> | Hn]; simpl.
    + destruct (String.eqb_spec name other); [contradiction | reflexivity].
    + now rewrite IH.
Qed.

Lemma well_formed_lookup (df : DataFrame) (name : string) (s : Series) :
  well_formed df = true ->
  lookup_column (columns df) name = Some s ->
  length s = nrows df.
Proof.
  unfold well_formed. intros Hwf Hl.
  induction (columns df) as [|[n v] cols IH]; [discriminate|].
  cbn [forallb snd] in Hwf. apply andb_true_iff in Hwf as [Hv Hcols].
  cbn [lookup_column] in Hl. destruct (String.eqb n name).
  - injection Hl as <-. now apply Nat.eqb_eq.
  - now apply IH.
Qed.

(** ** The validator *)

Lemma required_columns_complete (df : DataFrame) :
  (forall c, In c required_columns -> has_column df c = true) <->
  forallb (has_column df) required_columns = true.
Proof. symmetry. apply forallb_forall. Qed.

Lemma required_columns_missing (df : DataFrame) :
  (exists c, In c required_columns /\ has_column df c = false) <->
  forallb (has_column df) required_columns = false.
Proof.
  split.
  - intros [c [Hin Hc]]. destruct (forallb _ _) eqn:E; [|reflexivity].
    rewrite forallb_forall in E. rewrite (E c Hin) in Hc. discriminate.
  - intros H. induction required_columns as [|c l IH]; [discriminate|].
    simpl in H. apply andb_false_iff in H as [H | H].
    + exists c. split; [now left | exact H].
    + destruct (IH H) as [c' [Hin Hc']]. exists c'. split; [now right | exact Hc'].
Qed.

Lemma process_stock_data_accepts (w : world) (r : loc) (df : DataFrame) :
  heap w !! r = Some df ->
  nrows df <> 0%nat ->
  (forall c, In c required_columns -> has_column df c = true) ->
  process_stock_data (Some r) w = (Ok (Some r), w).
Proof.
  intros Hr Hrows Hcols. unfold process_stock_data.
  rewrite (bind_ok _ _ _ _ _ (read_frame_ok _ _ _ Hr)).
  assert (He : is_empty df = false).
  { unfold is_empty. apply orb_false_iff. split.
    - now apply Nat.eqb_neq.
    - pose proof (Hcols "Open" ltac:(now left)) as Ho.
      unfold has_column in Ho. destruct (columns df); [discriminate | reflexivity]. }
  rewrite He. apply required_columns_complete in Hcols. rewrite Hcols.
  reflexivity.
Qed.

(** C4, as the program has it: a frame with at least one bar and all
    five required columns passes validation; the validator returns the
    very reference it was given and changes neither the frame nor the
    page, so the bars come back in the order they came in, sorted only if
    they already were. *)
Theorem validator_returns_input (w : world) (r : loc) (df : DataFrame) :
  heap w !! r = Some df ->
  nrows df <> 0%nat ->
  (forall c, In c required_columns -> has_column df c = true) ->
  process_stock_data (Some r) w = (Ok (Some r), w)
  /\ heap (snd (process_stock_data (Some r) w)) !! r = Some df.
Proof.
  intros Hr Hrows Hcols.
  rewrite (process_stock_data_accepts w r df Hr Hrows Hcols).
  split; [reflexivity | exact Hr].
Qed.

Lemma validator_returns_input_witness :
  process_stock_data (Some 0%nat) (fresh two_bars_unsorted)
  = (Ok (Some 0%nat), fresh two_bars_unsorted).
Proof.
  apply (validator_returns_input (fresh two_bars_unsorted) 0%nat two_bars_unsorted).
  - reflexivity.
  - discriminate.
  - intros c Hc. simpl in Hc.
    repeat (destruct Hc as [<- | Hc]; [reflexivity|]). contradiction.
Defined.

(** C4 as stated fails: two bars given with the later one first pass
    validation and are returned in that same, descending, order. *)
Lemma validator_does_not_sort :
  exists df',
    process_stock_data (Some 0%nat) (fresh two_bars_unsorted)
    = (Ok (Some 0%nat), fresh df')
    /\ index df' = [2%Z; 1%Z]
    /\ ascending (index df') = false.
Proof. exists two_bars_unsorted. repeat split. Qed.

(** C5, as the program has it: an absent input, a frame without bars
    and a frame that lacks a required column all make the validator return
    [None]; the first two leave the page as it is, the third adds the
    message "Missing required columns in data" to it. *)
Theorem validator_rejections (w : world) :
  process_stock_data None w = (Ok None, w)
  /\ (forall r df, heap w !! r = Some df -> nrows df = 0%nat ->
        process_stock_data (Some r) w = (Ok None, w))
  /\ (forall r df, heap w !! r = Some df -> is_empty df = false ->
        (exists c, In c required_columns /\ has_column df c = false) ->
        process_stock_data (Some r) w
        = (Ok None,
           mkWorld (heap w) (ui w ++ [StError "Missing required columns in data"]))).
Proof.
  split; [reflexivity | split].
  - intros r df Hr Hrows. unfold process_stock_data.
    rewrite (bind_ok _ _ _ _ _ (read_frame_ok _ _ _ Hr)).
    unfold is_empty. rewrite Hrows. reflexivity.
  - intros r df Hr He Hmiss. unfold process_stock_data.
    rewrite (bind_ok _ _ _ _ _ (read_frame_ok _ _ _ Hr)), He.
    apply required_columns_missing in Hmiss. rewrite Hmiss. reflexivity.
Qed.

Lemma validator_rejections_witness :
  process_stock_data (Some 0%nat) (fresh zero_bars) = (Ok None, fresh zero_bars)
  /\ process_stock_data (Some 0%nat) (fresh no_volume)
     = (Ok None,
        mkWorld (heap (fresh no_volume)) [StError "Missing required columns in data"]).
Proof.
  split.
  - apply (proj1 (proj2 (validator_rejections (fresh zero_bars))) 0%nat zero_bars);
      reflexivity.
  - apply (proj2 (proj2 (validator_rejections (fresh no_volume))) 0%nat no_volume).
    + reflexivity.
    + reflexivity.
    + exists "Volume". split; [simpl; tauto | reflexivity].
Defined.

(** C5 as stated fails: the validator's result for an absent input, for
    a frame without bars and for a frame without a [Volume] column is one
    and the same value, [None]. *)
Lemma validator_failures_same_result :
  fst (process_stock_data None (fresh zero_bars)) = Ok None
  /\ fst (process_stock_data (Some 0%nat) (fresh zero_bars)) = Ok None
  /\ fst (process_stock_data (Some 0%nat) (fresh no_volume)) = Ok None
  /\ fst (process_stock_data (Some 0%nat) (fresh zero_bars))
     = fst (process_stock_data (Some 0%nat) (fresh no_volume)).
Proof. repeat split. Qed.

(** ** binary64 arithmetic: rounding a mantissa that is not negative *)

Section FloatFacts.

Lemma shr_1_nonneg (mrs : shr_record) :
  (0 <= shr_m mrs)%Z -> (0 <= shr_m (shr_1 mrs))%Z.
Proof.
  destruct mrs as [m r s]. destruct m as [|[p|p|]|p]; simpl; lia.
Qed.

Lemma iter_shr_1_nonneg (p : positive) (mrs : shr_record) :
  (0 <= shr_m mrs)%Z -> (0 <= shr_m (SpecFloat.iter_pos shr_1 p mrs))%Z.
Proof.
  revert mrs. induction p as [p IH | p IH |]; intros mrs H; simpl.
  - apply IH, IH, shr_1_nonneg, H.
  - apply IH, IH, H.
  - apply shr_1_nonneg, H.
Qed.

Lemma shr_fexp_nonneg (m e : Z) (l : location) :
  (0 <= m)%Z -> (0 <= shr_m (fst (shr_fexp prec emax m e l)))%Z.
Proof.
  intros H. unfold shr_fexp, shr.
  assert (H0 : (0 <= shr_m (shr_record_of_loc m l))%Z)
    by (destruct l as [|[]]; exact H).
  destruct (fexp prec emax (Zdigits2 m + e) - e)%Z; simpl; try exact H0.
  now apply iter_shr_1_nonneg.
Qed.

Lemma round_nearest_even_nonneg (m : Z) (l : location) :
  (0 <= m)%Z -> (0 <= round_nearest_even m l)%Z.
Proof.
  intros H. destruct l as [|[]]; simpl; try lia.
  destruct (Z.even m); lia.
Qed.

End FloatFacts.

(** ** Series *)

Section SeriesFacts.

Lemma dropna_all_nan (s : Series) : forallb is_nan s = true -> dropna s = [].
Proof.
  unfold dropna. induction s as [|x s IH]; intros H; [reflexivity|].
  cbn [forallb] in H. apply andb_true_iff in H as [Hx Hs].
  cbn [List.filter]. rewrite Hx. cbn [negb]. now apply IH.
Qed.

Lemma iloc_last (s : Series) (x : f64) :
  nth_error s (length s - 1) = Some x -> s <> [] -> iloc s (-1) = Ok x.
Proof.
  intros H Hs. unfold iloc.
  assert (Hl : (0 < length s)%nat) by (destruct s; [contradiction | simpl; lia]).
  cbn [Z.ltb Z.compare].
  destruct (Z.leb_spec 0 (Z.of_nat (length s) + -1)); [|lia].
  destruct (Z.ltb_spec (Z.of_nat (length s) + -1) (Z.of_nat (length s))); [|lia].
  cbn [andb].
  replace (Z.to_nat (Z.of_nat (length s) + -1)) with (length s - 1)%nat by lia.
  now rewrite H.
Qed.

Lemma diff_length (s : Series) : length (diff s) = length s.
Proof.
  destruct s as [|x s]; [reflexivity|]. simpl. f_equal.
  revert x. induction s as [|y s IH]; intros x; [reflexivity|].
  simpl. now rewrite IH.
Qed.

(** The depth of the halving never exceeds the fuel that
    [pairwise_sum] gives: more fuel changes nothing. *)
Lemma pairwise_sum_fuel_enough (fuel : nat) (a : Series) :
  (length a <= fuel)%nat -> pairwise_sum_fuel fuel a = pairwise_sum a.
Proof.
  assert (H : forall f1 f2 b, (length b <= f1)%nat -> (length b <= f2)%nat ->
                pairwise_sum_fuel f1 b = pairwise_sum_fuel f2 b).
  { induction f1 as [|f1 IH]; intros f2 b H1 H2.
    - destruct b; [|simpl in H1; lia]. now destruct f2.
    - destruct f2 as [|f2].
      + destruct b; [reflexivity | simpl in H2; lia].
      + cbn [pairwise_sum_fuel].
        destruct (Nat.ltb_spec (length b) 8); [reflexivity|].
        destruct (Nat.leb_spec (length b) 128); [reflexivity|].
        set (n2 := (length b / 2 - (length b / 2) mod 8)%nat).
        assert (Hn2 : (0 < n2 < length b)%nat).
        { unfold n2.
          pose proof (Nat.div_mod_eq (length b) 2).
          pose proof (Nat.mod_upper_bound (length b) 2 ltac:(lia)).
          pose proof (Nat.mod_upper_bound (length b / 2) 8 ltac:(lia)).
          lia. }
        f_equal; apply IH; rewrite ?length_firstn, ?length_skipn; lia. }
  intros Hf. unfold pairwise_sum. now apply H.
Qed.

(** All the values are NaN: nothing is left and the mean is NaN. *)
Lemma series_mean_all_nan (s : Series) :
  forallb is_nan s = true -> series_mean s = nan.
Proof. intros H. unfold series_mean. now rewrite (dropna_all_nan s H). Qed.

End SeriesFacts.

(** ** The rolling mean *)

Section RollingFacts.

Lemma feq_refl (x : f64) : feq x x = negb (is_nan x).
Proof.
  destruct x as [s | s | | s m e]; try (destruct s; reflexivity); [reflexivity|].
  unfold feq, SFeqb, SFcompare.
  rewrite Z.compare_refl, Pos.compare_cont_refl. now destruct s.
Qed.

Lemma add_mean_nobs (st : mean_state) (v : f64) :
  nobs (add_mean st v) = (nobs st + if negb (is_nan v) then 1 else 0)%Z.
Proof.
  unfold add_mean. rewrite feq_refl.
  destruct (is_nan v); cbn [negb nobs]; lia.
Qed.

Lemma remove_mean_nobs (st : mean_state) (v : f64) :
  nobs (remove_mean st v) = (nobs st - if negb (is_nan v) then 1 else 0)%Z.
Proof.
  unfold remove_mean. rewrite feq_refl.
  destruct (is_nan v); cbn [negb nobs]; lia.
Qed.

Lemma add_mean_neg_ct (st : mean_state) (v : f64) :
  neg_ct (add_mean st v)
  = (neg_ct st + if negb (is_nan v) && signbit v then 1 else 0)%Z.
Proof.
  unfold add_mean. rewrite feq_refl.
  destruct (is_nan v); cbn [negb neg_ct andb]; [lia|].
  destruct (signbit v); lia.
Qed.

Lemma remove_mean_neg_ct (st : mean_state) (v : f64) :
  neg_ct (remove_mean st v)
  = (neg_ct st - if negb (is_nan v) && signbit v then 1 else 0)%Z.
Proof.
  unfold remove_mean. rewrite feq_refl.
  destruct (is_nan v); cbn [negb neg_ct andb]; [lia|].
  destruct (signbit v); lia.
Qed.

Lemma remove_mean_prev (st : mean_state) (v : f64) :
  prev_value (remove_mean st v) = prev_value st
  /\ num_consecutive_same_value (remove_mean st v) = num_consecutive_same_value st.
Proof.
  unfold remove_mean. destruct (feq v v); split; reflexivity.
Qed.

Lemma add_mean_prev (st : mean_state) (v : f64) :
  prev_value (add_mean st v) = if is_nan v then prev_value st else v.
Proof.
  unfold add_mean. rewrite feq_refl. now destruct (is_nan v).
Qed.

Lemma add_mean_run (st : mean_state) (v : f64) :
  is_nan v = false ->
  num_consecutive_same_value (add_mean st v)
  = if feq v (prev_value st) then (num_consecutive_same_value st + 1)%Z else 1%Z.
Proof. intros H. unfold add_mean. rewrite feq_refl, H. reflexivity. Qed.

Lemma add_mean_run_pos (st : mean_state) (v : f64) :
  (0 <= num_consecutive_same_value st)%Z ->
  (0 <= num_consecutive_same_value (add_mean st v))%Z.
Proof.
  intros H. unfold add_mean. destruct (feq v v); [|exact H].
  cbn [num_consecutive_same_value]. destruct (feq v (prev_value st)); lia.
Qed.

(** Slices of one row and of none. *)
Lemma slice_one (a : nat) (v : Series) :
  (a < length v)%nat -> slice a (S a) v = [nth a v nan].
Proof.
  intros H. unfold slice. replace (S a - a)%nat with 1%nat by lia.
  revert a H. induction v as [|x v IH]; intros a H; [simpl in H; lia|].
  destruct a as [|a]; [reflexivity|]. cbn [skipn nth]. apply IH. simpl in H. lia.
Qed.

Lemma slice_none (a : nat) (v : Series) : slice a a v = [].
Proof. unfold slice. now rewrite Nat.sub_diag. Qed.

Variable values : Series.
Variable w : nat.
Hypothesis Hw : (2 <= w)%nat.

Lemma state_at_0 :
  (0 < length values)%nat ->
  state_at values w 0 = add_mean (mean_init (nth 0 values nan)) (nth 0 values nan).
Proof.
  intros H. unfold state_at. cbn [seq fold_left]. unfold roll_mean_step.
  cbn [Nat.eqb orb]. unfold window_start, window_end.
  replace (0 + 1 - w)%nat with 0%nat by lia.
  change (0 + 1)%nat with 1%nat. now rewrite slice_one.
Qed.

Lemma state_at_S (i : nat) :
  (S i < length values)%nat ->
  state_at values w (S i)
  = add_mean (if (w <=? S i)%nat
              then remove_mean (state_at values w i) (nth (S i - w) values nan)
              else state_at values w i)
             (nth (S i) values nan).
Proof.
  intros H. unfold state_at at 1. rewrite seq_S, fold_left_app. cbn [fold_left].
  fold (state_at values w i). change (0 + S i)%nat with (S i).
  unfold roll_mean_step. cbn [Nat.eqb orb].
  unfold window_start, window_end.
  replace (S i - 1 + 1)%nat with (S i) by lia.
  replace (S i + 1)%nat with (S (S i)) by lia.
  destruct (Nat.leb_spec (S i) (S (S i) - w)) as [Hle | _]; [lia|].
  rewrite slice_one by exact H. cbn [fold_left]. f_equal.
  destruct (Nat.leb_spec w (S i)) as [Hws | Hws].
  - replace (S (S i) - w)%nat with (S (S i - w)) by lia.
    rewrite slice_one by lia. reflexivity.
  - replace (S i - w)%nat with 0%nat by lia.
    replace (S (S i) - w)%nat with 0%nat by lia.
    now rewrite slice_none.
Qed.

(** The values of the rolling mean are [calc_mean] of the accumulators
    after each row. *)
Lemma roll_mean_from_nth (minp : Z) (rows : list nat) (st : mean_state) (k : nat) :
  (k < length rows)%nat ->
  nth_error (roll_mean_from values w minp rows st) k
  = Some (calc_mean minp (fold_left (roll_mean_step values w) (firstn (S k) rows) st)).
Proof.
  revert st k. induction rows as [|i rows IH]; intros st k H; [simpl in H; lia|].
  destruct k as [|k]; [reflexivity|].
  cbn [roll_mean_from nth_error]. rewrite IH by (simpl in H; lia). reflexivity.
Qed.

Lemma roll_mean_nth (minp : Z) (i : nat) :
  (i < length values)%nat ->
  nth_error (roll_mean values w minp) i = Some (calc_mean minp (state_at values w i)).
Proof.
  intros H. unfold roll_mean. rewrite roll_mean_from_nth by (now rewrite length_seq).
  rewrite take_seq. replace (Nat.min (S i) (length values)) with (S i) by lia.
  reflexivity.
Qed.

Local Abbreviation count_rows p n := (count_upto p values n).

Lemma firstn_S_nth (n : nat) :
  (n < length values)%nat ->
  firstn (S n) values = firstn n values ++ [nth n values nan].
Proof.
  clear Hw. revert n. induction values as [|x v IH]; intros n H; [simpl in H; lia|].
  destruct n as [|n]; [reflexivity|].
  cbn [firstn nth app]. f_equal. apply IH. simpl in H. lia.
Qed.

(** Up to row [w - 1] nothing leaves the window: the accumulators are
    those of one pass over the rows so far. *)
Lemma state_at_prefix (i : nat) :
  (i < length values)%nat -> (S i <= w)%nat ->
  state_at values w i
  = fold_left add_mean (firstn (S i) values) (mean_init (nth 0 values nan)).
Proof.
  induction i as [|i IH]; intros Hi Hiw.
  - rewrite state_at_0 by lia. rewrite firstn_S_nth by lia. reflexivity.
  - rewrite state_at_S by exact Hi.
    destruct (Nat.leb_spec w (S i)); [lia|].
    rewrite IH by lia. rewrite (firstn_S_nth (S i)) by exact Hi.
    now rewrite fold_left_app.
Qed.

Lemma count_upto_S (p : f64 -> bool) (n : nat) :
  (n < length values)%nat ->
  count_rows p (S n) = (count_rows p n + if p (nth n values nan) then 1 else 0)%Z.
Proof.
  intros H. unfold count_upto.
  rewrite firstn_S_nth, List.filter_app, length_app by exact H. cbn [List.filter].
  destruct (p (nth n values nan)); cbn [length]; lia.
Qed.

Lemma count_range (p : f64 -> bool) (a d : nat) :
  (a + d <= length values)%nat ->
  (0 <= count_rows p (a + d) - count_rows p a <= Z.of_nat d)%Z
  /\ ((forall j, (a <= j < a + d)%nat -> p (nth j values nan) = true) ->
      (count_rows p (a + d) - count_rows p a = Z.of_nat d)%Z)
  /\ ((exists j, (a <= j < a + d)%nat /\ p (nth j values nan) = false) ->
      (count_rows p (a + d) - count_rows p a < Z.of_nat d)%Z).
Proof.
  induction d as [|d IH]; intros H.
  - rewrite Nat.add_0_r. split; [lia|]. split; [lia|]. intros (j & Hj & _). lia.
  - destruct (IH ltac:(lia)) as (Hle & Hall & Hsome).
    replace (a + S d)%nat with (S (a + d)) by lia.
    rewrite count_upto_S by lia.
    split; [|split].
    + destruct (p (nth (a + d) values nan)); lia.
    + intros Hp. rewrite (Hp (a + d)%nat) by lia.
      specialize (Hall ltac:(intros j Hj; apply Hp; lia)). lia.
    + intros (j & Hj & Hpj).
      destruct (Nat.eq_dec j (a + d)) as [-> | Hne].
      * rewrite Hpj. lia.
      * specialize (Hsome ltac:(exists j; split; [lia | exact Hpj])).
        destruct (p (nth (a + d) values nan)); lia.
Qed.

(** An accumulator that goes up by one for each row with [p] that
    enters and down by one for each that leaves counts the rows with [p]
    in the window. *)
Lemma window_counter (f : mean_state -> Z) (p : f64 -> bool) :
  (forall x, f (mean_init x) = 0%Z) ->
  (forall st v, f (add_mean st v) = (f st + if p v then 1 else 0)%Z) ->
  (forall st v, f (remove_mean st v) = (f st - if p v then 1 else 0)%Z) ->
  forall i, (i < length values)%nat ->
    f (state_at values w i) = (count_rows p (S i) - count_rows p (S i - w))%Z.
Proof.
  intros Hinit Hadd Hrem. induction i as [|i IH]; intros Hi.
  - rewrite state_at_0 by lia. rewrite Hadd, Hinit.
    replace (1 - w)%nat with 0%nat by lia.
    rewrite count_upto_S by lia. unfold count_upto. cbn [firstn List.filter length]. lia.
  - rewrite state_at_S by exact Hi. rewrite Hadd.
    rewrite (count_upto_S p (S i)) by exact Hi.
    destruct (Nat.leb_spec w (S i)) as [Hws | Hws].
    + rewrite Hrem, IH by lia.
      replace (S (S i) - w)%nat with (S (S i - w)) by lia.
      rewrite (count_upto_S p (S i - w)) by lia. lia.
    + rewrite IH by lia.
      replace (S (S i) - w)%nat with 0%nat by lia.
      replace (S i - w)%nat with 0%nat by lia. lia.
Qed.

Lemma nobs_counts (i : nat) :
  (i < length values)%nat ->
  nobs (state_at values w i)
  = (count_rows (fun x => negb (is_nan x)) (S i)
     - count_rows (fun x => negb (is_nan x)) (S i - w))%Z.
Proof.
  apply window_counter; [reflexivity | apply add_mean_nobs | apply remove_mean_nobs].
Qed.

Lemma neg_ct_counts (i : nat) :
  (i < length values)%nat ->
  neg_ct (state_at values w i)
  = (count_rows (fun x => negb (is_nan x) && signbit x) (S i)
     - count_rows (fun x => negb (is_nan x) && signbit x) (S i - w))%Z.
Proof.
  apply window_counter; [reflexivity | apply add_mean_neg_ct | apply remove_mean_neg_ct].
Qed.

(** Never more observations than rows in the window. *)
Lemma nobs_bound (i : nat) :
  (i < length values)%nat ->
  (0 <= nobs (state_at values w i) <= Z.of_nat (Nat.min w (S i)))%Z.
Proof.
  intros Hi. rewrite nobs_counts by exact Hi.
  destruct (Nat.le_ge_cases w (S i)) as [Hws | Hws].
  - pose proof (proj1 (count_range (fun x => negb (is_nan x)) (S i - w) w
                         ltac:(lia))) as H.
    replace (S i - w + w)%nat with (S i) in H by lia. lia.
  - replace (S i - w)%nat with 0%nat by lia.
    pose proof (proj1 (count_range (fun x => negb (is_nan x)) 0 (S i)
                         ltac:(lia))) as H.
    cbn [Nat.add] in H. lia.
Qed.

(** Before row [w - 1] the window is not full. *)
Lemma calc_mean_early (i : nat) :
  (i < length values)%nat -> (S i < w)%nat ->
  calc_mean (Z.of_nat w) (state_at values w i) = nan.
Proof.
  intros Hi Hearly. unfold calc_mean.
  pose proof (nobs_bound i Hi) as Hb.
  destruct (Z.leb_spec (Z.of_nat w) (nobs (state_at values w i))); [lia | reflexivity].
Qed.

(** A NaN in the window leaves it short of an observation. *)
Lemma calc_mean_missing (i j : nat) :
  (i < length values)%nat -> (S i - w <= j <= i)%nat ->
  is_nan (nth j values nan) = true ->
  calc_mean (Z.of_nat w) (state_at values w i) = nan.
Proof.
  intros Hi Hj Hnan.
  destruct (Nat.lt_ge_cases (S i) w) as [Hearly | Hfull];
    [now apply calc_mean_early|].
  unfold calc_mean. rewrite nobs_counts by exact Hi.
  pose proof (proj2 (proj2 (count_range (fun x => negb (is_nan x)) (S i - w) w
                              ltac:(lia)))) as H.
  replace (S i - w + w)%nat with (S i) in H by lia.
  specialize (H ltac:(exists j; split; [lia | now rewrite Hnan])).
  match goal with |- context [(?a <=? ?b)%Z] => destruct (Z.leb_spec a b) end;
    [lia | reflexivity].
Qed.

(** A full window without NaN holds [w] observations. *)
Lemma nobs_full (i : nat) :
  (i < length values)%nat -> (w <= S i)%nat ->
  (forall j, (S i - w <= j <= i)%nat -> is_nan (nth j values nan) = false) ->
  nobs (state_at values w i) = Z.of_nat w.
Proof.
  intros Hi Hfull Hobs. rewrite nobs_counts by exact Hi.
  pose proof (proj1 (proj2 (count_range (fun x => negb (is_nan x)) (S i - w) w
                              ltac:(lia)))) as H.
  replace (S i - w + w)%nat with (S i) in H by lia.
  apply H. intros j Hj. rewrite Hobs by lia. reflexivity.
Qed.

(** The last observation and the run of equal observations that ends
    with it. *)
Lemma run_nonneg (i : nat) :
  (i < length values)%nat ->
  (0 <= num_consecutive_same_value (state_at values w i))%Z.
Proof.
  induction i as [|i IH]; intros Hi.
  - rewrite state_at_0 by lia. apply add_mean_run_pos. cbn. lia.
  - rewrite state_at_S by exact Hi. apply add_mean_run_pos.
    destruct (w <=? S i)%nat; [rewrite (proj2 (remove_mean_prev _ _))|]; apply IH; lia.
Qed.

Lemma prev_value_in (i : nat) :
  (i < length values)%nat -> In (prev_value (state_at values w i)) values.
Proof.
  induction i as [|i IH]; intros Hi.
  - rewrite state_at_0 by lia. rewrite add_mean_prev. cbn [prev_value mean_init].
    destruct (is_nan _); apply nth_In; lia.
  - rewrite state_at_S by exact Hi. rewrite add_mean_prev.
    destruct (is_nan (nth (S i) values nan)); [|now apply nth_In].
    destruct (w <=? S i)%nat; [rewrite (proj1 (remove_mean_prev _ _))|]; apply IH; lia.
Qed.

Lemma run_of_equal (x : f64) (i k : nat) :
  (i < length values)%nat -> (1 <= k <= S i)%nat -> is_nan x = false ->
  (forall j, (S i - k <= j <= i)%nat -> nth j values nan = x) ->
  prev_value (state_at values w i) = x
  /\ (Z.of_nat k <= num_consecutive_same_value (state_at values w i))%Z.
Proof.
  intros Hi Hk Hx. revert k Hk. induction i as [|i IH]; intros k Hk Hrun.
  - rewrite state_at_0 by lia. rewrite (Hrun 0%nat) by lia.
    rewrite add_mean_prev, add_mean_run by exact Hx. rewrite Hx.
    cbn [prev_value mean_init num_consecutive_same_value].
    split; [reflexivity|]. rewrite feq_refl, Hx. cbn [negb]. lia.
  - rewrite state_at_S by exact Hi. rewrite (Hrun (S i)) by lia.
    rewrite add_mean_prev, add_mean_run by exact Hx. rewrite Hx.
    split; [reflexivity|].
    set (st := if (w <=? S i)%nat then _ else _).
    assert (Hst : prev_value st = prev_value (state_at values w i)
                  /\ num_consecutive_same_value st
                     = num_consecutive_same_value (state_at values w i)).
    { unfold st. destruct (w <=? S i)%nat; [apply remove_mean_prev | now split]. }
    destruct Hst as [-> ->].
    destruct (Nat.eq_dec k 1) as [-> | Hk1].
    + pose proof (run_nonneg i ltac:(lia)).
      destruct (feq x _); lia.
    + destruct (IH ltac:(lia) (k - 1)%nat ltac:(lia)) as [Hp Hn].
      { intros j Hj. apply Hrun. lia. }
      rewrite Hp, feq_refl, Hx. cbn [negb]. lia.
Qed.

(** A full window of one and the same number has that number as its
    mean. *)
Lemma calc_mean_same (x : f64) (i : nat) :
  (i < length values)%nat -> (w <= S i)%nat -> is_nan x = false ->
  (forall j, (S i - w <= j <= i)%nat -> nth j values nan = x) ->
  calc_mean (Z.of_nat w) (state_at values w i) = x.
Proof.
  intros Hi Hfull Hx Hsame. unfold calc_mean.
  rewrite (nobs_full i Hi Hfull) by (intros j Hj; now rewrite Hsame).
  destruct (run_of_equal x i w Hi ltac:(lia) Hx Hsame) as [Hp Hn].
  rewrite Z.leb_refl. destruct (Z.ltb_spec 0 (Z.of_nat w)); [|lia]. cbn [andb].
  destruct (Z.leb_spec (Z.of_nat w) (num_consecutive_same_value (state_at values w i)));
    [exact Hp | lia].
Qed.

(** When no observation has the sign bit, the mean is not below
    zero. *)
Lemma calc_mean_not_negative (i : nat) :
  (i < length values)%nat ->
  (forall x, In x values -> is_nan x = true \/ signbit x = false) ->
  ltb (calc_mean (Z.of_nat w) (state_at values w i)) (S754_zero false) = false.
Proof.
  intros Hi Hsign. unfold calc_mean.
  destruct ((Z.of_nat w <=? _)%Z && _); [|reflexivity].
  destruct (_ <=? _)%Z.
  - destruct (Hsign _ (prev_value_in i Hi)) as [H | H];
      destruct (prev_value (state_at values w i)) as [s | s | | s m e];
      try discriminate; try reflexivity; cbn [signbit] in H; subst; reflexivity.
  - assert (Hneg : neg_ct (state_at values w i) = 0%Z).
    { rewrite neg_ct_counts by exact Hi.
      assert (Hz : forall n, (n <= length values)%nat ->
                     count_rows (fun x => negb (is_nan x) && signbit x) n = 0%Z).
      { induction n as [|n IHn]; intros Hn; [reflexivity|].
        rewrite count_upto_S, IHn by lia.
        destruct (Hsign (nth n values nan) ltac:(apply nth_In; lia)) as [H | H];
          rewrite H; cbn [negb andb]; [reflexivity|].
        now rewrite andb_false_r. }
      rewrite !Hz by lia. reflexivity. }
    rewrite Hneg. cbn [Z.eqb andb].
    destruct (ltb (div _ _) (S754_zero false)) eqn:E; [reflexivity|].
    match goal with
    | |- ltb (if ?c then _ else _) _ = _ => destruct c
    end; [reflexivity | exact E].
Qed.

End RollingFacts.

(** *** [rolling_mean] of a column *)

Section RollingMeanFacts.

Lemma roll_mean_from_length (values : Series) (w : nat) (minp : Z)
      (rows : list nat) (st : mean_state) :
  length (roll_mean_from values w minp rows st) = length rows.
Proof.
  revert st. induction rows as [|i rows IH]; intros st; [reflexivity|].
  cbn [roll_mean_from length]. now rewrite IH.
Qed.

Lemma prep_values_length (s : Series) : length (prep_values s) = length s.
Proof. apply length_map. Qed.

Lemma prep_values_nth (s : Series) (j : nat) :
  nth j (prep_values s) nan = if is_inf (nth j s nan) then nan else nth j s nan.
Proof.
  exact (map_nth (fun x => if is_inf x then nan else x) s nan j).
Qed.

Lemma rolling_mean_length (w : nat) (s : Series) :
  length (rolling_mean w s) = length s.
Proof.
  unfold rolling_mean, roll_mean.
  now rewrite roll_mean_from_length, length_seq, prep_values_length.
Qed.

Lemma rolling_mean_nth (w : nat) (s : Series) (i : nat) :
  (i < length s)%nat ->
  nth_error (rolling_mean w s) i = Some (rolling_mean_at w s i).
Proof.
  intros H. unfold rolling_mean_at. apply nth_error_nth'.
  now rewrite rolling_mean_length.
Qed.

Variables (w : nat) (s : Series).
Hypothesis Hw : (2 <= w)%nat.

Lemma rolling_mean_at_state (i : nat) :
  (i < length s)%nat ->
  rolling_mean_at w s i = calc_mean (Z.of_nat w) (state_at (prep_values s) w i).
Proof.
  intros H. unfold rolling_mean_at, rolling_mean.
  apply nth_error_nth. apply roll_mean_nth; [exact Hw|].
  now rewrite prep_values_length.
Qed.

(** Before row [w-1] there are too few observations. *)
Lemma rolling_mean_at_early (i : nat) :
  (i < length s)%nat -> (i + 1 < w)%nat -> rolling_mean_at w s i = nan.
Proof.
  intros Hi Hearly. rewrite rolling_mean_at_state by exact Hi.
  apply calc_mean_early; [exact Hw | now rewrite prep_values_length | lia].
Qed.

(** A NaN or an infinity in the window makes the mean NaN. *)
Lemma rolling_mean_at_missing (i j : nat) :
  (i < length s)%nat -> (i + 1 - w <= j <= i)%nat ->
  is_nan (nth j s nan) || is_inf (nth j s nan) = true ->
  rolling_mean_at w s i = nan.
Proof.
  intros Hi Hj Hmiss. rewrite rolling_mean_at_state by exact Hi.
  apply (calc_mean_missing _ _ Hw i j);
    [now rewrite prep_values_length | lia |].
  rewrite prep_values_nth.
  destruct (nth j s nan); try discriminate; reflexivity.
Qed.

(** A full window of one and the same finite number has that number as
    its mean. *)
Lemma rolling_mean_at_same (x : f64) (i : nat) :
  (i < length s)%nat -> (w <= i + 1)%nat -> is_finite x = true ->
  (forall j, (i + 1 - w <= j <= i)%nat -> nth j s nan = x) ->
  rolling_mean_at w s i = x.
Proof.
  intros Hi Hfull Hx Hsame. rewrite rolling_mean_at_state by exact Hi.
  apply (calc_mean_same _ _ Hw x i);
    [now rewrite prep_values_length | lia | now destruct x |].
  intros j Hj. rewrite prep_values_nth, Hsame by lia.
  now destruct x.
Qed.

(** With exactly [w] rows the window of the last row is the whole
    column. *)
Lemma rolling_mean_at_whole (i : nat) :
  length s = w -> i = (w - 1)%nat ->
  rolling_mean_at w s i
  = calc_mean (Z.of_nat w)
      (fold_left add_mean (prep_values s) (mean_init (nth 0 (prep_values s) nan))).
Proof.
  intros Hlen ->. rewrite rolling_mean_at_state by lia.
  rewrite state_at_prefix by (rewrite ?prep_values_length; lia).
  replace (S (w - 1)) with (length (prep_values s))
    by (rewrite prep_values_length; lia).
  now rewrite firstn_all.
Qed.

(** When no value of the column has the sign bit, no mean is below
    zero. *)
Lemma rolling_mean_at_not_negative (i : nat) :
  (i < length s)%nat ->
  (forall x, In x s -> is_nan x = true \/ signbit x = false) ->
  ltb (rolling_mean_at w s i) (S754_zero false) = false.
Proof.
  intros Hi Hsign. rewrite rolling_mean_at_state by exact Hi.
  apply (calc_mean_not_negative _ _ Hw);
    [now rewrite prep_values_length|].
  intros x Hx. unfold prep_values in Hx. apply in_map_iff in Hx as (y & <- & Hy).
  destruct (is_inf y); [now left | now apply Hsign].
Qed.

End RollingMeanFacts.

(** ** The sign of the average gain *)

Section GainFacts.

Lemma binary_round_aux_nonneg (mx ex : Z) (lx : location) :
  (0 <= mx)%Z ->
  is_nonneg (binary_round_aux prec emax false mx ex lx) = true.
Proof.
  intros H. unfold binary_round_aux.
  pose proof (shr_fexp_nonneg mx ex lx H) as H1.
  destruct (shr_fexp prec emax mx ex lx) as [mrs' e']. simpl in H1.
  pose proof (shr_fexp_nonneg
                (round_nearest_even (shr_m mrs') (loc_of_shr_record mrs')) e' loc_Exact
                (round_nearest_even_nonneg _ _ H1)) as H2.
  destruct (shr_fexp prec emax _ e' loc_Exact) as [mrs'' e'']. simpl in H2.
  destruct (shr_m mrs''); [reflexivity | | lia].
  now destruct (e'' <=? emax - prec)%Z.
Qed.

(** No gain has the sign bit. *)
Lemma gain_input_sign (ds : Series) (x : f64) :
  In x (where_ (fun d => gtb d zero) zero ds) ->
  is_nan x = true \/ signbit x = false.
Proof.
  unfold where_. intros H. apply in_map_iff in H as (d & <- & _). right.
  destruct (gtb d zero) eqn:E; [|reflexivity].
  destruct d as [[|] | [|] | | [|] m e]; try discriminate E; reflexivity.
Qed.

Lemma not_below_zero_cases (g : f64) :
  ltb g (S754_zero false) = false ->
  is_pos g = true \/ is_zero g = true \/ is_nan g = true.
Proof.
  destruct g as [s | [|] | | [|] m e]; intros H; try discriminate H; auto.
Qed.

(** From row 13 on, the average gain is positive, zero or NaN. *)
Lemma avg_gain_sign (close : Series) (i : nat) :
  (13 <= i < length close)%nat ->
  exists g, nth_error (avg_gain close) i = Some g
            /\ (is_pos g = true \/ is_zero g = true \/ is_nan g = true).
Proof.
  intros Hi. unfold avg_gain.
  set (G := where_ (fun d => gtb d zero) zero (diff close)).
  assert (HG : length G = length close)
    by (unfold G, where_; now rewrite length_map, diff_length).
  exists (rolling_mean_at 14 G i). split; [apply rolling_mean_nth; lia|].
  apply not_below_zero_cases.
  apply rolling_mean_at_not_negative; [lia | lia |].
  intros x Hx. now apply (gain_input_sign (diff close)).
Qed.

End GainFacts.


(** ** The sign of a difference *)

Section DifferenceFacts.

Lemma pos_iter_xO (m d : positive) :
  Z.pos (Pos.iter xO m d) = (Z.pos m * 2 ^ Z.pos d)%Z.
Proof.
  induction d as [|d IH] using Pos.peano_ind.
  - simpl. lia.
  - rewrite Pos.iter_succ, Pos2Z.inj_succ, Z.pow_succ_r by lia.
    rewrite (Pos2Z.inj_xO (Pos.iter xO m d)), IH. lia.
Qed.

Lemma shl_align_value (m : positive) (e e' : Z) :
  (e' <= e)%Z ->
  Z.pos (fst (shl_align m e e')) = (Z.pos m * 2 ^ (e - e'))%Z.
Proof.
  intros H. unfold shl_align.
  destruct (e' - e)%Z as [|d|d] eqn:E; try lia.
  - replace (e - e')%Z with 0%Z by lia. simpl. lia.
  - simpl fst. rewrite pos_iter_xO. f_equal. f_equal. lia.
Qed.

Lemma digits2_bounds (m : positive) :
  (2 ^ (Z.pos (digits2_pos m) - 1) <= Z.pos m < 2 ^ Z.pos (digits2_pos m))%Z.
Proof.
  induction m as [m IH | m IH |]; cbn [digits2_pos].
  - rewrite Pos2Z.inj_succ, (Pos2Z.inj_xI m).
    replace (Z.succ (Z.pos (digits2_pos m)) - 1)%Z
      with (Z.succ (Z.pos (digits2_pos m) - 1)) by lia.
    rewrite !Z.pow_succ_r by lia. lia.
  - rewrite Pos2Z.inj_succ, (Pos2Z.inj_xO m).
    replace (Z.succ (Z.pos (digits2_pos m)) - 1)%Z
      with (Z.succ (Z.pos (digits2_pos m) - 1)) by lia.
    rewrite !Z.pow_succ_r by lia. lia.
  - change (1 <= 1 < 2)%Z. lia.
Qed.

(** A canonical mantissa is below 2^53, and at least 2^52 once the
    exponent is above the smallest one. *)
Lemma bounded_mantissa (m : positive) (e : Z) :
  bounded prec emax m e = true ->
  (Z.pos m < 2 ^ 53)%Z /\ ((-1074 < e)%Z -> (2 ^ 52 <= Z.pos m)%Z).
Proof.
  unfold bounded, canonical_mantissa, fexp, emin, prec, emax.
  intros H. apply andb_true_iff in H as [H _]. apply Z.eqb_eq in H.
  pose proof (digits2_bounds m) as [Hlo Hhi].
  set (d := Z.pos (digits2_pos m)) in *.
  assert (Hd : (0 < d)%Z) by (unfold d; lia).
  split.
  - assert (d <= 53)%Z by lia.
    eapply Z.lt_le_trans; [exact Hhi|]. apply Z.pow_le_mono_r; lia.
  - intros He. assert (d = 53)%Z by lia.
    replace 52%Z with (d - 1)%Z by lia. exact Hlo.
Qed.

(** Of two canonical numbers the one with the smaller exponent is the
    smaller in magnitude. *)
Lemma bounded_exponent_lt (m1 m2 : positive) (e1 e2 : Z) :
  bounded prec emax m1 e1 = true -> bounded prec emax m2 e2 = true ->
  (e1 < e2)%Z ->
  (Z.pos m1 < Z.pos m2 * 2 ^ (e2 - e1))%Z.
Proof.
  intros H1 H2 He.
  destruct (bounded_mantissa m1 e1 H1) as [Hhi1 _].
  destruct (bounded_mantissa m2 e2 H2) as [_ Hlo2].
  assert (He1 : (-1074 <= e1)%Z).
  { unfold bounded, canonical_mantissa, fexp, emin, prec, emax in H1.
    apply andb_true_iff in H1 as [H1 _]. apply Z.eqb_eq in H1. lia. }
  specialize (Hlo2 ltac:(lia)).
  assert (Hp : (2 ^ 1 <= 2 ^ (e2 - e1))%Z) by (apply Z.pow_le_mono_r; lia).
  change (2 ^ 1)%Z with 2%Z in Hp.
  change (2 ^ 53)%Z with (2 ^ 52 * 2)%Z in Hhi1. nia.
Qed.

Lemma nonneg_not_below_zero (x : f64) :
  is_nonneg x = true -> ltb x zero = false.
Proof. destruct x as [[|] | [|] | | [|] m e]; try discriminate; reflexivity. Qed.

Lemma binary_normalize_below_zero (d e : Z) :
  ltb (binary_normalize prec emax d e false) zero = true -> (d < 0)%Z.
Proof.
  destruct d as [|p|p]; [discriminate | | lia].
  unfold binary_normalize, binary_round.
  destruct (shl_align _ _ _) as [mz ez].
  rewrite nonneg_not_below_zero; [discriminate|].
  now apply binary_round_aux_nonneg.
Qed.

(** If the computed difference [y - x] is below zero then [y < x]. *)
Lemma sub_below_zero (x y : f64) :
  valid x = true -> valid y = true ->
  ltb (sub y x) zero = true -> ltb y x = true.
Proof.
  unfold valid.
  destruct y as [sy | sy | | sy my ey], x as [sx | sx | | sx mx ex];
    cbn [valid_binary]; intros Hx Hy H;
    try solve [repeat match goal with s : bool |- _ => destruct s end;
               first [discriminate H | reflexivity]].
  unfold sub, SFsub in H. apply binary_normalize_below_zero in H.
  rewrite !shl_align_value in H by lia.
  unfold ltb, SFltb, SFcompare.
  destruct sy, sx; cbn [cond_Zopp] in H; try reflexivity.
  - (* both negative *)
    destruct (Z.compare_spec ey ex) as [-> | He | He].
    + rewrite Z.min_id, Z.sub_diag in H. rewrite Pos.compare_cont_spec.
      cbn [Pos.switch_Eq]. destruct (Pos.compare_spec my mx); cbn; try reflexivity; lia.
    + exfalso. rewrite Z.min_l, Z.sub_diag in H by lia.
      pose proof (bounded_exponent_lt my mx ey ex Hy Hx He). lia.
    + reflexivity.
  - (* y >= 0 > x *)
    exfalso.
    pose proof (Z.pow_pos_nonneg 2 (ey - Z.min ey ex) ltac:(lia) ltac:(lia)).
    pose proof (Z.pow_pos_nonneg 2 (ex - Z.min ey ex) ltac:(lia) ltac:(lia)).
    nia.
  - (* both positive *)
    destruct (Z.compare_spec ey ex) as [-> | He | He].
    + rewrite Z.min_id, Z.sub_diag in H. rewrite Pos.compare_cont_spec.
      cbn [Pos.switch_Eq]. destruct (Pos.compare_spec my mx); cbn; try reflexivity; lia.
    + reflexivity.
    + exfalso. rewrite Z.min_r, Z.sub_diag in H by lia.
      pose proof (bounded_exponent_lt mx my ex ey Hx Hy He). lia.
Qed.

(** A series of valid numbers that never goes down has no negative
    change. *)
Lemma non_decreasing_diff (s : Series) :
  forallb valid s = true -> non_decreasing s = true ->
  forallb (fun d => negb (ltb d zero)) (diff s) = true.
Proof.
  destruct s as [|x s]; [reflexivity|]. cbn [diff forallb].
  change (negb (ltb nan zero)) with true. cbn [andb].
  revert x. induction s as [|y s IH]; intros x Hv Hm; [reflexivity|].
  cbn [forallb] in Hv. apply andb_true_iff in Hv as [Hx Hv].
  pose proof Hv as Hv'. cbn [forallb] in Hv'. apply andb_true_iff in Hv' as [Hy _].
  cbn [non_decreasing] in Hm. apply andb_true_iff in Hm as [Hyx Hm].
  cbn [diff_from forallb]. apply andb_true_iff. split.
  - destruct (ltb (sub y x) zero) eqn:E; [|reflexivity].
    rewrite (sub_below_zero x y Hx Hy E) in Hyx. discriminate.
  - apply IH; assumption.
Qed.

End DifferenceFacts.
(** ** binary64 arithmetic on whole numbers *)

(** Below 2^53 every whole number is a binary64 number, so the sums and
    differences of such numbers are computed without rounding. *)

Section ExactFacts.

Lemma digits2_unique (p : positive) (d : Z) :
  (2 ^ (d - 1) <= Z.pos p < 2 ^ d)%Z -> Z.pos (digits2_pos p) = d.
Proof.
  intros [Hlo Hhi]. pose proof (digits2_bounds p) as [Dlo Dhi].
  set (D := Z.pos (digits2_pos p)) in *.
  assert (HD : (0 < D)%Z) by (unfold D; lia).
  destruct (Z.lt_trichotomy D d) as [H | [H | H]]; [exfalso | exact H | exfalso].
  - assert (2 ^ D <= 2 ^ (d - 1))%Z by (apply Z.pow_le_mono_r; lia). lia.
  - destruct (Z.le_gt_cases 0 d) as [Hd | Hd].
    + assert (2 ^ d <= 2 ^ (D - 1))%Z by (apply Z.pow_le_mono_r; lia). lia.
    + rewrite Z.pow_neg_r in Hhi by lia. lia.
Qed.

Lemma digits2_scaled (p q : positive) (n : Z) :
  (0 <= n)%Z -> Z.pos q = (Z.pos p * 2 ^ n)%Z ->
  Z.pos (digits2_pos q) = (Z.pos (digits2_pos p) + n)%Z.
Proof.
  intros Hn Hq. apply digits2_unique. rewrite Hq.
  pose proof (digits2_bounds p) as [Dlo Dhi].
  set (D := Z.pos (digits2_pos p)) in *.
  assert (HD : (0 < D)%Z) by (unfold D; lia).
  replace (D + n - 1)%Z with (D - 1 + n)%Z by lia.
  rewrite !Z.pow_add_r by lia.
  pose proof (Z.pow_pos_nonneg 2 n ltac:(lia) Hn). nia.
Qed.

Lemma iter_shr_1_exact (k m : positive) :
  SpecFloat.iter_pos shr_1 k
    {| shr_m := Z.pos (Pos.iter xO m k); shr_r := false; shr_s := false |}
  = {| shr_m := Z.pos m; shr_r := false; shr_s := false |}.
Proof.
  revert m. induction k as [k IH | k IH |]; intros m; cbn [SpecFloat.iter_pos Pos.iter].
  - cbn [shr_1 orb]. now rewrite !IH.
  - now rewrite !IH.
  - reflexivity.
Qed.

(** A mantissa of 53 bits with an exponent in range is kept as it is. *)
Lemma binary_round_aux_canonical (s : bool) (m : positive) (e : Z) :
  Z.pos (digits2_pos m) = 53%Z -> (-1074 <= e <= 971)%Z ->
  binary_round_aux prec emax s (Z.pos m) e loc_Exact = S754_finite s m e.
Proof.
  intros Hd He. unfold binary_round_aux, shr_fexp.
  cbn [shr_record_of_loc Zdigits2]. rewrite Hd.
  replace (fexp prec emax (53 + e) - e)%Z with 0%Z
    by (unfold fexp, emin, prec, emax; lia).
  cbn [shr shr_m loc_of_shr_record round_nearest_even Zdigits2 shr_record_of_loc].
  rewrite Hd.
  replace (fexp prec emax (53 + e) - e)%Z with 0%Z
    by (unfold fexp, emin, prec, emax; lia).
  cbn [shr shr_m].
  destruct (Z.leb_spec e (emax - prec)) as [_ | H]; [reflexivity|].
  unfold emax, prec in H. lia.
Qed.

(** Rounding [v * 2^n * 2^(-n)] gives the canonical form of [v]. *)
Lemma binary_round_exact (s : bool) (v m : positive) (n : Z) :
  (Z.pos v < 2 ^ 53)%Z -> (0 <= n)%Z -> Z.pos m = (Z.pos v * 2 ^ n)%Z ->
  binary_round prec emax s m (- n)
  = S754_finite s (Z.to_pos (Z.pos v * 2 ^ (53 - Z.pos (digits2_pos v))))
      (Z.pos (digits2_pos v) - 53).
Proof.
  intros Hv Hn Hm.
  pose proof (digits2_bounds v) as [Dlo Dhi].
  pose proof (digits2_scaled v m n Hn Hm) as Hdm.
  set (d := Z.pos (digits2_pos v)) in *.
  assert (Hd : (0 < d <= 53)%Z).
  { split; [unfold d; lia|].
    destruct (Z.le_gt_cases d 53) as [H | H]; [exact H|].
    assert (2 ^ 53 <= 2 ^ (d - 1))%Z by (apply Z.pow_le_mono_r; lia). lia. }
  pose proof (Z.pow_pos_nonneg 2 (53 - d) ltac:(lia) ltac:(lia)) as Hp.
  set (c := Z.to_pos (Z.pos v * 2 ^ (53 - d))).
  assert (Hc : Z.pos c = (Z.pos v * 2 ^ (53 - d))%Z) by (unfold c; rewrite Z2Pos.id; nia).
  assert (Hdc : Z.pos (digits2_pos c) = 53%Z).
  { rewrite (digits2_scaled v c (53 - d)) by (lia || exact Hc). fold d. lia. }
  unfold binary_round. rewrite Hdm.
  replace (fexp prec emax (d + n + - n)) with (d - 53)%Z
    by (unfold fexp, emin, prec, emax; lia).
  unfold shl_align.
  destruct (d - 53 - - n)%Z as [|k|k] eqn:E.
  - (* the mantissa has 53 bits already *)
    replace (- n)%Z with (d - 53)%Z by lia.
    assert (m = c) as -> by (apply Pos2Z.inj; rewrite Hm, Hc; f_equal; f_equal; lia).
    apply binary_round_aux_canonical; [exact Hdc | lia].
  - (* more than 53 bits: the low ones are zero *)
    assert (m = Pos.iter xO c k) as ->.
    { apply Pos2Z.inj. rewrite pos_iter_xO, Hm, Hc, <- Z.mul_assoc, <- Z.pow_add_r by lia.
      f_equal. f_equal. lia. }
    unfold binary_round_aux, shr_fexp at 1.
    cbn [shr_record_of_loc Zdigits2].
    rewrite (digits2_scaled c (Pos.iter xO c k) (Z.pos k)) by (lia || apply pos_iter_xO).
    rewrite Hdc.
    replace (fexp prec emax (53 + Z.pos k + - n) - - n)%Z with (Z.pos k)
      by (unfold fexp, emin, prec, emax; lia).
    cbn [shr]. rewrite iter_shr_1_exact.
    cbn [shr_m loc_of_shr_record round_nearest_even].
    replace (- n + Z.pos k)%Z with (d - 53)%Z by lia.
    unfold shr_fexp. cbn [shr_record_of_loc Zdigits2]. rewrite Hdc.
    replace (fexp prec emax (53 + (d - 53)) - (d - 53))%Z with 0%Z
      by (unfold fexp, emin, prec, emax; lia).
    cbn [shr shr_m].
    destruct (Z.leb_spec (d - 53) (emax - prec)) as [_ | H]; [reflexivity|].
    unfold emax, prec in H. lia.
  - (* fewer than 53 bits: shifted left *)
    assert (Pos.iter xO m k = c) as ->.
    { apply Pos2Z.inj. rewrite pos_iter_xO, Hm, Hc, <- Z.mul_assoc, <- Z.pow_add_r by lia.
      f_equal. f_equal. lia. }
    apply binary_round_aux_canonical; [exact Hdc | lia].
Qed.

Lemma of_Z_canonical (v : positive) :
  (Z.pos v < 2 ^ 53)%Z ->
  of_Z (Z.pos v)
  = S754_finite false (Z.to_pos (Z.pos v * 2 ^ (53 - Z.pos (digits2_pos v))))
      (Z.pos (digits2_pos v) - 53).
Proof.
  intros Hv. unfold of_Z, binary_normalize.
  apply (binary_round_exact false v v 0); [exact Hv | lia|].
  change (2 ^ 0)%Z with 1%Z. lia.
Qed.

(** The binary64 number of a whole number below 2^53. *)
Lemma of_Z_finite (a : Z) :
  (0 < a < 2 ^ 53)%Z ->
  exists m e, of_Z a = S754_finite false m e /\ (e <= 0)%Z
              /\ Z.pos m = (a * 2 ^ (- e))%Z.
Proof.
  intros [Ha Hb]. destruct a as [|v|v]; try lia.
  rewrite of_Z_canonical by exact Hb.
  pose proof (digits2_bounds v) as [Dlo Dhi].
  set (d := Z.pos (digits2_pos v)) in *.
  assert (Hd : (0 < d <= 53)%Z).
  { split; [unfold d; lia|].
    destruct (Z.le_gt_cases d 53) as [H | H]; [exact H|].
    assert (2 ^ 53 <= 2 ^ (d - 1))%Z by (apply Z.pow_le_mono_r; lia). lia. }
  pose proof (Z.pow_pos_nonneg 2 (53 - d) ltac:(lia) ltac:(lia)) as Hp.
  eexists _, _. split; [reflexivity|]. split; [lia|].
  rewrite Z2Pos.id by nia. f_equal. f_equal. lia.
Qed.

(** A whole multiple of a power of two, scaled back, is the number of
    the whole number. *)
Lemma binary_normalize_exact (s : bool) (a z n : Z) :
  (0 < a < 2 ^ 53)%Z -> (0 <= n)%Z -> z = (a * 2 ^ n)%Z ->
  binary_normalize prec emax (if s then - z else z) (- n) false
  = if s then neg (of_Z a) else of_Z a.
Proof.
  intros [Ha Hb] Hn ->. destruct a as [|v|v]; try lia.
  pose proof (Z.pow_pos_nonneg 2 n ltac:(lia) Hn) as Hp.
  destruct (Z.pos v * 2 ^ n)%Z as [|m|m] eqn:Hm; try lia.
  rewrite of_Z_canonical by exact Hb.
  destruct s; cbn [neg SFopp negb];
    [change (- Z.pos m)%Z with (Z.neg m)|]; cbn [binary_normalize];
    rewrite (binary_round_exact _ v m n) by (lia || (now rewrite Hm));
    reflexivity.
Qed.

Lemma of_Z_0 : of_Z 0 = S754_zero false.
Proof. reflexivity. Qed.

(** The operands of a sum or a difference, as whole multiples of the
    smaller unit. *)
Lemma aligned_value (a : Z) (m : positive) (e ez : Z) :
  (e <= 0)%Z -> (ez <= e)%Z -> Z.pos m = (a * 2 ^ (- e))%Z ->
  Z.pos (fst (shl_align m e ez)) = (a * 2 ^ (- ez))%Z.
Proof.
  intros He Hz Hm. rewrite shl_align_value, Hm, <- Z.mul_assoc, <- Z.pow_add_r by lia.
  f_equal. f_equal. lia.
Qed.

(** [float(a) + float(b) = float(a + b)]. *)
Lemma add_exact (a b : Z) :
  (0 <= a)%Z -> (0 <= b)%Z -> (a + b < 2 ^ 53)%Z ->
  add (of_Z a) (of_Z b) = of_Z (a + b).
Proof.
  intros Ha Hb Hab.
  destruct (Z.eq_dec a 0%Z) as [-> | Ha0].
  { rewrite Z.add_0_l. destruct (Z.eq_dec b 0%Z) as [-> | Hb0]; [reflexivity|].
    destruct (of_Z_finite b ltac:(lia)) as (mb & eb & -> & _). reflexivity. }
  destruct (Z.eq_dec b 0%Z) as [-> | Hb0].
  { rewrite Z.add_0_r. destruct (of_Z_finite a ltac:(lia)) as (ma & ea & -> & _).
    reflexivity. }
  destruct (of_Z_finite a ltac:(lia)) as (ma & ea & -> & Hea & Hma).
  destruct (of_Z_finite b ltac:(lia)) as (mb & eb & -> & Heb & Hmb).
  unfold add, SFadd. cbn [cond_Zopp].
  rewrite (aligned_value a), (aligned_value b) by (lia || assumption).
  rewrite <- Z.mul_add_distr_r.
  set (ez := Z.min ea eb). replace ez with (- - ez)%Z at 2 by lia.
  apply (binary_normalize_exact false (a + b)); lia.
Qed.

(** [float(a) - float(b) = float(a - b)] when [b <= a]. *)
Lemma sub_exact (a b : Z) :
  (0 <= b <= a)%Z -> (a < 2 ^ 53)%Z ->
  sub (of_Z a) (of_Z b) = of_Z (a - b).
Proof.
  intros Hab Ha.
  destruct (Z.eq_dec b 0%Z) as [-> | Hb0].
  { rewrite Z.sub_0_r. destruct (Z.eq_dec a 0%Z) as [-> | Ha0]; [reflexivity|].
    destruct (of_Z_finite a ltac:(lia)) as (ma & ea & -> & _). reflexivity. }
  destruct (of_Z_finite a ltac:(lia)) as (ma & ea & -> & Hea & Hma).
  destruct (of_Z_finite b ltac:(lia)) as (mb & eb & -> & Heb & Hmb).
  unfold sub, SFsub. cbn [cond_Zopp].
  rewrite (aligned_value a), (aligned_value b) by (lia || assumption).
  rewrite <- Z.mul_sub_distr_r.
  destruct (Z.eq_dec a b) as [-> | Hne].
  { now rewrite !Z.sub_diag. }
  set (ez := Z.min ea eb). replace ez with (- - ez)%Z at 2 by lia.
  apply (binary_normalize_exact false (a - b)); lia.
Qed.

(** [float(a) - float(b) = -float(b - a)] when [a < b]. *)
Lemma sub_exact_neg (a b : Z) :
  (0 <= a < b)%Z -> (b < 2 ^ 53)%Z ->
  sub (of_Z a) (of_Z b) = neg (of_Z (b - a)).
Proof.
  intros Hab Hb.
  destruct (of_Z_finite b ltac:(lia)) as (mb & eb & Eb & Heb & Hmb).
  destruct (Z.eq_dec a 0%Z) as [-> | Ha0].
  { rewrite Z.sub_0_r, Eb. reflexivity. }
  destruct (of_Z_finite a ltac:(lia)) as (ma & ea & -> & Hea & Hma).
  rewrite Eb. unfold sub, SFsub. cbn [cond_Zopp].
  rewrite (aligned_value a), (aligned_value b) by (lia || assumption).
  rewrite <- Z.mul_sub_distr_r.
  set (ez := Z.min ea eb). replace ez with (- - ez)%Z at 2 by lia.
  replace ((a - b) * 2 ^ (- ez))%Z with (- ((b - a) * 2 ^ (- ez)))%Z by lia.
  apply (binary_normalize_exact true (b - a) ((b - a) * 2 ^ (- ez))); lia.
Qed.

(** [float(a) + -float(b) = float(a - b)] when [b <= a]. *)
Lemma add_neg_exact (a b : Z) :
  (0 < b <= a)%Z -> (a < 2 ^ 53)%Z ->
  add (of_Z a) (neg (of_Z b)) = of_Z (a - b).
Proof.
  intros Hab Ha.
  destruct (of_Z_finite a ltac:(lia)) as (ma & ea & -> & Hea & Hma).
  destruct (of_Z_finite b ltac:(lia)) as (mb & eb & -> & Heb & Hmb).
  unfold add, neg, SFopp, SFadd. cbn [cond_Zopp negb].
  rewrite (aligned_value a), (aligned_value b) by (lia || assumption).
  rewrite Z.add_opp_r, <- Z.mul_sub_distr_r.
  destruct (Z.eq_dec a b) as [-> | Hne].
  { now rewrite !Z.sub_diag. }
  set (ez := Z.min ea eb). replace ez with (- - ez)%Z at 2 by lia.
  apply (binary_normalize_exact false (a - b)); lia.
Qed.

(** A number minus itself is [+0.0]. *)
Lemma sub_self (x : f64) : is_finite x = true -> sub x x = S754_zero false.
Proof.
  destruct x as [[|] | | | s m e]; try discriminate; try reflexivity.
  intros _. unfold sub, SFsub. now rewrite Z.sub_diag.
Qed.

Lemma of_Z_is_finite (a : Z) : (0 <= a < 2 ^ 53)%Z -> is_finite (of_Z a) = true.
Proof.
  intros H. destruct (Z.eq_dec a 0%Z) as [-> | Ha]; [reflexivity|].
  destruct (of_Z_finite a ltac:(lia)) as (m & e & -> & _). reflexivity.
Qed.

Lemma of_Z_signbit (a : Z) : (0 <= a < 2 ^ 53)%Z -> signbit (of_Z a) = false.
Proof.
  intros H. destruct (Z.eq_dec a 0%Z) as [-> | Ha]; [reflexivity|].
  destruct (of_Z_finite a ltac:(lia)) as (m & e & -> & _). reflexivity.
Qed.

(** Two whole numbers compare equal as binary64 numbers only when they
    are the same. *)
Lemma feq_of_Z (a b : Z) :
  (0 <= a < 2 ^ 53)%Z -> (0 <= b < 2 ^ 53)%Z ->
  feq (of_Z a) (of_Z b) = (a =? b)%Z.
Proof.
  intros Ha Hb.
  destruct (Z.eqb_spec a b) as [-> | Hne].
  { rewrite feq_refl. destruct (of_Z b) eqn:E; try reflexivity.
    pose proof (of_Z_is_finite b Hb) as F. rewrite E in F. discriminate. }
  destruct (Z.eq_dec a 0%Z) as [-> | Ha0].
  { destruct (of_Z_finite b ltac:(lia)) as (mb & eb & -> & _). reflexivity. }
  destruct (Z.eq_dec b 0%Z) as [-> | Hb0].
  { destruct (of_Z_finite a ltac:(lia)) as (ma & ea & -> & _). reflexivity. }
  destruct (of_Z_finite a ltac:(lia)) as (ma & ea & -> & Hea & Hma).
  destruct (of_Z_finite b ltac:(lia)) as (mb & eb & -> & Heb & Hmb).
  unfold feq, SFeqb, SFcompare.
  destruct (Z.compare_spec ea eb) as [-> | H | H]; try reflexivity.
  rewrite Pos.compare_cont_spec. cbn [Pos.switch_Eq].
  destruct (Pos.compare_spec ma mb) as [-> | H | H]; try reflexivity.
  exfalso. apply Hne.
  pose proof (Z.pow_pos_nonneg 2 (- eb) ltac:(lia) ltac:(lia)). nia.
Qed.

End ExactFacts.
(** ** The rolling mean of whole numbers *)

(** On closes that are whole numbers, with window sums below 2^53, the
    sliding sum of [roll_mean] is the exact sum of the window. *)

Section WholeNumberFacts.

Lemma sub_zero (x : f64) : sub x (S754_zero false) = x.
Proof. destruct x as [[|] | | | s m e]; reflexivity. Qed.

Lemma of_Z_not_nan (a : Z) : (0 <= a < 2 ^ 53)%Z -> is_nan (of_Z a) = false.
Proof. intros H. pose proof (of_Z_is_finite a H). now destruct (of_Z a). Qed.

Lemma add_mean_whole (st : mean_state) (t v : Z) :
  sum_x st = of_Z t -> compensation_add st = S754_zero false ->
  (0 <= t)%Z -> (0 <= v)%Z -> (t + v < 2 ^ 53)%Z ->
  sum_x (add_mean st (of_Z v)) = of_Z (t + v)
  /\ compensation_add (add_mean st (of_Z v)) = S754_zero false
  /\ compensation_remove (add_mean st (of_Z v)) = compensation_remove st.
Proof.
  intros Hs Hc Ht Hv Hb. unfold add_mean.
  rewrite feq_refl, of_Z_not_nan by lia.
  cbn [negb sum_x compensation_add compensation_remove].
  rewrite Hs, Hc, sub_zero, add_exact by lia.
  split; [reflexivity|]. split; [|reflexivity].
  rewrite (sub_exact (t + v) t) by lia.
  replace (t + v - t)%Z with v by lia.
  apply sub_self, of_Z_is_finite. lia.
Qed.

Lemma remove_mean_whole (st : mean_state) (t v : Z) :
  sum_x st = of_Z t -> compensation_remove st = S754_zero false ->
  (0 <= v <= t)%Z -> (t < 2 ^ 53)%Z ->
  sum_x (remove_mean st (of_Z v)) = of_Z (t - v)
  /\ compensation_remove (remove_mean st (of_Z v)) = S754_zero false
  /\ compensation_add (remove_mean st (of_Z v)) = compensation_add st.
Proof.
  intros Hs Hc Hv Ht. unfold remove_mean.
  rewrite feq_refl, of_Z_not_nan by lia.
  cbn [negb sum_x compensation_add compensation_remove].
  rewrite Hs, Hc, sub_zero.
  destruct (Z.eq_dec v 0%Z) as [-> | Hv0].
  - rewrite Z.sub_0_r. change (neg (of_Z 0)) with (S754_zero true).
    assert (Ha : add (of_Z t) (S754_zero true) = of_Z t).
    { destruct (Z.eq_dec t 0%Z) as [-> | Ht0]; [reflexivity|].
      destruct (of_Z_finite t ltac:(lia)) as (m & e & -> & _). reflexivity. }
    rewrite Ha, (sub_self (of_Z t)) by (apply of_Z_is_finite; lia).
    repeat split.
  - rewrite add_neg_exact by lia.
    split; [reflexivity|]. split; [|reflexivity].
    rewrite (sub_exact_neg (t - v) t) by lia.
    replace (t - (t - v))%Z with v by lia.
    apply sub_self.
    destruct (of_Z_finite v ltac:(lia)) as (m & e & -> & _). reflexivity.
Qed.

(** A sum that is not negative, divided by a count, is not below
    zero. *)
Lemma div_whole_not_negative (t n : Z) :
  (0 <= t < 2 ^ 53)%Z -> (0 < n < 2 ^ 53)%Z ->
  ltb (div (of_Z t) (of_Z n)) (S754_zero false) = false.
Proof.
  intros Ht Hn.
  destruct (of_Z_finite n Hn) as (my & ey & -> & _).
  destruct (Z.eq_dec t 0%Z) as [-> | Ht0]; [reflexivity|].
  destruct (of_Z_finite t ltac:(lia)) as (mx & ex & -> & _).
  apply nonneg_not_below_zero.
  unfold div, SFdiv, SFdiv_core_binary.
  set (m' := match (ex - ey - _)%Z with Z0 => _ | Zpos _ => _ | Zneg _ => _ end).
  assert (Hm : (0 <= m')%Z).
  { subst m'. destruct (ex - ey - _)%Z; try lia.
    apply Z.shiftl_nonneg. lia. }
  pose proof (Z_div_mod m' (Z.pos my) ltac:(lia)) as Hdm.
  destruct (Z.div_eucl m' (Z.pos my)) as [q r].
  apply binary_round_aux_nonneg. nia.
Qed.

(** Sums of the first rows and of a window. *)
Lemma total_S (l : list Z) (n : nat) :
  (n < length l)%nat ->
  fold_right Z.add 0%Z (firstn (S n) l)
  = (fold_right Z.add 0%Z (firstn n l) + nth n l 0%Z)%Z.
Proof.
  revert n. induction l as [|c l IH]; intros n H; [simpl in H; lia|].
  destruct n as [|n]; [simpl; lia|].
  cbn [firstn fold_right nth] in *. rewrite IH by (simpl in H; lia). lia.
Qed.

Lemma total_window (l : list Z) (a d : nat) :
  (fold_right Z.add 0 (firstn (a + d) l) - fold_right Z.add 0 (firstn a l))%Z
  = fold_right Z.add 0%Z (firstn d (skipn a l)).
Proof.
  revert l. induction a as [|a IH]; intros l.
  - rewrite firstn_O, skipn_O. cbn [Nat.add fold_right]. lia.
  - destruct l as [|c l]; [rewrite !firstn_nil; reflexivity|].
    cbn [Nat.add firstn skipn fold_right]. rewrite <- IH. lia.
Qed.

Lemma total_bound (l : list Z) (b : Z) :
  Forall (fun c => (0 <= c < b)%Z) l ->
  (0 <= fold_right Z.add 0 l <= Z.of_nat (length l) * (b - 1))%Z.
Proof.
  induction 1 as [|c l Hc Hl IH]; [simpl; lia|].
  cbn [fold_right length]. lia.
Qed.

Lemma In_window (l : list Z) (a d : nat) (x : Z) :
  In x (firstn d (skipn a l)) -> In x l.
Proof.
  intros H. rewrite <- (firstn_skipn a l). apply in_or_app. right.
  rewrite <- (firstn_skipn d (skipn a l)). apply in_or_app. now left.
Qed.

Lemma forallb_window (p : Z -> bool) (l : list Z) (a d : nat) :
  forallb p (firstn d (skipn a l)) = true
  <-> (forall j, (a <= j < a + d)%nat -> (j < length l)%nat -> p (nth j l 0%Z) = true).
Proof.
  revert l. induction a as [|a IH]; intros l.
  - rewrite skipn_O. cbn [Nat.add]. revert l. induction d as [|d IHd]; intros l.
    + split; [intros _ j Hj; lia | reflexivity].
    + destruct l as [|c l]; [split; [intros _ j _ Hj; simpl in Hj; lia | reflexivity]|].
      cbn [firstn forallb]. rewrite andb_true_iff, IHd. split.
      * intros [Hc Hl] [|j] Hj Hlen; [exact Hc|]. apply Hl; simpl in Hlen; lia.
      * intros H. split; [apply (H 0%nat); simpl; lia|].
        intros j Hj Hlen. apply (H (S j)); simpl; lia.
  - destruct l as [|c l].
    + rewrite firstn_nil. split; [intros _ j _ Hj; simpl in Hj; lia | reflexivity].
    + cbn [skipn]. rewrite IH. split.
      * intros H [|j] Hj Hlen; [lia|]. apply H; simpl in Hlen; lia.
      * intros H j Hj Hlen. apply (H (S j)); simpl; lia.
Qed.

Variable cs : list Z.
Variable w : nat.
Variable b : Z.
Hypothesis Hw : (2 <= w)%nat.
Hypothesis Hcs : Forall (fun c => (0 <= c < b)%Z) cs.
Hypothesis Hb : (Z.of_nat w * b < 2 ^ 53)%Z.

Local Abbreviation values := (map of_Z cs).
Local Abbreviation total n := (fold_right Z.add 0%Z (firstn n cs)).
Local Abbreviation close_at j := (nth j cs 0%Z).

Lemma whole_bound (j : nat) :
  (j < length cs)%nat -> (0 <= close_at j < 2 ^ 53)%Z.
Proof.
  intros Hj.
  pose proof (proj1 (List.Forall_forall _ cs) Hcs (close_at j) (nth_In cs 0%Z Hj)) as H.
  cbn beta in H. nia.
Qed.

Lemma whole_nth (j : nat) :
  (j < length cs)%nat -> nth j values nan = of_Z (close_at j).
Proof.
  intros Hj. rewrite (nth_indep _ nan (of_Z 0)) by (now rewrite length_map).
  apply map_nth.
Qed.

(** A window of at most [w] rows sums to less than 2^53. *)
Lemma window_bound (a d : nat) :
  (d <= w)%nat -> (0 <= total (a + d) - total a < 2 ^ 53)%Z.
Proof.
  intros Hd. rewrite total_window.
  assert (Hf : Forall (fun c => (0 <= c < b)%Z) (firstn d (skipn a cs))).
  { apply List.Forall_forall. intros x Hx.
    apply (proj1 (List.Forall_forall _ cs) Hcs).
    exact (In_window cs a d x Hx). }
  pose proof (total_bound _ b Hf) as Ht.
  pose proof (firstn_le_length d (skipn a cs)) as Hl.
  destruct (firstn d (skipn a cs)) as [|x l] eqn:E; [simpl; lia|].
  rewrite <- E in *.
  assert (0 < b)%Z.
  { assert (Hx : In x (firstn d (skipn a cs))) by (rewrite E; now left).
    pose proof (proj1 (List.Forall_forall _ _) Hf x Hx) as Hx'. cbn beta in Hx'. lia. }
  nia.
Qed.

(** The running sum is the sum of the window, and nothing is left in
    the compensations. *)
Lemma sum_x_whole (i : nat) :
  (i < length cs)%nat ->
  sum_x (state_at values w i) = of_Z (total (S i) - total (S i - w))
  /\ compensation_add (state_at values w i) = S754_zero false
  /\ compensation_remove (state_at values w i) = S754_zero false.
Proof.
  induction i as [|i IH]; intros Hi.
  - rewrite state_at_0 by (rewrite ?length_map; lia). rewrite whole_nth by lia.
    replace (1 - w)%nat with 0%nat by lia.
    pose proof (whole_bound 0 Hi) as H0.
    destruct (add_mean_whole (mean_init (of_Z (close_at 0))) 0 (close_at 0))
      as (Hs & Hc & Hr); try reflexivity; try lia.
    rewrite Hs, Hc, Hr, total_S by lia. cbn [firstn fold_right].
    split; [f_equal; lia|]. split; reflexivity.
  - destruct (IH ltac:(lia)) as (Hs & Hc & Hr).
    rewrite state_at_S by (rewrite ?length_map; lia).
    rewrite !whole_nth by lia.
    pose proof (whole_bound (S i) Hi) as Hv.
    destruct (Nat.leb_spec w (S i)) as [Hfull | Hpart].
    + pose proof (whole_bound (S i - w) ltac:(lia)) as Hu.
      pose proof (window_bound (S i - w) w ltac:(lia)) as B1.
      pose proof (window_bound (S (S i - w)) (w - 1) ltac:(lia)) as B2.
      pose proof (window_bound (S (S i - w)) w ltac:(lia)) as B3.
      replace (S i - w + w)%nat with (S i) in B1 by lia.
      replace (S (S i - w) + (w - 1))%nat with (S i) in B2 by lia.
      replace (S (S i - w) + w)%nat with (S (S i)) in B3 by lia.
      pose proof (total_S cs (S i - w) ltac:(lia)) as T1.
      pose proof (total_S cs (S i) Hi) as T2.
      destruct (remove_mean_whole (state_at values w i)
                  (total (S i) - total (S i - w)) (close_at (S i - w)))
        as (Hs1 & Hr1 & Hc1); try assumption; try lia.
      rewrite Hc in Hc1.
      destruct (add_mean_whole
                  (remove_mean (state_at values w i) (of_Z (close_at (S i - w))))
                  (total (S i) - total (S i - w) - close_at (S i - w))
                  (close_at (S i)))
        as (Hs2 & Hc2 & Hr2); try assumption; try lia.
      rewrite Hs2, Hc2, Hr2, Hr1.
      replace (S (S i) - w)%nat with (S (S i - w)) by lia.
      split; [f_equal; lia|]. split; reflexivity.
    + pose proof (window_bound 0 (S i) ltac:(lia)) as B1.
      pose proof (window_bound 0 (S (S i)) ltac:(lia)) as B2.
      cbn [Nat.add] in B1, B2.
      pose proof (total_S cs (S i) Hi) as T2.
      replace (S i - w)%nat with 0%nat in Hs by lia.
      destruct (add_mean_whole (state_at values w i) (total (S i) - total 0)
                  (close_at (S i)))
        as (Hs2 & Hc2 & Hr2); try assumption; try lia.
      rewrite Hs2, Hc2, Hr2, Hr.
      replace (S (S i) - w)%nat with 0%nat by lia.
      split; [f_equal; lia|]. split; reflexivity.
Qed.

Lemma prev_value_whole (i : nat) :
  (i < length cs)%nat -> prev_value (state_at values w i) = of_Z (close_at i).
Proof.
  intros Hi.
  destruct i as [|i];
    [rewrite state_at_0 | rewrite state_at_S]; rewrite ?length_map; try lia;
    rewrite add_mean_prev, whole_nth, of_Z_not_nan by (lia || now apply whole_bound);
    reflexivity.
Qed.

(** The run of equal values counted by [add_mean] is a run of equal
    closes. *)
Lemma run_whole (i k : nat) :
  (i < length cs)%nat -> (k <= S i)%nat ->
  (Z.of_nat k <= num_consecutive_same_value (state_at values w i))%Z ->
  forall j, (S i - k <= j <= i)%nat -> close_at j = close_at i.
Proof.
  revert k. induction i as [|i IH]; intros k Hi Hk Hrun j Hj.
  - now replace j with 0%nat by lia.
  - destruct (Nat.eq_dec j (S i)) as [-> | Hne]; [reflexivity|].
    rewrite state_at_S in Hrun by (rewrite ?length_map; lia).
    rewrite add_mean_run in Hrun
      by (rewrite whole_nth by lia; apply of_Z_not_nan, whole_bound; lia).
    set (st := if (w <=? S i)%nat then _ else _) in Hrun.
    assert (Hst : prev_value st = prev_value (state_at values w i)
                  /\ num_consecutive_same_value st
                     = num_consecutive_same_value (state_at values w i)).
    { unfold st. destruct (w <=? S i)%nat; [apply remove_mean_prev | now split]. }
    destruct Hst as [Hp Hn]. rewrite Hp, Hn in Hrun.
    rewrite prev_value_whole, whole_nth in Hrun by lia.
    rewrite feq_of_Z in Hrun by (apply whole_bound; lia).
    destruct (Z.eqb_spec (close_at (S i)) (close_at i)) as [Heq | _]; [|lia].
    rewrite Heq. apply (IH (k - 1)%nat); lia.
Qed.

Lemma neg_ct_whole (i : nat) :
  (i < length cs)%nat -> neg_ct (state_at values w i) = 0%Z.
Proof.
  intros Hi. rewrite neg_ct_counts by (rewrite ?length_map; lia).
  assert (Hz : forall n, (n <= length cs)%nat ->
                 count_upto (fun x => negb (is_nan x) && signbit x) values n = 0%Z).
  { induction n as [|n IHn]; intros Hn; [reflexivity|].
    rewrite (count_upto_S values w), IHn by (rewrite ?length_map; lia).
    rewrite whole_nth, of_Z_signbit by (lia || apply whole_bound; lia).
    now rewrite andb_false_r. }
  rewrite !Hz by lia. reflexivity.
Qed.

(** The mean of a full window of whole numbers: the close itself when
    the closes of the window are all the same, else the sum of the
    window divided by [w], rounded once. *)
Lemma calc_mean_whole (i : nat) :
  (i < length cs)%nat -> (w <= S i)%nat ->
  calc_mean (Z.of_nat w) (state_at values w i)
  = if forallb (Z.eqb (close_at i)) (firstn w (skipn (S i - w) cs))
    then of_Z (close_at i)
    else div (of_Z (fold_right Z.add 0%Z (firstn w (skipn (S i - w) cs))))
             (of_nat w).
Proof.
  intros Hi Hfull.
  destruct (forallb _ _) eqn:Hall.
  - apply (calc_mean_same _ _ Hw);
      [now rewrite length_map | exact Hfull
       | apply of_Z_not_nan, whole_bound; exact Hi |].
    intros j Hj. rewrite whole_nth by lia. f_equal.
    apply (proj1 (forallb_window _ _ _ _)) with (j := j) in Hall; [|lia|lia].
    apply Z.eqb_eq in Hall. now symmetry.
  - unfold calc_mean.
    rewrite (nobs_full _ _ Hw i) by
      (rewrite ?length_map; try lia;
       intros j Hj; rewrite whole_nth by lia; apply of_Z_not_nan, whole_bound; lia).
    rewrite Z.leb_refl. destruct (Z.ltb_spec 0 (Z.of_nat w)); [|lia]. cbn [andb].
    destruct (Z.leb_spec (Z.of_nat w)
                (num_consecutive_same_value (state_at values w i))) as [Hrun | _].
    { exfalso. assert (forallb (Z.eqb (close_at i)) (firstn w (skipn (S i - w) cs)) = true)
        as Habs; [|congruence].
      apply forallb_window. intros j Hj Hlen. apply Z.eqb_eq. symmetry.
      destruct (Nat.le_gt_cases j i) as [Hji | Hji].
      - apply (run_whole i w Hi Hfull Hrun). lia.
      - lia. }
    rewrite neg_ct_whole by exact Hi.
    destruct (sum_x_whole i Hi) as (Hs & _). rewrite Hs.
    pose proof (window_bound (S i - w) w ltac:(lia)) as Bw.
    replace (S i - w + w)%nat with (S i) in Bw by lia.
    assert (Hwb : (Z.of_nat w < 2 ^ 53)%Z).
    { pose proof (proj1 (List.Forall_forall _ cs) Hcs (close_at i) (nth_In cs 0%Z Hi))
        as H0.
      cbn beta in H0. nia. }
    rewrite div_whole_not_negative by lia. rewrite andb_false_r.
    destruct (Z.eqb_spec 0 (Z.of_nat w)); [lia|]. cbn [andb].
    unfold of_nat. f_equal. f_equal.
    replace (S i) with (S i - w + w)%nat at 1 by lia. apply total_window.
Qed.

Lemma prep_values_whole : prep_values values = values.
Proof.
  unfold prep_values. rewrite map_map. apply map_ext_in. intros c Hc.
  pose proof (proj1 (List.Forall_forall _ cs) Hcs c Hc) as H. cbn beta in H.
  pose proof (of_Z_is_finite c ltac:(nia)) as F. now destruct (of_Z c).
Qed.

Lemma rolling_mean_at_whole_numbers (i : nat) :
  (i < length cs)%nat -> (w <= i + 1)%nat ->
  rolling_mean_at w values i
  = if forallb (Z.eqb (close_at i)) (firstn w (skipn (i + 1 - w) cs))
    then of_Z (close_at i)
    else div (of_Z (fold_right Z.add 0%Z (firstn w (skipn (i + 1 - w) cs))))
             (of_nat w).
Proof.
  intros Hi Hfull. rewrite rolling_mean_at_state by (rewrite ?length_map; lia).
  rewrite prep_values_whole. replace (i + 1)%nat with (S i) by lia.
  apply calc_mean_whole; lia.
Qed.

End WholeNumberFacts.

(** ** RSI *)

Lemma nth_error_div_series (a b : Series) (i : nat) (x y : f64) :
  nth_error a i = Some x -> nth_error b i = Some y ->
  nth_error (div_series a b) i = Some (div x y).
Proof.
  revert b i. induction a as [|x0 a IH]; intros b i Ha Hb.
  - destruct i; discriminate.
  - destruct b as [|y0 b]; [destruct i; discriminate|].
    destruct i as [|i]; simpl in *.
    + now injection Ha as ->; injection Hb as ->.
    + now apply IH.
Qed.

Lemma rsi_series_nth (close : Series) (i : nat) (g l : f64) :
  nth_error (avg_gain close) i = Some g ->
  nth_error (avg_loss close) i = Some l ->
  nth_error (rsi_series close) i = Some (rsi_of_rs (div g l)).
Proof.
  intros Hg Hl. unfold rsi_series. rewrite nth_error_map.
  now rewrite (nth_error_div_series _ _ _ _ _ Hg Hl).
Qed.

(** Over a zero loss, of either sign, a positive gain gives 100. *)
Lemma rsi_zero_loss_pos_gain (g l : f64) :
  is_pos g = true -> is_zero l = true -> rsi_of_rs (div g l) = hundred.
Proof.
  destruct g as [sg | [|] | | [|] mg eg]; try discriminate;
    destruct l as [sl | | |]; try discriminate; intros _ _;
    destruct sl; reflexivity.
Qed.

(** Over a zero loss a gain that is zero or NaN gives NaN. *)
Lemma rsi_zero_loss_no_gain (g l : f64) :
  is_zero g = true \/ is_nan g = true -> is_zero l = true ->
  rsi_of_rs (div g l) = nan.
Proof.
  destruct g as [sg | | |]; intros [Hg | Hg]; try discriminate;
    destruct l as [sl | | |]; try discriminate; reflexivity.
Qed.

(** Where no close-to-close change is negative, the loss series is
    [-0.0] in every row. *)
Lemma loss_input_no_decrease (close : Series) :
  forallb (fun d => negb (ltb d zero)) (diff close) = true ->
  Forall (fun x => x = S754_zero true)
         (map neg (where_ (fun d => ltb d zero) zero (diff close))).
Proof.
  intros H. unfold where_. induction (diff close) as [|d ds IH]; [constructor|].
  cbn [forallb] in H. apply andb_true_iff in H as [Hd Hds].
  cbn [map]. constructor; [|now apply IH].
  destruct (ltb d zero); [discriminate | reflexivity].
Qed.

Lemma Forall_nth_eq (s : Series) (x : f64) (j : nat) :
  Forall (fun y => y = x) s -> (j < length s)%nat -> nth j s nan = x.
Proof.
  intros H Hj. rewrite List.Forall_forall in H. apply H, nth_In, Hj.
Qed.

(** The average of a window of [-0.0] is [-0.0]. *)
Lemma avg_loss_no_decrease (close : Series) (i : nat) :
  (13 <= i < length close)%nat ->
  forallb (fun d => negb (ltb d zero)) (diff close) = true ->
  nth_error (avg_loss close) i = Some (S754_zero true).
Proof.
  intros Hi Hmono. unfold avg_loss.
  set (L := map neg (where_ (fun d => ltb d zero) zero (diff close))).
  assert (HL : length L = length close)
    by (unfold L, where_; now rewrite !length_map, diff_length).
  rewrite rolling_mean_nth by lia. f_equal.
  apply rolling_mean_at_same; [lia | lia | lia | reflexivity |].
  intros j Hj. apply Forall_nth_eq; [now apply loss_input_no_decrease | lia].
Qed.

Lemma rsi_early_nan (close : Series) (i : nat) :
  (i < 13)%nat -> (i < length close)%nat ->
  nth_error (rsi_series close) i = Some nan.
Proof.
  intros Hi Hlen.
  assert (Hg : nth_error (avg_gain close) i = Some nan).
  { unfold avg_gain. unfold where_.
    rewrite rolling_mean_nth by (now rewrite length_map, diff_length).
    f_equal. apply rolling_mean_at_early;
      [lia | now rewrite length_map, diff_length | lia]. }
  assert (Hl : nth_error (avg_loss close) i = Some nan).
  { unfold avg_loss. unfold where_.
    rewrite rolling_mean_nth by (now rewrite !length_map, diff_length).
    f_equal. apply rolling_mean_at_early;
      [lia | now rewrite !length_map, diff_length | lia]. }
  rewrite (rsi_series_nth _ _ _ _ Hg Hl). reflexivity.
Qed.

(** C1, as the program has it.  At a row where the 14-period average
    loss is zero, of either sign, the RSI is exactly 100 when the average
    gain is positive and NaN when the average gain is zero or NaN.  For a
    series of closes that never goes down the average loss is [-0.0] from
    row 13 on, the average gain there is positive, zero or NaN, and the
    RSI is 100 in the first case and NaN in the other two; before row 13
    the RSI is NaN. *)
Theorem rsi_saturation :
  (forall close i g l,
      nth_error (avg_gain close) i = Some g ->
      nth_error (avg_loss close) i = Some l ->
      is_zero l = true ->
      (is_pos g = true -> nth_error (rsi_series close) i = Some hundred)
      /\ (is_zero g = true \/ is_nan g = true ->
          nth_error (rsi_series close) i = Some nan))
  /\ (forall close i,
        (13 <= i < length close)%nat ->
        forallb valid close = true ->
        non_decreasing close = true ->
        nth_error (avg_loss close) i = Some (S754_zero true)
        /\ exists g,
            nth_error (avg_gain close) i = Some g
            /\ (is_pos g = true /\ nth_error (rsi_series close) i = Some hundred
                \/ (is_zero g = true \/ is_nan g = true)
                   /\ nth_error (rsi_series close) i = Some nan))
  /\ (forall close i,
        (i < 13)%nat -> (i < length close)%nat ->
        nth_error (rsi_series close) i = Some nan).
Proof.
  split; [|split].
  - intros close i g l Hg Hl Hz. rewrite (rsi_series_nth _ _ _ _ Hg Hl). split; intros H.
    + now rewrite rsi_zero_loss_pos_gain.
    + now rewrite rsi_zero_loss_no_gain.
  - intros close i Hi Hvalid Hmono.
    pose proof (avg_loss_no_decrease close i Hi
                  (non_decreasing_diff close Hvalid Hmono)) as Hl.
    split; [exact Hl|].
    destruct (avg_gain_sign close i Hi) as [g [Hg Hsign]].
    exists g. split; [exact Hg|].
    rewrite (rsi_series_nth _ _ _ _ Hg Hl).
    destruct Hsign as [Hpos | Hno]; [left | right]; split; try assumption.
    + now rewrite rsi_zero_loss_pos_gain.
    + now rewrite rsi_zero_loss_no_gain.
  - apply rsi_early_nan.
Qed.

Lemma rsi_saturation_witness :
  nth_error (rsi_series rising_closes) 13 = Some hundred.
Proof.
  apply (proj1 rsi_saturation rising_closes 13%nat
               (S754_finite false 8363827879402350 (-53)) (S754_zero true));
    reflexivity.
Defined.

(** C1 as stated fails: fifteen equal closes never decrease, their
    average loss at row 13, the first row with a full window, is zero, and
    the RSI there is NaN, not 100. *)
Lemma rsi_flat_series_is_nan :
  length flat_closes = 15%nat
  /\ non_decreasing flat_closes = true
  /\ nth_error (avg_loss flat_closes) 13 = Some (S754_zero true)
  /\ nth_error (avg_gain flat_closes) 13 = Some (S754_zero false)
  /\ nth_error (rsi_series flat_closes) 12 = Some nan
  /\ nth_error (rsi_series flat_closes) 13 = Some nan
  /\ nth_error (rsi_series flat_closes) 13 <> Some hundred.
Proof. vm_compute. repeat split. discriminate. Qed.


(** ** The moving-average metrics *)

Lemma lift_run {A} (x : result A) (w : world) : lift x w = (x, w).
Proof. reflexivity. Qed.

Lemma emit_run (e : ui_event) (w : world) :
  emit e w = (Ok tt, mkWorld (heap w) (ui w ++ [e])).
Proof. reflexivity. Qed.

Lemma moving_average_metric_shown
      (w : world) (r : loc) (df : DataFrame) (cur : string)
      (win : nat) (column label : string) (close : Series) :
  heap w !! r = Some df ->
  lookup_column (columns df) column = Some (rolling_mean win close) ->
  length close = nrows df ->
  (0 < win <= nrows df)%nat ->
  moving_average_metric r cur win column label w =
    (Ok tt,
     mkWorld (heap w)
       (ui w ++ [StMetric label
                   (format_currency (rolling_mean_at win close (nrows df - 1)) cur)
                   None])).
Proof.
  intros Hr Hc Hlen Hwin. unfold moving_average_metric.
  rewrite (bind_ok _ _ _ _ _ (len_ok _ _ _ Hr)).
  destruct (Nat.leb_spec win (nrows df)); [|lia].
  rewrite (bind_ok _ _ _ _ _ (getitem_ok _ _ _ _ _ Hr Hc)).
  assert (Hi : iloc (rolling_mean win close) (-1)
               = Ok (rolling_mean_at win close (nrows df - 1))).
  { apply iloc_last.
    - rewrite rolling_mean_length, Hlen. apply rolling_mean_nth. lia.
    - intros E. apply (f_equal (@length _)) in E.
      rewrite rolling_mean_length in E. simpl in E. lia. }
  rewrite (bind_ok _ _ w w (rolling_mean_at win close (nrows df - 1)))
    by (now rewrite lift_run, Hi).
  reflexivity.
Qed.

Lemma moving_average_metric_omitted
      (w : world) (r : loc) (df : DataFrame) (cur : string)
      (win : nat) (column label : string) :
  heap w !! r = Some df ->
  (nrows df < win)%nat ->
  moving_average_metric r cur win column label w = (Ok tt, w).
Proof.
  intros Hr Hwin. unfold moving_average_metric.
  rewrite (bind_ok _ _ _ _ _ (len_ok _ _ _ Hr)).
  destruct (Nat.leb_spec win (nrows df)); [lia | reflexivity].
Qed.

(** The events of the moving-average block for a frame of [n] rows. *)
Lemma moving_averages_run
      (w : world) (r : loc) (df : DataFrame) (close : Series) (cur : string) :
  heap w !! r = Some df ->
  lookup_column (columns df) "Close" = Some close ->
  length close = nrows df ->
  moving_averages r cur w =
    (Ok tt,
     mkWorld (<[r := after_moving_averages df close]> (heap w))
       (ui w
        ++ [StSubheader "📉 Moving Averages"]
        ++ (if (50 <=? nrows df)%nat
            then [StMetric "50-Day MA"
                    (format_currency (rolling_mean_at 50 close (nrows df - 1)) cur) None]
            else [])
        ++ (if (200 <=? nrows df)%nat
            then [StMetric "200-Day MA"
                    (format_currency (rolling_mean_at 200 close (nrows df - 1)) cur) None]
            else []))).
Proof.
  intros Hr Hc Hlen. unfold moving_averages.
  rewrite (bind_ok _ _ _ _ _ (getitem_ok _ _ _ _ _ Hr Hc)).
  rewrite (bind_ok _ _ _ _ _ (setitem_ok _ _ _ "MA50" (rolling_mean 50 close) Hr)).
  set (df1 := mkDataFrame (index df) (set_column (columns df) "MA50" (rolling_mean 50 close))).
  set (w1 := mkWorld (<[r := df1]> (heap w)) (ui w)).
  assert (Hr1 : heap w1 !! r = Some df1) by apply lookup_insert_eq.
  assert (Hc1 : lookup_column (columns df1) "Close" = Some close).
  { unfold df1. cbn [columns]. rewrite lookup_set_column_ne by discriminate. exact Hc. }
  rewrite (bind_ok _ _ _ _ _ (getitem_ok _ _ _ _ _ Hr1 Hc1)).
  rewrite (bind_ok _ _ _ _ _ (setitem_ok _ _ _ "MA200" (rolling_mean 200 close) Hr1)).
  change (mkDataFrame (index df1) (set_column (columns df1) "MA200" (rolling_mean 200 close)))
    with (after_moving_averages df close).
  set (df2 := after_moving_averages df close).
  unfold w1 at 1 2. cbn [heap ui]. rewrite insert_insert_eq.
  unfold st_subheader at 1. rewrite (bind_ok _ _ _ _ _ (emit_run _ _)). cbn [heap ui].
  set (w3 := mkWorld (<[r := df2]> (heap w)) (ui w ++ [StSubheader "📉 Moving Averages"])).
  assert (Hr3 : heap w3 !! r = Some df2) by apply lookup_insert_eq.
  assert (Hn : nrows df2 = nrows df) by reflexivity.
  assert (H50 : lookup_column (columns df2) "MA50" = Some (rolling_mean 50 close)).
  { unfold df2, after_moving_averages. cbn [columns].
    rewrite lookup_set_column_ne by discriminate. apply lookup_set_column_eq. }
  assert (H200 : lookup_column (columns df2) "MA200" = Some (rolling_mean 200 close)).
  { unfold df2, after_moving_averages. cbn [columns]. apply lookup_set_column_eq. }
  destruct (Nat.leb_spec 50 (nrows df)) as [L50 | L50].
  - rewrite (bind_ok _ _ _ _ _
               (moving_average_metric_shown w3 r df2 cur 50 "MA50" "50-Day MA" close
                  Hr3 H50 Hlen ltac:(lia))).
    rewrite Hn.
    match goal with |- _ ?w' = _ => set (w4 := w') end.
    assert (Hr4 : heap w4 !! r = Some df2) by apply lookup_insert_eq.
    destruct (Nat.leb_spec 200 (nrows df)) as [L200 | L200].
    + rewrite (moving_average_metric_shown w4 r df2 cur 200 "MA200" "200-Day MA" close
                 Hr4 H200 Hlen ltac:(lia)).
      rewrite Hn. unfold w4, w3. cbn [heap ui]. now rewrite <- !app_assoc.
    + rewrite (moving_average_metric_omitted w4 r df2 cur 200 "MA200" "200-Day MA"
                 Hr4 ltac:(lia)).
      unfold w4, w3. cbn [heap ui]. now rewrite <- !app_assoc.
  - rewrite (bind_ok _ _ _ _ _
               (moving_average_metric_omitted w3 r df2 cur 50 "MA50" "50-Day MA"
                  Hr3 ltac:(lia))).
    destruct (Nat.leb_spec 200 (nrows df)) as [L200 | L200]; [lia|].
    rewrite (moving_average_metric_omitted w3 r df2 cur 200 "MA200" "200-Day MA"
               Hr3 ltac:(lia)).
    reflexivity.
Qed.

(** ** The moving average at the window boundary *)

Lemma format_currency_nan (cur : string) : format_currency nan cur = cur +:+ "nan".
Proof. unfold format_currency. now destruct (String.eqb cur "₹"). Qed.

Lemma existsb_nth_index (p : f64 -> bool) (s : Series) :
  existsb p s = true -> exists j, (j < length s)%nat /\ p (nth j s nan) = true.
Proof.
  intros H. apply existsb_exists in H as (x & Hin & Hp).
  apply (In_nth _ _ nan) in Hin as (j & Hj & <-). now exists j.
Qed.

(** C2, as the program has it.  The moving-average block shows the
    50-row (200-row) metric exactly when the frame has at least 50 (200)
    rows: with fewer than 50 rows it shows its heading only, and with
    fewer than 200 rows no 200-row metric.  With exactly 50 (200) rows the
    value shown is the rolling mean at the last row, whose window is the
    whole close column: pandas' compensated sum of all the closes, taken
    in order, over their number.  It is NaN, and the metric reads "nan",
    when a close is NaN or infinite, which validation does not exclude;
    when all the closes are one and the same finite number it is exactly
    that number, their arithmetic mean; and when the closes are whole
    numbers below 2^45 that are not all equal it is their sum divided by
    their number, rounded once to binary64. *)
Theorem sma_boundary
        (w : world) (r : loc) (df : DataFrame) (close : Series) (cur : string) :
  heap w !! r = Some df ->
  well_formed df = true ->
  lookup_column (columns df) "Close" = Some close ->
  let shown win := format_currency (rolling_mean_at win close (nrows df - 1)) cur in
  ui (snd (moving_averages r cur w)) =
    ui w ++ [StSubheader "📉 Moving Averages"]
         ++ (if (50 <=? nrows df)%nat then [StMetric "50-Day MA" (shown 50%nat) None]
             else [])
         ++ (if (200 <=? nrows df)%nat then [StMetric "200-Day MA" (shown 200%nat) None]
             else [])
  /\ ((nrows df < 50)%nat ->
      ui (snd (moving_averages r cur w)) = ui w ++ [StSubheader "📉 Moving Averages"])
  /\ ((nrows df < 200)%nat ->
      ui (snd (moving_averages r cur w)) =
        ui w ++ [StSubheader "📉 Moving Averages"]
             ++ (if (50 <=? nrows df)%nat
                 then [StMetric "50-Day MA" (shown 50%nat) None]
                 else []))
  /\ (forall win, win = 50%nat \/ win = 200%nat -> nrows df = win ->
        rolling_mean_at win close (nrows df - 1)
        = calc_mean (Z.of_nat win)
            (fold_left add_mean (prep_values close)
               (mean_init (nth 0 (prep_values close) nan)))
        /\ (existsb (fun x => is_nan x || is_inf x) close = true ->
            rolling_mean_at win close (nrows df - 1) = nan
            /\ shown win = cur +:+ "nan")
        /\ (forall x, is_finite x = true -> Forall (fun y => y = x) close ->
              rolling_mean_at win close (nrows df - 1) = x)
        /\ (forall cs, close = map of_Z cs ->
              Forall (fun c => (0 <= c < 2 ^ 45)%Z) cs ->
              rolling_mean_at win close (nrows df - 1)
              = if forallb (Z.eqb (nth (win - 1) cs 0%Z)) cs
                then of_Z (nth (win - 1) cs 0%Z)
                else div (of_Z (fold_right Z.add 0%Z cs)) (of_nat win))).
Proof.
  intros Hr Hwf Hc shown.
  pose proof (well_formed_lookup df "Close" close Hwf Hc) as Hlen.
  rewrite (moving_averages_run w r df close cur Hr Hc Hlen). cbn [snd ui].
  split; [reflexivity|].
  split; [|split].
  - intros Hn.
    destruct (Nat.leb_spec 50 (nrows df)); [lia|].
    destruct (Nat.leb_spec 200 (nrows df)); [lia|]. reflexivity.
  - intros Hn.
    destruct (Nat.leb_spec 200 (nrows df)); [lia|]. now rewrite !app_nil_r.
  - intros win Hwin Hn.
    assert (Hw2 : (2 <= win)%nat) by (destruct Hwin; lia).
    rewrite Hn in *.
    split; [|split; [|split]].
    + now apply rolling_mean_at_whole.
    + intros Hmiss. apply existsb_nth_index in Hmiss as (j & Hj & Hp).
      assert (E : rolling_mean_at win close (win - 1) = nan)
        by (apply (rolling_mean_at_missing win close Hw2 (win - 1) j); [lia | lia | exact Hp]).
      split; [exact E|]. unfold shown. rewrite Hn, E. apply format_currency_nan.
    + intros x Hx Hall.
      apply rolling_mean_at_same; [exact Hw2 | lia | lia | exact Hx |].
      intros j Hj. apply Forall_nth_eq; [exact Hall | lia].
    + intros cs -> Hcs. rewrite length_map in Hlen.
      rewrite (rolling_mean_at_whole_numbers cs win (2 ^ 45) Hw2 Hcs);
        [| destruct Hwin as [-> | ->]; reflexivity | lia | lia].
      replace (win - 1 + 1 - win)%nat with 0%nat by lia.
      rewrite skipn_O, firstn_all2 by lia. reflexivity.
Qed.

Lemma sma_boundary_witness :
  ui (snd (moving_averages 0%nat "$" (fresh fifty_bars)))
  = [StSubheader "📉 Moving Averages"; StMetric "50-Day MA" "$1025.50" None]
  /\ ui (snd (moving_averages 0%nat "$" (fresh forty_nine_bars)))
     = [StSubheader "📉 Moving Averages"]
  /\ rolling_mean_at 50 (repeat (of_decimal 15 3) 50) 49 = of_decimal 15 3
  /\ rolling_mean_at 50 (map of_Z (map Z.of_nat (seq 1001 50))) 49
     = div (of_Z 51275) (of_Z 50).
Proof.
  split; [|split; [|split]].
  - destruct (sma_boundary (fresh fifty_bars) 0%nat fifty_bars
                (map of_Z (map Z.of_nat (seq 1001 50))) "$"
                eq_refl eq_refl eq_refl) as (Hui & _).
    rewrite Hui. vm_compute. reflexivity.
  - destruct (sma_boundary (fresh forty_nine_bars) 0%nat forty_nine_bars
                (map of_Z (map Z.of_nat (seq 1001 49))) "$"
                eq_refl eq_refl eq_refl) as (_ & H49 & _).
    rewrite H49; [reflexivity | vm_compute; lia].
  - destruct (sma_boundary (fresh fifty_bars_flat) 0%nat fifty_bars_flat
                (repeat (of_decimal 15 3) 50) "$"
                eq_refl eq_refl eq_refl) as (_ & _ & _ & Hval).
    destruct (Hval 50%nat (or_introl eq_refl) eq_refl) as (_ & _ & Hsame & _).
    apply (Hsame (of_decimal 15 3)); [reflexivity|].
    apply List.Forall_forall. intros y Hy. now apply repeat_spec in Hy.
  - destruct (sma_boundary (fresh fifty_bars) 0%nat fifty_bars
                (map of_Z (map Z.of_nat (seq 1001 50))) "$"
                eq_refl eq_refl eq_refl) as (_ & _ & _ & Hval).
    destruct (Hval 50%nat (or_introl eq_refl) eq_refl) as (_ & _ & _ & Hwhole).
    change (nrows fifty_bars - 1)%nat with 49%nat in Hwhole.
    rewrite (Hwhole (map Z.of_nat (seq 1001 50)) eq_refl); [vm_compute; reflexivity|].
    apply List.Forall_forall. intros c Hc.
    apply in_map_iff in Hc as (n & <- & Hn). apply in_seq in Hn.
    change (2 ^ 45)%Z with 35184372088832%Z. lia.
Defined.

(** C2 as stated fails: a frame of exactly fifty bars with every
    required column is validated whatever its values are; when one close
    is missing the 50-row average at the last row is NaN, not the mean of
    the closes, and the metric shows "$nan". *)
Lemma sma_undefined_on_missing_close :
  nrows fifty_bars_nan_close = 50%nat
  /\ fst (process_stock_data (Some 0%nat) (fresh fifty_bars_nan_close)) = Ok (Some 0%nat)
  /\ (exists close,
        lookup_column (columns fifty_bars_nan_close) "Close" = Some close
        /\ nth_error (rolling_mean 50 close) 49 = Some nan)
  /\ ui (snd (moving_averages 0%nat "$" (fresh fifty_bars_nan_close)))
     = [StSubheader "📉 Moving Averages"; StMetric "50-Day MA" "$nan" None].
Proof.
  split; [reflexivity|]. split; [reflexivity|]. split.
  - eexists. split; [reflexivity|]. vm_compute. reflexivity.
  - vm_compute. reflexivity.
Qed.

(** ** The statistics and indicator blocks of [main] *)

Ltac run_with tac := erewrite bind_ok by tac.
Ltac run_getitem := run_with ltac:(eapply getitem_ok; [eassumption | eassumption]).
Ltac run_emit := run_with ltac:(apply emit_run); cbn [heap ui].

Lemma iloc_from_end (s : Series) (k : nat) :
  (0 < k <= length s)%nat ->
  iloc s (- Z.of_nat k) = Ok (nth (length s - k) s nan).
Proof.
  intros Hk. unfold iloc.
  destruct (Z.ltb_spec (- Z.of_nat k) 0); [|lia].
  destruct (Z.leb_spec 0 (Z.of_nat (length s) + - Z.of_nat k)); [|lia].
  destruct (Z.ltb_spec (Z.of_nat (length s) + - Z.of_nat k) (Z.of_nat (length s))); [|lia].
  cbn [andb].
  replace (Z.to_nat (Z.of_nat (length s) + - Z.of_nat k)) with (length s - k)%nat by lia.
  destruct (nth_error s (length s - k)) as [x|] eqn:E.
  - now rewrite (nth_error_nth _ _ _ E).
  - apply nth_error_None in E. lia.
Qed.

Lemma price_charts_run
      (w : world) (r : loc) (df : DataFrame) (sym : string) (o h l c v : Series) :
  heap w !! r = Some df ->
  lookup_column (columns df) "Open" = Some o ->
  lookup_column (columns df) "High" = Some h ->
  lookup_column (columns df) "Low" = Some l ->
  lookup_column (columns df) "Close" = Some c ->
  lookup_column (columns df) "Volume" = Some v ->
  price_charts sym r w =
    (Ok tt,
     mkWorld (heap w)
       (ui w ++ [StSubheader ("📊 " +:+ sym +:+ " Price Chart");
                 StPlotlyChart "Candlestick" [o; h; l; c];
                 StPlotlyChart "Bar" [v]])).
Proof.
  intros Hr Ho Hh Hl Hc Hv. unfold price_charts, st_subheader, st_plotly_chart.
  run_emit. do 4 run_getitem. run_emit. run_getitem.
  rewrite emit_run. cbn [heap ui]. now rewrite <- !app_assoc.
Qed.

(** With fewer than two closes, reading the previous close (or, with
    none, the latest) raises [IndexError]; nothing else has happened. *)
Lemma latest_change_short (w : world) (r : loc) (df : DataFrame) (c : Series) :
  heap w !! r = Some df ->
  lookup_column (columns df) "Close" = Some c ->
  (length c < 2)%nat ->
  latest_change r w = (Raise IndexError, w).
Proof.
  intros Hr Hc Hlen. unfold latest_change.
  run_getitem.
  destruct c as [|x [|y c]]; [| |simpl in Hlen; lia].
  - erewrite bind_raise; [reflexivity | reflexivity].
  - run_with ltac:(reflexivity). run_getitem.
    run_with ltac:(reflexivity). run_getitem.
    erewrite bind_raise; [reflexivity | reflexivity].
Qed.

Lemma latest_change_ok (w : world) (r : loc) (df : DataFrame) (c : Series) :
  heap w !! r = Some df ->
  lookup_column (columns df) "Close" = Some c ->
  (2 <= length c)%nat ->
  latest_change r w =
    (Ok (nth (length c - 1) c nan,
         mul (div (sub (nth (length c - 1) c nan) (nth (length c - 2) c nan))
                  (nth (length c - 2) c nan))
             hundred),
     w).
Proof.
  intros Hr Hc Hlen. unfold latest_change.
  pose proof (iloc_from_end c 1 ltac:(lia)) as H1.
  pose proof (iloc_from_end c 2 ltac:(lia)) as H2.
  change (- Z.of_nat 1)%Z with (-1)%Z in H1.
  change (- Z.of_nat 2)%Z with (-2)%Z in H2.
  run_getitem. run_with ltac:(rewrite lift_run, H1; reflexivity).
  run_getitem. run_with ltac:(rewrite lift_run, H1; reflexivity).
  run_getitem. run_with ltac:(rewrite lift_run, H2; reflexivity).
  run_getitem. run_with ltac:(rewrite lift_run, H2; reflexivity).
  reflexivity.
Qed.

Lemma key_statistics_short
      (w : world) (r : loc) (df : DataFrame) (cur : string) (c : Series) :
  heap w !! r = Some df ->
  lookup_column (columns df) "Close" = Some c ->
  (length c < 2)%nat ->
  key_statistics r cur w =
    (Raise IndexError, mkWorld (heap w) (ui w ++ [StSubheader "📌 Key Statistics"])).
Proof.
  intros Hr Hc Hlen. unfold key_statistics, st_subheader.
  run_emit.
  erewrite bind_raise; [reflexivity|].
  now apply (latest_change_short _ r df c).
Qed.

Lemma key_statistics_ok
      (w : world) (r : loc) (df : DataFrame) (cur : string)
      (h l c v : Series) (n : Z) :
  heap w !! r = Some df ->
  lookup_column (columns df) "High" = Some h ->
  lookup_column (columns df) "Low" = Some l ->
  lookup_column (columns df) "Close" = Some c ->
  lookup_column (columns df) "Volume" = Some v ->
  (2 <= length c)%nat ->
  int_of_float (series_mean v) = Ok n ->
  key_statistics r cur w =
    (Ok tt,
     mkWorld (heap w)
       (ui w ++
        [StSubheader "📌 Key Statistics";
         StMetric "Latest Price"
           (format_currency (nth (length c - 1) c nan) cur)
           (Some (format_fixed2 true false
                    (mul (div (sub (nth (length c - 1) c nan) (nth (length c - 2) c nan))
                              (nth (length c - 2) c nan))
                         hundred) +:+ "%"));
         StMetric "52-Week High" (format_currency (series_max h) cur) None;
         StMetric "52-Week Low" (format_currency (series_min l) cur) None;
         StMetric "Average Volume" (format_int_grouped n) None])).
Proof.
  intros Hr Hh Hl Hc Hv Hlen Hn. unfold key_statistics, st_subheader, st_metric.
  run_emit.
  run_with ltac:(eapply latest_change_ok; eassumption). cbv beta iota.
  run_emit. run_getitem. run_emit. run_getitem. run_emit. run_getitem.
  run_with ltac:(rewrite lift_run, Hn; reflexivity).
  rewrite emit_run. cbn [heap ui]. now rewrite <- !app_assoc.
Qed.

Lemma technical_indicators_run
      (w : world) (r : loc) (df : DataFrame) (c : Series) :
  heap w !! r = Some df ->
  lookup_column (columns df) "Close" = Some c ->
  technical_indicators r w =
    (Ok tt,
     mkWorld (<[r := mkDataFrame (index df) (set_column (columns df) "RSI" (rsi_series c))]>
                (heap w))
       (ui w ++ [StSubheader "📈 Technical Indicators";
                 StPlotlyChart "Scatter" [rsi_series c]])).
Proof.
  intros Hr Hc. unfold technical_indicators, st_subheader, st_plotly_chart.
  run_emit. run_getitem.
  run_with ltac:(eapply setitem_ok; eassumption). cbn [heap ui].
  run_with ltac:(eapply getitem_ok;
                 [apply lookup_insert_eq | apply lookup_set_column_eq]).
  rewrite emit_run. cbn [heap ui]. now rewrite <- !app_assoc.
Qed.

(** ** [main] as a whole *)

Lemma lookup_has_column (df : DataFrame) (name : string) (s : Series) :
  lookup_column (columns df) name = Some s -> has_column df name = true.
Proof. intros H. apply has_column_lookup. now exists s. Qed.

Lemma after_indicators_other (df : DataFrame) (c : Series) (name : string) :
  ~ In name derived_columns ->
  lookup_column (columns (after_indicators df c)) name = lookup_column (columns df) name.
Proof.
  intros Hn. unfold after_indicators, after_moving_averages. cbn [columns].
  rewrite !lookup_set_column_ne; [reflexivity | | |];
    intros <-; apply Hn; simpl; tauto.
Qed.

Section MainRun.

Variables (w : world) (r : loc) (df : DataFrame) (sym market : string).
Variables (o h l c v : Series).

Hypothesis Hr : heap w !! r = Some df.
Hypothesis Hrows : nrows df <> 0%nat.
Hypothesis Hwf : well_formed df = true.
Hypothesis Ho : lookup_column (columns df) "Open" = Some o.
Hypothesis Hh : lookup_column (columns df) "High" = Some h.
Hypothesis Hl : lookup_column (columns df) "Low" = Some l.
Hypothesis Hc : lookup_column (columns df) "Close" = Some c.
Hypothesis Hv : lookup_column (columns df) "Volume" = Some v.

Lemma close_per_row : length c = nrows df.
Proof. exact (well_formed_lookup df "Close" c Hwf Hc). Qed.

Let cur : string := get_currency_symbol market.

Let charts : list ui_event :=
  [StSubheader ("📊 " +:+ sym +:+ " Price Chart");
   StPlotlyChart "Candlestick" [o; h; l; c];
   StPlotlyChart "Bar" [v]].

Lemma main_validates : process_stock_data (Some r) w = (Ok (Some r), w).
Proof.
  apply (process_stock_data_accepts w r df Hr Hrows).
  intros x Hx. simpl in Hx.
  repeat (destruct Hx as [<- | Hx]; [eapply lookup_has_column; eassumption|]).
  contradiction.
Qed.

(** One bar: the statistics stop at the previous close and the outer
    handler reports the exception. *)
Lemma main_indicators_short :
  (nrows df < 2)%nat ->
  main_indicators sym market r w =
    (Ok tt,
     mkWorld (heap w)
       (ui w ++ charts ++
        [StSubheader "📌 Key Statistics";
         StErrorExn "An error occurred: " IndexError;
         StError "Please try another symbol or check if the stock exists"])).
Proof.
  intros Hshort. unfold main_indicators.
  erewrite try_except_raise.
  2:{ run_with ltac:(apply main_validates). cbv beta iota zeta.
      run_with ltac:(eapply price_charts_run; eassumption).
      erewrite bind_raise; [reflexivity|].
      eapply key_statistics_short; [exact Hr | exact Hc | rewrite close_per_row; lia]. }
  unfold st_error_exn, st_error. run_emit. rewrite emit_run. cbn [heap ui].
  unfold charts. now rewrite <- !app_assoc.
Qed.

(** The mean volume is NaN or infinite: [int] raises after three
    metrics, and the frame has not been written. *)
Lemma main_indicators_volume_error (e : exn) :
  (2 <= nrows df)%nat ->
  int_of_float (series_mean v) = Raise e ->
  heap (snd (main_indicators sym market r w)) = heap w.
Proof.
  intros Hlong He. unfold main_indicators.
  erewrite try_except_raise.
  2:{ run_with ltac:(apply main_validates). cbv beta iota zeta.
      run_with ltac:(eapply price_charts_run; eassumption).
      erewrite bind_raise; [reflexivity|].
      unfold key_statistics, st_subheader, st_metric.
      run_emit.
      run_with ltac:(eapply latest_change_ok; [exact Hr | exact Hc | rewrite close_per_row; lia]).
      cbv beta iota.
      run_emit. run_getitem. run_emit. run_getitem. run_emit. run_getitem.
      erewrite bind_raise; [reflexivity|]. rewrite lift_run, He. reflexivity. }
  reflexivity.
Qed.

(** Two bars or more and a mean volume that [int] accepts: every block
    runs, and the frame behind [r] has become [after_indicators]. *)
Lemma main_indicators_ok (n : Z) :
  (2 <= nrows df)%nat ->
  int_of_float (series_mean v) = Ok n ->
  main_indicators sym market r w =
    (Ok tt,
     mkWorld (<[r := after_indicators df c]> (heap w))
       (ui w ++ charts ++
        [StSubheader "📌 Key Statistics";
         StMetric "Latest Price"
           (format_currency (nth (length c - 1) c nan) cur)
           (Some (format_fixed2 true false
                    (mul (div (sub (nth (length c - 1) c nan) (nth (length c - 2) c nan))
                              (nth (length c - 2) c nan))
                         hundred) +:+ "%"));
         StMetric "52-Week High" (format_currency (series_max h) cur) None;
         StMetric "52-Week Low" (format_currency (series_min l) cur) None;
         StMetric "Average Volume" (format_int_grouped n) None;
         StSubheader "📉 Moving Averages"] ++
        (if (50 <=? nrows df)%nat
         then [StMetric "50-Day MA"
                 (format_currency (rolling_mean_at 50 c (nrows df - 1)) cur) None]
         else []) ++
        (if (200 <=? nrows df)%nat
         then [StMetric "200-Day MA"
                 (format_currency (rolling_mean_at 200 c (nrows df - 1)) cur) None]
         else []) ++
        [StSubheader "📈 Technical Indicators";
         StPlotlyChart "Scatter" [rsi_series c]])).
Proof.
  intros Hlong Hn. unfold main_indicators.
  erewrite try_except_ok; [reflexivity|].
  run_with ltac:(apply main_validates). cbv beta iota zeta.
  run_with ltac:(eapply price_charts_run; eassumption).
  run_with ltac:(eapply key_statistics_ok;
                 [exact Hr | exact Hh | exact Hl | exact Hc | exact Hv
                 | rewrite close_per_row; lia | exact Hn]).
  run_with ltac:(eapply moving_averages_run; [exact Hr | exact Hc | exact close_per_row]).
  erewrite technical_indicators_run.
  2:{ cbn [heap]. apply lookup_insert_eq. }
  2:{ unfold after_moving_averages. cbn [columns].
      rewrite !lookup_set_column_ne by discriminate. exact Hc. }
  cbn [heap ui]. rewrite insert_insert_eq.
  fold (after_indicators df c). fold cur. unfold charts.
  repeat rewrite <- app_assoc. reflexivity.
Qed.

End MainRun.

(** C6, as the program has it: on a validated frame with fewer than two
    bars the latest-change lines raise [IndexError]; the exception ends the
    statistics and indicators (no metric, no moving average, no RSI is
    shown) and the handler of [main] reports it with two error messages. *)
Theorem short_history_aborts
        (w : world) (r : loc) (df : DataFrame) (sym market : string)
        (o h l c v : Series) :
  heap w !! r = Some df ->
  nrows df <> 0%nat ->
  well_formed df = true ->
  lookup_column (columns df) "Open" = Some o ->
  lookup_column (columns df) "High" = Some h ->
  lookup_column (columns df) "Low" = Some l ->
  lookup_column (columns df) "Close" = Some c ->
  lookup_column (columns df) "Volume" = Some v ->
  (nrows df < 2)%nat ->
  latest_change r w = (Raise IndexError, w)
  /\ main_indicators sym market r w =
       (Ok tt,
        mkWorld (heap w)
          (ui w ++
           [StSubheader ("📊 " +:+ sym +:+ " Price Chart");
            StPlotlyChart "Candlestick" [o; h; l; c];
            StPlotlyChart "Bar" [v];
            StSubheader "📌 Key Statistics";
            StErrorExn "An error occurred: " IndexError;
            StError "Please try another symbol or check if the stock exists"])).
Proof.
  intros Hr Hrows Hwf Ho Hh Hl Hc Hv Hshort. split.
  - apply (latest_change_short w r df c Hr Hc).
    rewrite (well_formed_lookup df "Close" c Hwf Hc). lia.
  - apply (main_indicators_short w r df sym market o h l c v); assumption.
Qed.

Lemma short_history_aborts_witness :
  latest_change 0%nat (fresh one_bar) = (Raise IndexError, fresh one_bar).
Proof.
  apply (short_history_aborts (fresh one_bar) 0%nat one_bar "TCS" "Indian Stocks"
           [of_Z 100] [of_Z 100] [of_Z 100] [of_Z 100] [of_Z 100]);
    try reflexivity; vm_compute; lia.
Defined.

(** C6 as stated fails: for one bar the previous close does not exist,
    [IndexError] is raised, and the page gets the charts, the heading of
    the statistics and the two error messages: no "N/A", no other
    statistic, no moving average and no RSI chart. *)
Lemma one_bar_shows_no_statistics :
  latest_change 0%nat (fresh one_bar) = (Raise IndexError, fresh one_bar)
  /\ key_statistics 0%nat "₹" (fresh one_bar)
     = (Raise IndexError, mkWorld (heap (fresh one_bar)) [StSubheader "📌 Key Statistics"])
  /\ ui (snd (run_main "TCS" "Indian Stocks" one_bar)) =
       [StSubheader "📊 TCS Price Chart";
        StPlotlyChart "Candlestick" [[of_Z 100]; [of_Z 100]; [of_Z 100]; [of_Z 100]];
        StPlotlyChart "Bar" [[of_Z 100]];
        StSubheader "📌 Key Statistics";
        StErrorExn "An error occurred: " IndexError;
        StError "Please try another symbol or check if the stock exists"].
Proof. repeat split. Qed.

(** C8, as the program has it.  The validator returns the reference it
    was given, and the indicator lines write through it: when the run
    gets past the statistics (two bars or more, a mean volume [int]
    accepts) the frame object itself has become [after_indicators], which
    has the same index and the same values in every column other than
    MA50, MA200 and RSI, and holds the moving averages and the RSI under
    those three names; otherwise the store is as it was.  No copy of the
    frame is made. *)
Theorem indicators_write_in_place
        (w : world) (r : loc) (df : DataFrame) (sym market : string)
        (o h l c v : Series) :
  heap w !! r = Some df ->
  nrows df <> 0%nat ->
  well_formed df = true ->
  lookup_column (columns df) "Open" = Some o ->
  lookup_column (columns df) "High" = Some h ->
  lookup_column (columns df) "Low" = Some l ->
  lookup_column (columns df) "Close" = Some c ->
  lookup_column (columns df) "Volume" = Some v ->
  process_stock_data (Some r) w = (Ok (Some r), w)
  /\ ((nrows df < 2)%nat \/ (exists e, int_of_float (series_mean v) = Raise e) ->
      heap (snd (main_indicators sym market r w)) = heap w)
  /\ ((2 <= nrows df)%nat -> (exists n, int_of_float (series_mean v) = Ok n) ->
      heap (snd (main_indicators sym market r w))
      = <[r := after_indicators df c]> (heap w))
  /\ index (after_indicators df c) = index df
  /\ (forall name, ~ In name derived_columns ->
        lookup_column (columns (after_indicators df c)) name
        = lookup_column (columns df) name)
  /\ lookup_column (columns (after_indicators df c)) "MA50" = Some (rolling_mean 50 c)
  /\ lookup_column (columns (after_indicators df c)) "MA200" = Some (rolling_mean 200 c)
  /\ lookup_column (columns (after_indicators df c)) "RSI" = Some (rsi_series c).
Proof.
  intros Hr Hrows Hwf Ho Hh Hl Hc Hv.
  split; [|split; [|split; [|split; [|split; [|split; [|split]]]]]].
  - apply (main_validates w r df o h l c v); assumption.
  - intros [Hshort | [e He]].
    + rewrite (main_indicators_short w r df sym market o h l c v) by assumption.
      reflexivity.
    + destruct (Nat.lt_ge_cases (nrows df) 2) as [Hshort | Hlong].
      * rewrite (main_indicators_short w r df sym market o h l c v) by assumption.
        reflexivity.
      * apply (main_indicators_volume_error w r df sym market o h l c v) with (e := e);
          assumption.
  - intros Hlong [n Hn].
    rewrite (main_indicators_ok w r df sym market o h l c v Hr Hrows Hwf Ho Hh Hl Hc Hv
               n Hlong Hn).
    reflexivity.
  - reflexivity.
  - intros name Hname. now apply after_indicators_other.
  - unfold after_indicators, after_moving_averages. cbn [columns].
    rewrite !lookup_set_column_ne by discriminate. apply lookup_set_column_eq.
  - unfold after_indicators, after_moving_averages. cbn [columns].
    rewrite lookup_set_column_ne by discriminate. apply lookup_set_column_eq.
  - apply lookup_set_column_eq.
Qed.

Lemma indicators_write_in_place_witness :
  heap (snd (main_indicators "TCS" "Indian Stocks" 0%nat (fresh two_bars)))
  = <[0%nat := after_indicators two_bars [of_Z 100; of_Z 110]]> (heap (fresh two_bars)).
Proof.
  apply (indicators_write_in_place (fresh two_bars) 0%nat two_bars "TCS" "Indian Stocks"
           [of_Z 100; of_Z 110] [of_Z 100; of_Z 110] [of_Z 100; of_Z 110]
           [of_Z 100; of_Z 110] [of_Z 100; of_Z 110]);
    try reflexivity; [vm_compute; lia | exists 105%Z; reflexivity].
Defined.

(** C8 as stated fails: after the run on two bars the frame the
    validator returned is no longer the frame it was; it carries three more
    columns. *)
Lemma validated_frame_is_mutated :
  exists df',
    fst (process_stock_data (Some 0%nat) (fresh two_bars)) = Ok (Some 0%nat)
    /\ heap (snd (run_main "TCS" "Indian Stocks" two_bars)) !! 0%nat = Some df'
    /\ map fst (columns two_bars) = ["Open"; "High"; "Low"; "Close"; "Volume"]
    /\ map fst (columns df')
       = ["Open"; "High"; "Low"; "Close"; "Volume"; "MA50"; "MA200"; "RSI"]
    /\ df' <> two_bars.
Proof.
  exists (after_indicators two_bars [of_Z 100; of_Z 110]).
  repeat split. vm_compute. discriminate.
Qed.

(* ===================================================================== *)
(** * Part III: further properties of the program                         *)
(* ===================================================================== *)

(** ** The ticker across markets *)

Lemma contains_app_r (p s sub : string) :
  contains s sub = true -> contains (p +:+ s) sub = true.
Proof.
  intros H. induction p as [|c p IH]; [exact H|].
  cbn [String.append contains]. rewrite IH. apply orb_true_r.
Qed.

Lemma startswith_refl (s : string) : startswith s s = true.
Proof. induction s as [|c s IH]; [reflexivity|]. simpl. now rewrite Ascii.eqb_refl. Qed.

Lemma endswith_contains (s suf : string) :
  endswith s suf = true -> contains s suf = true.
Proof.
  intros H. apply endswith_iff in H as [p ->]. apply contains_app_r.
  destruct suf as [|c suf]; [reflexivity|].
  cbn [contains]. now rewrite startswith_refl.
Qed.

Lemma not_contains_not_endswith (s suf : string) :
  contains s suf = false -> endswith s suf = false.
Proof.
  intros H. destruct (endswith s suf) eqn:E; [|reflexivity].
  now rewrite (endswith_contains s suf E) in H.
Qed.

(** X1: a symbol that contains neither [.NS] nor [.BO] comes back
    unchanged when its domestic ticker is turned into a foreign one. *)
Theorem domestic_then_foreign (s m : string) :
  contains s ".NS" = false ->
  contains s ".BO" = false ->
  m <> "Indian Stocks" ->
  get_stock_data_ticker s "Indian Stocks" = s +:+ ".NS"
  /\ get_stock_data_ticker (get_stock_data_ticker s "Indian Stocks") m = s.
Proof.
  intros Hns Hbo Hm.
  assert (Hd : get_stock_data_ticker s "Indian Stocks" = s +:+ ".NS").
  { rewrite ticker_domestic.
    now rewrite (not_contains_not_endswith s ".NS" Hns),
                (not_contains_not_endswith s ".BO" Hbo). }
  split; [exact Hd|].
  rewrite Hd, ticker_foreign by exact Hm.
  pose proof (replace_del_occurrence "." "N" "S" s "" ltac:(discriminate) ltac:(discriminate))
    as H.
  change (String "." (String "N" (String "S" "")) +:+ "") with ".NS" in H.
  change (String "." (String "N" (String "S" ""))) with ".NS" in H.
  rewrite H. rewrite (replace_not_contains "." "NS" "" s Hns).
  change (replace "" ".NS" "") with "".
  assert (Hnil : s +:+ "" = s) by (clear; induction s as [|c s IH]; simpl; congruence).
  rewrite Hnil. apply (replace_not_contains "." "BO" "" s Hbo).
Qed.

Lemma domestic_then_foreign_witness :
  get_stock_data_ticker (get_stock_data_ticker "BRK.B" "Indian Stocks") "US Stocks" = "BRK.B".
Proof.
  apply (domestic_then_foreign "BRK.B" "US Stocks"); [reflexivity | reflexivity | discriminate].
Defined.

(** X2: the domestic ticker always ends with [.NS] or [.BO], begins with
    the symbol and is at most three characters longer. *)
Theorem domestic_ticker_shape (s : string) :
  endswith (get_stock_data_ticker s "Indian Stocks") ".NS"
  || endswith (get_stock_data_ticker s "Indian Stocks") ".BO" = true
  /\ startswith (get_stock_data_ticker s "Indian Stocks") s = true
  /\ (String.length s <= String.length (get_stock_data_ticker s "Indian Stocks")
      <= String.length s + 3)%nat.
Proof.
  split; [apply ticker_domestic_has_suffix|].
  rewrite ticker_domestic.
  destruct (endswith s ".NS" || endswith s ".BO").
  - split; [apply startswith_refl | lia].
  - split; [apply startswith_app|]. rewrite str_length_app. simpl. lia.
Qed.

(** X3: for any other market the ticker is never longer than the
    symbol, and it is the symbol itself exactly when the symbol contains
    neither [.NS] nor [.BO]. *)
Theorem foreign_ticker_fixed_points (s m : string) :
  m <> "Indian Stocks" ->
  (String.length (get_stock_data_ticker s m) <= String.length s)%nat
  /\ (get_stock_data_ticker s m = s
      <-> contains s ".NS" = false /\ contains s ".BO" = false).
Proof.
  intros Hm. rewrite ticker_foreign by exact Hm.
  pose proof (replace_del_length_le "." "NS" s) as L1.
  pose proof (replace_del_length_le "." "BO" (replace s ".NS" "")) as L2.
  split; [lia|]. split.
  - intros Hfix. destruct (contains s ".NS") eqn:Hns.
    + pose proof (replace_del_length_lt "." "NS" s Hns) as H1.
      rewrite Hfix in L2. lia.
    + split; [reflexivity|].
      rewrite (replace_not_contains "." "NS" "" s Hns) in Hfix.
      destruct (contains s ".BO") eqn:Hbo; [|reflexivity].
      pose proof (replace_del_length_lt "." "BO" s Hbo) as H1.
      rewrite Hfix in H1. lia.
  - intros [Hns Hbo].
    rewrite (replace_not_contains "." "NS" "" s Hns).
    apply (replace_not_contains "." "BO" "" s Hbo).
Qed.

Lemma foreign_ticker_fixed_points_witness :
  get_stock_data_ticker "AAPL" "US Stocks" = "AAPL".
Proof.
  apply (foreign_ticker_fixed_points "AAPL" "US Stocks"); [discriminate|].
  split; reflexivity.
Defined.

(** ** The validator and the handler of [main] *)

(** X4: whatever it is given, the validator leaves the store as it is,
    returns [None] or the reference it received, and shows at most the one
    message about missing columns. *)
Theorem validator_touches_nothing (df : option loc) (w : world) :
  heap (snd (process_stock_data df w)) = heap w
  /\ (fst (process_stock_data df w) = Ok None
      \/ fst (process_stock_data df w) = Ok df
      \/ (exists r, df = Some r /\ heap w !! r = None
                    /\ fst (process_stock_data df w) = Raise ReferenceError))
  /\ (ui (snd (process_stock_data df w)) = ui w
      \/ ui (snd (process_stock_data df w))
         = ui w ++ [StError "Missing required columns in data"]).
Proof.
  destruct df as [r|]; [|cbn; auto].
  unfold process_stock_data, mbind, M_bind, bind, read_frame, try_except.
  destruct (heap w !! r) as [f|] eqn:Hr.
  - destruct (is_empty f); [cbn; auto|].
    destruct (forallb (has_column f) required_columns); cbn; auto.
  - cbn. split; [reflexivity|]. split; [|now left]. right. right. now exists r.
Qed.

Lemma main_indicators_unfold (sym market : string) (r : loc) :
  main_indicators sym market r
  = try_except (indicators_body sym market r) report_exception.
Proof. reflexivity. Qed.

(** X5: the statistics and indicator part of [main] never lets an
    exception out.  When its body ends normally the result is the body's;
    when the body raises, the page gets the two messages of the handler
    after whatever was shown before, and the store is as the body left
    it. *)
Theorem main_indicators_always_returns (sym market : string) (r : loc) (w : world) :
  fst (main_indicators sym market r w) = Ok tt
  /\ (forall w', indicators_body sym market r w = (Ok tt, w') ->
        main_indicators sym market r w = (Ok tt, w'))
  /\ (forall e w', indicators_body sym market r w = (Raise e, w') ->
        main_indicators sym market r w
        = (Ok tt,
           mkWorld (heap w')
             (ui w' ++ [StErrorExn "An error occurred: " e;
                        StError "Please try another symbol or check if the stock exists"]))).
Proof.
  rewrite main_indicators_unfold. unfold try_except.
  destruct (indicators_body sym market r w) as [[[]|e] w'] eqn:Hb.
  - split; [reflexivity|]. split; [now intros ? [= <-] | intros ? ? [=]].
  - split; [reflexivity|]. split; [intros ? [=]|].
    intros e' w'' [= <- <-].
    unfold report_exception, st_error_exn, st_error.
    run_emit. rewrite emit_run. cbn [heap ui]. now rewrite <- app_assoc.
Qed.

Lemma main_indicators_always_returns_witness :
  main_indicators "TCS" "Indian Stocks" 0%nat (fresh one_bar)
  = (Ok tt,
     mkWorld (heap (fresh one_bar))
       [StSubheader "📊 TCS Price Chart";
        StPlotlyChart "Candlestick" [[of_Z 100]; [of_Z 100]; [of_Z 100]; [of_Z 100]];
        StPlotlyChart "Bar" [[of_Z 100]];
        StSubheader "📌 Key Statistics";
        StErrorExn "An error occurred: " IndexError;
        StError "Please try another symbol or check if the stock exists"]).
Proof.
  exact (proj2 (proj2 (main_indicators_always_returns "TCS" "Indian Stocks" 0%nat
                         (fresh one_bar)))
           IndexError
           (mkWorld (heap (fresh one_bar))
              [StSubheader "📊 TCS Price Chart";
               StPlotlyChart "Candlestick" [[of_Z 100]; [of_Z 100]; [of_Z 100]; [of_Z 100]];
               StPlotlyChart "Bar" [[of_Z 100]];
               StSubheader "📌 Key Statistics"])
           eq_refl).
Defined.

(** X6: a frame with bars that lacks one of the required columns ends
    the run with two messages: the page gets "Missing required columns in
    data" from the validator and then "Unable to fetch data for the
    selected symbol"; nothing is charted and the frame is not written. *)
Theorem rejected_frame_run
        (w : world) (r : loc) (df : DataFrame) (sym market : string) :
  heap w !! r = Some df ->
  is_empty df = false ->
  (exists c, In c required_columns /\ has_column df c = false) ->
  main_indicators sym market r w
  = (Ok tt,
     mkWorld (heap w)
       (ui w ++ [StError "Missing required columns in data";
                 StError "Unable to fetch data for the selected symbol"])).
Proof.
  intros Hr He Hmiss. apply required_columns_missing in Hmiss.
  assert (Hp : process_stock_data (Some r) w
               = (Ok None,
                  mkWorld (heap w) (ui w ++ [StError "Missing required columns in data"]))).
  { unfold process_stock_data.
    rewrite (bind_ok _ _ _ _ _ (read_frame_ok _ _ _ Hr)), He, Hmiss. reflexivity. }
  unfold main_indicators. erewrite try_except_ok; [reflexivity|].
  run_with ltac:(exact Hp). cbv beta iota zeta.
  unfold st_error. rewrite emit_run. cbn [heap ui]. now rewrite <- app_assoc.
Qed.

Lemma rejected_frame_run_witness :
  main_indicators "TCS" "Indian Stocks" 0%nat (fresh no_volume)
  = (Ok tt,
     mkWorld (heap (fresh no_volume))
       [StError "Missing required columns in data";
        StError "Unable to fetch data for the selected symbol"]).
Proof.
  apply (rejected_frame_run (fresh no_volume) 0%nat no_volume
           "TCS" "Indian Stocks" eq_refl).
  - reflexivity.
  - exists "Volume". split; [simpl; tauto | reflexivity].
Defined.

(** ** The mean volume that [int] refuses *)

Lemma int_of_float_raises (x : f64) (e : exn) :
  int_of_float x = Raise e ->
  (e = ValueError /\ is_nan x = true)
  \/ (e = OverflowError /\ exists s, x = S754_infinity s).
Proof.
  destruct x as [s | s | | s m ex]; cbn; intros [=]; subst.
  - right. split; [reflexivity | now exists s].
  - now left.
Qed.

(** X7: on a validated frame with two bars or more whose mean volume is
    NaN or infinite, [int] raises after the latest price, the high and the
    low have been shown: the page gets those three metrics and the two
    messages of the handler, no average volume, moving average or RSI, and
    the frame is not written.  The exception is [ValueError] for NaN, as
    when every volume is NaN, and [OverflowError] for an infinite mean. *)
Theorem unusable_volume_run
        (w : world) (r : loc) (df : DataFrame) (sym market : string)
        (o h l c v : Series) (e : exn) :
  heap w !! r = Some df ->
  nrows df <> 0%nat ->
  well_formed df = true ->
  lookup_column (columns df) "Open" = Some o ->
  lookup_column (columns df) "High" = Some h ->
  lookup_column (columns df) "Low" = Some l ->
  lookup_column (columns df) "Close" = Some c ->
  lookup_column (columns df) "Volume" = Some v ->
  (2 <= nrows df)%nat ->
  int_of_float (series_mean v) = Raise e ->
  main_indicators sym market r w
  = (Ok tt,
     mkWorld (heap w)
       (ui w ++
        [StSubheader ("📊 " +:+ sym +:+ " Price Chart");
         StPlotlyChart "Candlestick" [o; h; l; c];
         StPlotlyChart "Bar" [v];
         StSubheader "📌 Key Statistics";
         StMetric "Latest Price"
           (format_currency (nth (length c - 1) c nan) (get_currency_symbol market))
           (Some (format_fixed2 true false
                    (mul (div (sub (nth (length c - 1) c nan) (nth (length c - 2) c nan))
                              (nth (length c - 2) c nan))
                         hundred) +:+ "%"));
         StMetric "52-Week High"
           (format_currency (series_max h) (get_currency_symbol market)) None;
         StMetric "52-Week Low"
           (format_currency (series_min l) (get_currency_symbol market)) None;
         StErrorExn "An error occurred: " e;
         StError "Please try another symbol or check if the stock exists"]))
  /\ ((e = ValueError /\ is_nan (series_mean v) = true)
      \/ (e = OverflowError /\ exists s, series_mean v = S754_infinity s))
  /\ (forallb is_nan v = true -> e = ValueError).
Proof.
  intros Hr Hrows Hwf Ho Hh Hl Hc Hv Hlong He.
  assert (Hlen : length c = nrows df) by exact (well_formed_lookup df "Close" c Hwf Hc).
  split; [|split].
  - unfold main_indicators.
    erewrite try_except_raise.
    2:{ run_with ltac:(apply (main_validates w r df o h l c v); assumption).
        cbv beta iota zeta.
        run_with ltac:(eapply price_charts_run; eassumption).
        erewrite bind_raise; [reflexivity|].
        unfold key_statistics, st_subheader, st_metric.
        run_emit.
        run_with ltac:(eapply latest_change_ok; [exact Hr | exact Hc | lia]).
        cbv beta iota.
        run_emit. run_getitem. run_emit. run_getitem. run_emit. run_getitem.
        erewrite bind_raise; [reflexivity|]. rewrite lift_run, He. reflexivity. }
    unfold st_error_exn, st_error. run_emit. rewrite emit_run. cbn [heap ui].
    now rewrite <- !app_assoc.
  - now apply int_of_float_raises.
  - intros Hnan. rewrite (series_mean_all_nan v Hnan) in He.
    cbn in He. now injection He as <-.
Qed.

Lemma unusable_volume_run_witness :
  let nan_volume :=
    mkDataFrame [1%Z; 2%Z]
      [("Open", [of_Z 100; of_Z 110]); ("High", [of_Z 100; of_Z 110]);
       ("Low", [of_Z 100; of_Z 110]); ("Close", [of_Z 100; of_Z 110]);
       ("Volume", [nan; nan])] in
  ui (snd (main_indicators "AAPL" "US Stocks" 0%nat (fresh nan_volume)))
  = [StSubheader "📊 AAPL Price Chart";
     StPlotlyChart "Candlestick"
       [[of_Z 100; of_Z 110]; [of_Z 100; of_Z 110]; [of_Z 100; of_Z 110];
        [of_Z 100; of_Z 110]];
     StPlotlyChart "Bar" [[nan; nan]];
     StSubheader "📌 Key Statistics";
     StMetric "Latest Price" "$110.00" (Some "+10.00%");
     StMetric "52-Week High" "$110.00" None;
     StMetric "52-Week Low" "$100.00" None;
     StErrorExn "An error occurred: " ValueError;
     StError "Please try another symbol or check if the stock exists"].
Proof.
  intros nan_volume.
  rewrite (proj1 (unusable_volume_run (fresh nan_volume) 0%nat nan_volume
                    "AAPL" "US Stocks"
                    [of_Z 100; of_Z 110] [of_Z 100; of_Z 110] [of_Z 100; of_Z 110]
                    [of_Z 100; of_Z 110] [nan; nan] ValueError
                    eq_refl ltac:(discriminate) eq_refl eq_refl eq_refl eq_refl eq_refl
                    eq_refl ltac:(vm_compute; lia) eq_refl)).
  vm_compute. reflexivity.
Defined.

(** ** The frame after the run *)

Lemma div_series_length (a b : Series) :
  length (div_series a b) = Nat.min (length a) (length b).
Proof.
  revert b. induction a as [|x a IH]; intros [|y b]; simpl; auto.
Qed.

Lemma rsi_series_length (close : Series) : length (rsi_series close) = length close.
Proof.
  unfold rsi_series, avg_gain, avg_loss, where_.
  rewrite length_map, div_series_length, !rolling_mean_length, !length_map, diff_length.
  lia.
Qed.

Lemma set_column_lengths (cols : list (string * Series)) (name : string) (v : Series) (n : nat) :
  forallb (fun c => (length (snd c) =? n)%nat) cols = true ->
  length v = n ->
  forallb (fun c => (length (snd c) =? n)%nat) (set_column cols name v) = true.
Proof.
  intros Hcols Hv. induction cols as [|[k old] cols IH]; cbn [set_column].
  - cbn. now rewrite Hv, Nat.eqb_refl.
  - cbn [forallb snd] in Hcols. apply andb_true_iff in Hcols as [Hk Hrest].
    destruct (String.eqb k name); cbn [forallb snd].
    + now rewrite Hv, Nat.eqb_refl, Hrest.
    + now rewrite Hk, IH.
Qed.

(** X8: the indicator lines keep the frame well formed.  After a run
    that gets past the statistics, the frame behind the reference has the
    same rows, every column of it, the three new ones included, has one
    value per row, and each of the three new columns can be read back. *)
Theorem indicators_keep_frame_well_formed
        (w : world) (r : loc) (df : DataFrame) (sym market : string)
        (o h l c v : Series) (n : Z) :
  heap w !! r = Some df ->
  nrows df <> 0%nat ->
  well_formed df = true ->
  lookup_column (columns df) "Open" = Some o ->
  lookup_column (columns df) "High" = Some h ->
  lookup_column (columns df) "Low" = Some l ->
  lookup_column (columns df) "Close" = Some c ->
  lookup_column (columns df) "Volume" = Some v ->
  (2 <= nrows df)%nat ->
  int_of_float (series_mean v) = Ok n ->
  exists df',
    heap (snd (main_indicators sym market r w)) !! r = Some df'
    /\ index df' = index df
    /\ well_formed df' = true
    /\ (forall name, In name derived_columns ->
          exists s, lookup_column (columns df') name = Some s
                    /\ length s = nrows df).
Proof.
  intros Hr Hrows Hwf Ho Hh Hl Hc Hv Hlong Hn.
  assert (Hlen : length c = nrows df) by exact (well_formed_lookup df "Close" c Hwf Hc).
  exists (after_indicators df c).
  rewrite (main_indicators_ok w r df sym market o h l c v Hr Hrows Hwf Ho Hh Hl Hc Hv
             n Hlong Hn).
  cbn [snd heap]. split; [apply lookup_insert_eq|]. split; [reflexivity|].
  assert (Hwf' : well_formed (after_indicators df c) = true).
  { unfold well_formed, after_indicators, after_moving_averages.
    cbn [columns nrows index].
    repeat apply set_column_lengths;
      [exact Hwf | now rewrite rolling_mean_length
       | now rewrite rolling_mean_length | now rewrite rsi_series_length]. }
  split; [exact Hwf'|].
  intros name Hname.
  assert (Hex : exists s, lookup_column (columns (after_indicators df c)) name = Some s).
  { unfold after_indicators, after_moving_averages. cbn [columns].
    simpl in Hname. destruct Hname as [<- | [<- | [<- | []]]].
    - eexists. rewrite !lookup_set_column_ne by discriminate. apply lookup_set_column_eq.
    - eexists. rewrite lookup_set_column_ne by discriminate. apply lookup_set_column_eq.
    - eexists. apply lookup_set_column_eq. }
  destruct Hex as [s Hs]. exists s. split; [exact Hs|].
  exact (well_formed_lookup _ name s Hwf' Hs).
Qed.

Lemma indicators_keep_frame_well_formed_witness :
  exists df',
    heap (snd (main_indicators "TCS" "Indian Stocks" 0%nat (fresh two_bars))) !! 0%nat
    = Some df'
    /\ index df' = index two_bars
    /\ well_formed df' = true
    /\ (forall name, In name derived_columns ->
          exists s, lookup_column (columns df') name = Some s
                    /\ length s = nrows two_bars).
Proof.
  apply (indicators_keep_frame_well_formed (fresh two_bars) 0%nat two_bars
           "TCS" "Indian Stocks"
           [of_Z 100; of_Z 110] [of_Z 100; of_Z 110] [of_Z 100; of_Z 110]
           [of_Z 100; of_Z 110] [of_Z 100; of_Z 110] 105%Z);
    try reflexivity; vm_compute; lia.
Defined.

(** ** The columns of the moving averages and of the RSI *)

(** X9: for the windows of the program, 50 and 200, the moving-average
    column has one value per row.  The value is NaN before row [w - 1] and
    at every row whose window holds a NaN or an infinite close; at a row
    whose [w] closes are one and the same finite number it is exactly that
    number; and when no close has the sign bit no value is below zero.
    When the closes are whole numbers below 2^45 the value at a row from
    [w - 1] on is the sum of the [w] closes of its window divided by [w],
    rounded once to binary64 (the close itself when the [w] closes are
    equal). *)
Theorem moving_average_rows (w : nat) (close : Series) (i : nat) :
  w = 50%nat \/ w = 200%nat ->
  (i < length close)%nat ->
  length (rolling_mean w close) = length close
  /\ exists x,
      nth_error (rolling_mean w close) i = Some x
      /\ ((i + 1 < w)%nat -> x = nan)
      /\ ((exists j, (i + 1 - w <= j <= i)%nat
                     /\ is_nan (nth j close nan) || is_inf (nth j close nan) = true) ->
          x = nan)
      /\ (forall v, (w <= i + 1)%nat -> is_finite v = true ->
            (forall j, (i + 1 - w <= j <= i)%nat -> nth j close nan = v) ->
            x = v)
      /\ ((forall y, In y close -> is_nan y = true \/ signbit y = false) ->
          ltb x (S754_zero false) = false)
      /\ (forall cs, close = map of_Z cs ->
            Forall (fun c => (0 <= c < 2 ^ 45)%Z) cs -> (w <= i + 1)%nat ->
            let window := firstn w (skipn (i + 1 - w) cs) in
            x = if forallb (Z.eqb (nth i cs 0%Z)) window
                then of_Z (nth i cs 0%Z)
                else div (of_Z (fold_right Z.add 0%Z window)) (of_nat w)).
Proof.
  intros Hw Hi. split; [apply rolling_mean_length|].
  assert (Hw2 : (2 <= w)%nat) by (destruct Hw; lia).
  exists (rolling_mean_at w close i). split; [now apply rolling_mean_nth|].
  split; [|split; [|split; [|split]]].
  - intros Hearly. now apply rolling_mean_at_early.
  - intros (j & Hj & Hmiss). now apply (rolling_mean_at_missing w close Hw2 i j).
  - intros v Hfull Hv Hsame. now apply rolling_mean_at_same.
  - intros Hsign. now apply rolling_mean_at_not_negative.
  - intros cs -> Hcs Hfull window. rewrite length_map in Hi.
    apply (rolling_mean_at_whole_numbers cs w (2 ^ 45) Hw2 Hcs); [|exact Hi | exact Hfull].
    destruct Hw as [-> | ->]; reflexivity.
Qed.

Lemma moving_average_rows_witness :
  length (rolling_mean 50 (map of_Z (map Z.of_nat (seq 1001 50)))) = 50%nat
  /\ nth_error (rolling_mean 50 (map of_Z (map Z.of_nat (seq 1001 51)))) 50
     = Some (of_decimal 10265 1)
  /\ nth_error (rolling_mean 50 (repeat (of_decimal 15 3) 50)) 49
     = Some (of_decimal 15 3).
Proof.
  split; [|split].
  - apply (moving_average_rows 50 (map of_Z (map Z.of_nat (seq 1001 50))) 49).
    + now left.
    + vm_compute. lia.
  - destruct (moving_average_rows 50 (map of_Z (map Z.of_nat (seq 1001 51))) 50
                (or_introl eq_refl) ltac:(vm_compute; lia))
      as (_ & x & Hx & _ & _ & _ & _ & Hwhole).
    rewrite Hx. f_equal.
    rewrite (Hwhole (map Z.of_nat (seq 1001 51)) eq_refl);
      [vm_compute; reflexivity | | vm_compute; lia].
    apply List.Forall_forall. intros c Hc.
    apply in_map_iff in Hc as (n & <- & Hn). apply in_seq in Hn.
    change (2 ^ 45)%Z with 35184372088832%Z. lia.
  - destruct (moving_average_rows 50 (repeat (of_decimal 15 3) 50) 49
                (or_introl eq_refl) ltac:(vm_compute; lia))
      as (_ & x & Hx & _ & _ & Hsame & _).
    rewrite Hx. f_equal. apply Hsame; [lia | reflexivity |].
    intros j Hj. apply nth_repeat_lt. lia.
Defined.

(** X10: the RSI lines store the RSI of the close column in the frame
    under the name RSI and chart exactly that column.  It has one value
    per bar, and its first thirteen values are NaN, so a frame of thirteen
    bars or fewer gives a chart without a point. *)
Theorem rsi_chart_shows_stored_column
        (w : world) (r : loc) (df : DataFrame) (c : Series) :
  heap w !! r = Some df ->
  lookup_column (columns df) "Close" = Some c ->
  exists df',
    technical_indicators r w
    = (Ok tt,
       mkWorld (<[r := df']> (heap w))
         (ui w ++ [StSubheader "📈 Technical Indicators";
                   StPlotlyChart "Scatter" [rsi_series c]]))
    /\ index df' = index df
    /\ lookup_column (columns df') "RSI" = Some (rsi_series c)
    /\ lookup_column (columns df') "Close" = Some c
    /\ length (rsi_series c) = length c
    /\ (forall i, (i < 13)%nat -> (i < length c)%nat ->
          nth_error (rsi_series c) i = Some nan).
Proof.
  intros Hr Hc.
  exists (mkDataFrame (index df) (set_column (columns df) "RSI" (rsi_series c))).
  split; [now apply technical_indicators_run|].
  split; [reflexivity|]. cbn [columns].
  split; [apply lookup_set_column_eq|].
  split; [now rewrite lookup_set_column_ne by discriminate|].
  split; [apply rsi_series_length|].
  intros i Hi Hlen. now apply rsi_early_nan.
Qed.

Lemma rsi_chart_shows_stored_column_witness :
  exists df',
    technical_indicators 0%nat (fresh two_bars)
    = (Ok tt,
       mkWorld (<[0%nat := df']> (heap (fresh two_bars)))
         (ui (fresh two_bars)
          ++ [StSubheader "📈 Technical Indicators";
              StPlotlyChart "Scatter" [rsi_series [of_Z 100; of_Z 110]]]))
    /\ index df' = index two_bars
    /\ lookup_column (columns df') "RSI" = Some (rsi_series [of_Z 100; of_Z 110])
    /\ lookup_column (columns df') "Close" = Some [of_Z 100; of_Z 110]
    /\ length (rsi_series [of_Z 100; of_Z 110]) = length [of_Z 100; of_Z 110]
    /\ (forall i, (i < 13)%nat -> (i < length [of_Z 100; of_Z 110])%nat ->
          nth_error (rsi_series [of_Z 100; of_Z 110]) i = Some nan).
Proof.
  apply (rsi_chart_shows_stored_column (fresh two_bars) 0%nat two_bars
           [of_Z 100; of_Z 110]); reflexivity.
Defined.

(** ** The RSI of a series that never rises *)

Section LossFacts.

Lemma binary_round_aux_sign (sx : bool) (mx ex : Z) (lx : location) :
  (0 <= mx)%Z ->
  match binary_round_aux prec emax sx mx ex lx with
  | S754_zero s | S754_infinity s | S754_finite s _ _ => s = sx
  | S754_nan => False
  end.
Proof.
  intros H. unfold binary_round_aux.
  pose proof (shr_fexp_nonneg mx ex lx H) as H1.
  destruct (shr_fexp prec emax mx ex lx) as [mrs' e']. simpl in H1.
  pose proof (shr_fexp_nonneg
                (round_nearest_even (shr_m mrs') (loc_of_shr_record mrs')) e' loc_Exact
                (round_nearest_even_nonneg _ _ H1)) as H2.
  destruct (shr_fexp prec emax _ e' loc_Exact) as [mrs'' e'']. simpl in H2.
  destruct (shr_m mrs''); [reflexivity | | lia].
  now destruct (e'' <=? emax - prec)%Z.
Qed.

Lemma binary_normalize_above_zero (d e : Z) :
  ltb zero (binary_normalize prec emax d e false) = true -> (0 < d)%Z.
Proof.
  destruct d as [|p|p]; [discriminate | lia |].
  unfold binary_normalize, binary_round.
  destruct (shl_align _ _ _) as [mz ez].
  pose proof (binary_round_aux_sign true (Z.pos mz) ez loc_Exact ltac:(lia)) as Hs.
  destruct (binary_round_aux prec emax true (Z.pos mz) ez loc_Exact);
    try contradiction; subst; discriminate.
Qed.

(** If the computed difference [y - x] is above zero then [x < y]. *)
Lemma sub_above_zero (x y : f64) :
  valid x = true -> valid y = true ->
  ltb zero (sub y x) = true -> ltb x y = true.
Proof.
  unfold valid.
  destruct y as [sy | sy | | sy my ey], x as [sx | sx | | sx mx ex];
    cbn [valid_binary]; intros Hx Hy H;
    try solve [repeat match goal with s : bool |- _ => destruct s end;
               first [discriminate H | reflexivity]].
  unfold sub, SFsub in H. apply binary_normalize_above_zero in H.
  rewrite !shl_align_value in H by lia.
  unfold ltb, SFltb, SFcompare.
  destruct sy, sx; cbn [cond_Zopp] in H; try reflexivity.
  - (* both negative *)
    destruct (Z.compare_spec ex ey) as [-> | He | He].
    + rewrite Z.min_id, Z.sub_diag in H. rewrite Pos.compare_cont_spec.
      cbn [Pos.switch_Eq]. destruct (Pos.compare_spec mx my); cbn; try reflexivity; lia.
    + exfalso. rewrite Z.min_r, Z.sub_diag in H by lia.
      pose proof (bounded_exponent_lt mx my ex ey Hx Hy He). lia.
    + reflexivity.
  - (* y < 0 <= x *)
    exfalso.
    pose proof (Z.pow_pos_nonneg 2 (ey - Z.min ey ex) ltac:(lia) ltac:(lia)).
    pose proof (Z.pow_pos_nonneg 2 (ex - Z.min ey ex) ltac:(lia) ltac:(lia)).
    nia.
  - (* both positive *)
    destruct (Z.compare_spec ex ey) as [-> | He | He].
    + rewrite Z.min_id, Z.sub_diag in H. rewrite Pos.compare_cont_spec.
      cbn [Pos.switch_Eq]. destruct (Pos.compare_spec mx my); cbn; try reflexivity; lia.
    + reflexivity.
    + exfalso. rewrite Z.min_l, Z.sub_diag in H by lia.
      pose proof (bounded_exponent_lt my mx ey ex Hy Hx He). lia.
Qed.

(** A series of valid numbers that never goes up has no positive
    change. *)
Lemma non_increasing_diff (s : Series) :
  forallb valid s = true -> non_increasing s = true ->
  forallb (fun d => negb (gtb d zero)) (diff s) = true.
Proof.
  destruct s as [|x s]; [reflexivity|]. cbn [diff forallb].
  change (negb (gtb nan zero)) with true. cbn [andb].
  revert x. induction s as [|y s IH]; intros x Hv Hm; [reflexivity|].
  cbn [forallb] in Hv. apply andb_true_iff in Hv as [Hx Hv].
  pose proof Hv as Hv'. cbn [forallb] in Hv'. apply andb_true_iff in Hv' as [Hy _].
  cbn [non_increasing] in Hm. apply andb_true_iff in Hm as [Hxy Hm].
  cbn [diff_from forallb]. apply andb_true_iff. split.
  - destruct (gtb (sub y x) zero) eqn:E; [|reflexivity].
    unfold gtb in E. change (S754_zero false) with zero in *.
    rewrite (sub_above_zero x y Hx Hy E) in Hxy. discriminate.
  - apply IH; assumption.
Qed.

Lemma gain_input_no_increase (ds : Series) :
  forallb (fun d => negb (gtb d zero)) ds = true ->
  Forall (fun x => x = S754_zero false) (where_ (fun d => gtb d zero) zero ds).
Proof.
  intros H. unfold where_. induction ds as [|d ds IH]; [constructor|].
  cbn [forallb] in H. apply andb_true_iff in H as [Hd Hds].
  cbn [map]. constructor; [|now apply IH].
  destruct (gtb d zero); [discriminate | reflexivity].
Qed.

(** The average of a window of [+0.0] is [+0.0]. *)
Lemma avg_gain_no_increase (close : Series) (i : nat) :
  (13 <= i < length close)%nat ->
  forallb (fun d => negb (gtb d zero)) (diff close) = true ->
  nth_error (avg_gain close) i = Some (S754_zero false).
Proof.
  intros Hi Hmono. unfold avg_gain.
  set (G := where_ (fun d => gtb d zero) zero (diff close)).
  assert (HG : length G = length close)
    by (unfold G, where_; now rewrite length_map, diff_length).
  rewrite rolling_mean_nth by lia. f_equal.
  apply rolling_mean_at_same; [lia | lia | lia | reflexivity |].
  intros j Hj. apply Forall_nth_eq; [now apply gain_input_no_increase | lia].
Qed.

(** Zero gain over a loss that is a number other than zero gives 0. *)
Lemma rsi_zero_gain_some_loss (g l : f64) :
  is_zero g = true -> is_nan l = false -> is_zero l = false ->
  rsi_of_rs (div g l) = S754_zero false.
Proof.
  destruct g as [sg | | |]; try discriminate;
    destruct l as [sl | sl | | sl ml el]; try discriminate; intros _ _ _;
    destruct sg, sl; reflexivity.
Qed.

(** Zero gain over a loss that is zero or NaN gives NaN. *)
Lemma rsi_zero_gain_no_loss (g l : f64) :
  is_zero g = true -> is_zero l = true \/ is_nan l = true ->
  rsi_of_rs (div g l) = nan.
Proof.
  destruct g as [sg | | |]; try discriminate;
    destruct l as [sl | sl | | sl ml el]; intros _ [H | H]; try discriminate;
    reflexivity.
Qed.

End LossFacts.

(** X11: at a row where the 14-period average gain is zero, the RSI
    is exactly 0 when the average loss is a number other than zero and NaN
    when the average loss is zero or NaN.  For a series of closes that
    never goes up the average gain is [+0.0] from row 13 on, so the RSI
    there is 0 or NaN according to the average loss. *)
Theorem rsi_of_falling_series :
  (forall close i g l,
      nth_error (avg_gain close) i = Some g ->
      nth_error (avg_loss close) i = Some l ->
      is_zero g = true ->
      (is_nan l = false -> is_zero l = false ->
       nth_error (rsi_series close) i = Some (S754_zero false))
      /\ (is_zero l = true \/ is_nan l = true ->
          nth_error (rsi_series close) i = Some nan))
  /\ (forall close i,
        (13 <= i < length close)%nat ->
        forallb valid close = true ->
        non_increasing close = true ->
        nth_error (avg_gain close) i = Some (S754_zero false)
        /\ exists l,
            nth_error (avg_loss close) i = Some l
            /\ (is_nan l = false /\ is_zero l = false
                /\ nth_error (rsi_series close) i = Some (S754_zero false)
                \/ (is_zero l = true \/ is_nan l = true)
                   /\ nth_error (rsi_series close) i = Some nan)).
Proof.
  split.
  - intros close i g l Hg Hl Hz. rewrite (rsi_series_nth _ _ _ _ Hg Hl). split.
    + intros Hn Hnz. now rewrite rsi_zero_gain_some_loss.
    + intros H. now rewrite rsi_zero_gain_no_loss.
  - intros close i Hi Hvalid Hmono.
    pose proof (avg_gain_no_increase close i Hi
                  (non_increasing_diff close Hvalid Hmono)) as Hg.
    split; [exact Hg|].
    assert (HL : (i < length (avg_loss close))%nat).
    { unfold avg_loss, where_.
      rewrite rolling_mean_length, !length_map, diff_length. lia. }
    destruct (nth_error (avg_loss close) i) as [l|] eqn:Hl;
      [|apply nth_error_None in Hl; lia].
    exists l. split; [reflexivity|].
    rewrite (rsi_series_nth _ _ _ _ Hg Hl).
    destruct (is_nan l) eqn:Hn; [right; split; [now right | now rewrite rsi_zero_gain_no_loss; auto]|].
    destruct (is_zero l) eqn:Hzl; [right; split; [now left | now rewrite rsi_zero_gain_no_loss; auto]|].
    left. split; [reflexivity|]. split; [reflexivity|].
    now rewrite rsi_zero_gain_some_loss.
Qed.

Lemma rsi_of_falling_series_witness :
  nth_error (avg_gain falling_closes) 13 = Some (S754_zero false)
  /\ nth_error (rsi_series falling_closes) 13 = Some (S754_zero false).
Proof.
  destruct (proj2 rsi_of_falling_series falling_closes 13%nat
              ltac:(vm_compute; lia) ltac:(vm_compute; reflexivity)
              ltac:(vm_compute; reflexivity)) as (Hg & _).
  split; [exact Hg|].
  apply (proj1 (proj1 rsi_of_falling_series falling_closes 13%nat
                  (S754_zero false) (S754_finite false 8363827879402350 (-53))
                  ltac:(vm_compute; reflexivity) ltac:(vm_compute; reflexivity)
                  eq_refl));
    reflexivity.
Defined.

(** ** The shape of a formatted amount *)

(** X12: every finite value is formatted with a point followed by
    exactly two decimal digits, in both modes and with or without the
    leading [+]; NaN and the infinities are formatted as the words "nan"
    and "inf", so [format_currency] shows NaN as the currency symbol
    followed by "nan". *)
Theorem amounts_have_two_decimals :
  (forall plus grouped x,
      is_finite x = true ->
      exists body a b,
        format_fixed2 plus grouped x = body +:+ String "." (String a (String b ""))
        /\ Ascii.leb "0" a && Ascii.leb a "9" = true
        /\ Ascii.leb "0" b && Ascii.leb b "9" = true)
  /\ (forall cur, format_currency nan cur = cur +:+ "nan")
  /\ (forall cur s, format_currency (S754_infinity s) cur
                    = cur +:+ (if s then "-inf" else "inf")).
Proof.
  split; [|split].
  - intros plus grouped x Hfin.
    assert (Hshape : forall h,
               exists body a b,
                 fixed2_magnitude grouped h = body +:+ String "." (String a (String b ""))
                 /\ Ascii.leb "0" a && Ascii.leb a "9" = true
                 /\ Ascii.leb "0" b && Ascii.leb b "9" = true).
    { intros h. unfold fixed2_magnitude.
      pose proof (two_digits_shape (h mod 100) (Z.mod_pos_bound h 100 ltac:(lia))) as Hd.
      destruct (two_digits (h mod 100)) as [|a [|b [|? ?]]]; try discriminate Hd.
      apply andb_true_iff in Hd as [Ha Hb].
      eexists _, a, b. split; [reflexivity | split; assumption]. }
    destruct x as [s | | | s m e]; try discriminate Hfin; cbn [format_fixed2].
    + destruct (Hshape 0%Z) as (body & a & b & E & Ha & Hb).
      exists (sign_str plus s +:+ body), a, b. rewrite E, str_app_assoc. auto.
    + destruct (Hshape (hundredths m e)) as (body & a & b & E & Ha & Hb).
      exists (sign_str plus s +:+ body), a, b. rewrite E, str_app_assoc. auto.
  - intros cur. unfold format_currency. now destruct (String.eqb cur "₹").
  - intros cur s. unfold format_currency.
    destruct (String.eqb cur "₹"), s; reflexivity.
Qed.

Lemma amounts_have_two_decimals_witness :
  exists body a b,
    format_fixed2 false true (of_decimal 12345 1)
    = body +:+ String "." (String a (String b ""))
    /\ Ascii.leb "0" a && Ascii.leb a "9" = true
    /\ Ascii.leb "0" b && Ascii.leb b "9" = true.
Proof.
  apply (proj1 amounts_have_two_decimals false true (of_decimal 12345 1)).
  reflexivity.
Defined.

(** X13: an amount whose two-decimal rounding is below 1000.00 is
    written the same way in the grouped and in the plain mode, so for
    such a value [format_currency] differs between the rupee sign and any
    other symbol in the symbol only. *)
Theorem small_amounts_are_not_grouped (s : bool) (m : positive) (e : Z) (cur : string) :
  (hundredths m e < 100000)%Z ->
  format_fixed2 false true (S754_finite s m e)
  = format_fixed2 false false (S754_finite s m e)
  /\ format_currency (S754_finite s m e) "₹"
     = "₹" +:+ format_fixed2 false false (S754_finite s m e)
  /\ format_currency (S754_finite s m e) cur
     = cur +:+ format_fixed2 false false (S754_finite s m e).
Proof.
  intros Hsmall.
  assert (E : format_fixed2 false true (S754_finite s m e)
              = format_fixed2 false false (S754_finite s m e)).
  { cbn [format_fixed2]. unfold fixed2_magnitude.
    pose proof (hundredths_nonneg m e) as H0.
    rewrite group_thousands_short; [reflexivity|].
    split; [apply Z.div_pos; lia | apply Z.div_lt_upper_bound; lia]. }
  split; [exact E|]. unfold format_currency. split.
  - cbn [String.eqb Ascii.eqb Bool.eqb]. now rewrite E.
  - destruct (String.eqb cur "₹"); now rewrite ?E.
Qed.

Lemma small_amounts_are_not_grouped_witness :
  format_currency (S754_finite false 8791694975696896 (-43)) "₹" = "₹999.50".
Proof.
  rewrite (proj1 (proj2 (small_amounts_are_not_grouped
                           false 8791694975696896 (-43) "₹" ltac:(vm_compute; reflexivity)))).
  vm_compute. reflexivity.
Defined.

(** ** Fetching the history, and [main] up to the validator *)

Lemma try_except_bind_ok {A B : Type} (m : M A) (k : A -> M B) (h : exn -> M B)
      (w w' : world) (a : A) :
  m w = (Ok a, w') -> try_except (m ≫= k) h w = try_except (k a) h w'.
Proof. intros H. unfold try_except. now rewrite (bind_ok _ _ _ _ _ H). Qed.

Lemma fetch_failed_run (message : string) (e : exn) (w : world) :
  (st_error_exn message e;; ret (Some (@None loc, @None StockInfo))) w
  = (Ok (Some (None, None)), mkWorld (heap w) (ui w ++ [StErrorExn message e])).
Proof. unfold st_error_exn. run_emit. reflexivity. Qed.

Lemma get_stock_data_history_raises
      (history : string -> M loc) (info : string -> M StockInfo)
      (symbol market : string) (w w1 : world) (e : exn) :
  history (get_stock_data_ticker symbol market) w = (Raise e, w1) ->
  get_stock_data history info symbol market w
  = (Ok (Some (None, None)),
     mkWorld (heap w1)
       (ui w1 ++ [StErrorExn ("Error fetching data for "
                              +:+ get_stock_data_ticker symbol market +:+ ": ") e])).
Proof.
  intros H. unfold get_stock_data. cbv zeta.
  erewrite try_except_raise; [apply fetch_failed_run|].
  now erewrite bind_raise.
Qed.

Lemma get_stock_data_empty
      (history : string -> M loc) (info : string -> M StockInfo)
      (symbol market : string) (w w1 : world) (r : loc) (f : DataFrame) :
  history (get_stock_data_ticker symbol market) w = (Ok r, w1) ->
  heap w1 !! r = Some f -> is_empty f = true ->
  get_stock_data history info symbol market w
  = (Ok None,
     mkWorld (heap w1)
       (ui w1 ++ [StError ("No data found for " +:+ get_stock_data_ticker symbol market)])).
Proof.
  intros H Hr He. unfold get_stock_data. cbv zeta.
  erewrite try_except_ok; [reflexivity|].
  run_with ltac:(exact H).
  rewrite (bind_ok _ _ _ _ _ (read_frame_ok _ _ _ Hr)), He.
  unfold st_error. run_emit. reflexivity.
Qed.

Lemma get_stock_data_info_raises
      (history : string -> M loc) (info : string -> M StockInfo)
      (symbol market : string) (w w1 w2 : world) (r : loc) (f : DataFrame) (e : exn) :
  history (get_stock_data_ticker symbol market) w = (Ok r, w1) ->
  heap w1 !! r = Some f -> is_empty f = false ->
  info (get_stock_data_ticker symbol market) w1 = (Raise e, w2) ->
  get_stock_data history info symbol market w
  = (Ok (Some (None, None)),
     mkWorld (heap w2)
       (ui w2 ++ [StErrorExn ("Error fetching data for "
                              +:+ get_stock_data_ticker symbol market +:+ ": ") e])).
Proof.
  intros H Hr He Hi. unfold get_stock_data. cbv zeta.
  erewrite try_except_raise; [apply fetch_failed_run|].
  run_with ltac:(exact H).
  rewrite (bind_ok _ _ _ _ _ (read_frame_ok _ _ _ Hr)), He.
  now erewrite bind_raise.
Qed.

Lemma get_stock_data_found
      (history : string -> M loc) (info : string -> M StockInfo)
      (symbol market : string) (w w1 w2 : world) (r : loc) (f : DataFrame)
      (i : StockInfo) :
  history (get_stock_data_ticker symbol market) w = (Ok r, w1) ->
  heap w1 !! r = Some f -> is_empty f = false ->
  info (get_stock_data_ticker symbol market) w1 = (Ok i, w2) ->
  get_stock_data history info symbol market w = (Ok (Some (Some r, Some i)), w2).
Proof.
  intros H Hr He Hi. unfold get_stock_data. cbv zeta.
  erewrite try_except_ok; [reflexivity|].
  run_with ltac:(exact H).
  rewrite (bind_ok _ _ _ _ _ (read_frame_ok _ _ _ Hr)), He.
  now run_with ltac:(exact Hi).
Qed.

(** X14: [get_stock_data] never raises, whatever the provider does, and
    has three results.  A failing request, for the history or for the
    info, gives the pair [(None, None)] and the message "Error fetching
    data for <ticker>: <exception>"; an empty history gives [None] and "No
    data found for <ticker>", and the info is not requested; otherwise the
    result is the frame with the info and nothing is shown.  The ticker
    in the messages is the normalized one, not the symbol passed in. *)
Theorem get_stock_data_outcomes
        (history : string -> M loc) (info : string -> M StockInfo)
        (symbol market : string) (w : world) :
  let ticker := get_stock_data_ticker symbol market in
  let failed (e : exn) (w' : world) :=
    (Ok (Some (@None loc, @None StockInfo)),
     mkWorld (heap w')
       (ui w' ++ [StErrorExn ("Error fetching data for " +:+ ticker +:+ ": ") e])) in
  (exists v w', get_stock_data history info symbol market w = (Ok v, w'))
  /\ (forall e w1, history ticker w = (Raise e, w1) ->
        get_stock_data history info symbol market w = failed e w1)
  /\ (forall r w1 f, history ticker w = (Ok r, w1) -> heap w1 !! r = Some f ->
        (is_empty f = true ->
         get_stock_data history info symbol market w
         = (Ok None,
            mkWorld (heap w1) (ui w1 ++ [StError ("No data found for " +:+ ticker)])))
        /\ (is_empty f = false ->
            (forall i w2, info ticker w1 = (Ok i, w2) ->
               get_stock_data history info symbol market w
               = (Ok (Some (Some r, Some i)), w2))
            /\ (forall e w2, info ticker w1 = (Raise e, w2) ->
                  get_stock_data history info symbol market w = failed e w2))).
Proof.
  cbv zeta. split; [|split].
  - destruct (history (get_stock_data_ticker symbol market) w) as [[r|e] w1] eqn:H.
    + destruct (heap w1 !! r) as [f|] eqn:Hr.
      * destruct (is_empty f) eqn:He.
        -- eexists _, _. eapply get_stock_data_empty; eassumption.
        -- destruct (info (get_stock_data_ticker symbol market) w1) as [[i|e] w2] eqn:Hi.
           ++ eexists _, _. eapply get_stock_data_found; eassumption.
           ++ eexists _, _. eapply get_stock_data_info_raises; eassumption.
      * eexists _, _. unfold get_stock_data. cbv zeta.
        erewrite try_except_raise; [apply fetch_failed_run|].
        run_with ltac:(exact H). erewrite bind_raise; [reflexivity|].
        unfold read_frame. now rewrite Hr.
    + eexists _, _. eapply get_stock_data_history_raises; eassumption.
  - intros e w1 H. now apply get_stock_data_history_raises.
  - intros r w1 f H Hr. split.
    + intros He. eapply get_stock_data_empty; eassumption.
    + intros He. split.
      * intros i w2 Hi. eapply get_stock_data_found; eassumption.
      * intros e w2 Hi. eapply get_stock_data_info_raises; eassumption.
Qed.

Lemma get_stock_data_outcomes_witness :
  get_stock_data (failing ValueError) (described ∅) "TCS.NS" "US Stocks" (fresh two_bars)
  = (Ok (Some (None, None)),
     mkWorld (heap (fresh two_bars)) [StErrorExn "Error fetching data for TCS: " ValueError])
  /\ get_stock_data (serving 0%nat) (described ∅) "TCS" "Indian Stocks" (fresh zero_bars)
     = (Ok None, mkWorld (heap (fresh zero_bars)) [StError "No data found for TCS.NS"])
  /\ get_stock_data (serving 0%nat) (described ∅) "TCS" "Indian Stocks" (fresh two_bars)
     = (Ok (Some (Some 0%nat, Some ∅)), fresh two_bars).
Proof.
  split; [|split].
  - exact (proj1 (proj2 (get_stock_data_outcomes (failing ValueError) (described ∅)
                           "TCS.NS" "US Stocks" (fresh two_bars)))
             ValueError (fresh two_bars) eq_refl).
  - exact (proj1 (proj2 (proj2 (get_stock_data_outcomes (serving 0%nat) (described ∅)
                                  "TCS" "Indian Stocks" (fresh zero_bars)))
                    0%nat (fresh zero_bars) zero_bars eq_refl eq_refl)
             eq_refl).
  - exact (proj1 (proj2 (proj2 (proj2 (get_stock_data_outcomes (serving 0%nat) (described ∅)
                                         "TCS" "Indian Stocks" (fresh two_bars)))
                           0%nat (fresh two_bars) two_bars eq_refl eq_refl)
                    eq_refl)
             ∅ (fresh two_bars) eq_refl).
Defined.

(** X15: [main] stops before the validator when nothing was fetched.  A
    failing request leaves only the message of [get_stock_data] on the
    page: [main] returns silently on the pair [(None, None)].  An empty
    history leaves "No data found for <ticker>" followed by "Failed to
    fetch data".  In both cases the handler of [main] does not run, no
    chart or statistic is shown and the store is as the provider left it.
    The ticker is that of the custom symbol when one was typed. *)
Theorem main_stops_without_data
        (history : string -> M loc) (info : string -> M StockInfo)
        (selected custom market : string) (w : world) :
  let ticker := get_stock_data_ticker (choose_symbol selected custom) market in
  let failed (e : exn) (w' : world) :=
    (Ok tt,
     mkWorld (heap w')
       (ui w' ++ [StErrorExn ("Error fetching data for " +:+ ticker +:+ ": ") e])) in
  (forall e w1, history ticker w = (Raise e, w1) ->
     main_run history info selected custom market w = failed e w1)
  /\ (forall r w1 f, history ticker w = (Ok r, w1) -> heap w1 !! r = Some f ->
        (is_empty f = true ->
         main_run history info selected custom market w
         = (Ok tt,
            mkWorld (heap w1)
              (ui w1 ++ [StError ("No data found for " +:+ ticker);
                         StError "Failed to fetch data"])))
        /\ (is_empty f = false ->
            forall e w2, info ticker w1 = (Raise e, w2) ->
              main_run history info selected custom market w = failed e w2)).
Proof.
  cbv zeta. split.
  - intros e w1 H. unfold main_run. cbv zeta.
    erewrite try_except_bind_ok
      by (eapply get_stock_data_history_raises; eassumption).
    reflexivity.
  - intros r w1 f H Hr. split.
    + intros He. unfold main_run. cbv zeta.
      erewrite try_except_bind_ok
        by (eapply get_stock_data_empty; eassumption).
      unfold try_except, st_error. rewrite emit_run. cbn [heap ui].
      now rewrite <- app_assoc.
    + intros He e w2 Hi. unfold main_run. cbv zeta.
      erewrite try_except_bind_ok
        by (eapply get_stock_data_info_raises; eassumption).
      reflexivity.
Qed.

Lemma main_stops_without_data_witness :
  main_run (serving 0%nat) (described ∅) "TCS.NS" "INFY" "Indian Stocks" (fresh zero_bars)
  = (Ok tt,
     mkWorld (heap (fresh zero_bars))
       [StError "No data found for INFY.NS"; StError "Failed to fetch data"])
  /\ main_run (failing IndexError) (described ∅) "AAPL" "" "US Stocks" (fresh two_bars)
     = (Ok tt,
        mkWorld (heap (fresh two_bars))
          [StErrorExn "Error fetching data for AAPL: " IndexError]).
Proof.
  split.
  - exact (proj1 (proj2 (main_stops_without_data (serving 0%nat) (described ∅)
                           "TCS.NS" "INFY" "Indian Stocks" (fresh zero_bars))
                    0%nat (fresh zero_bars) zero_bars eq_refl eq_refl)
             eq_refl).
  - exact (proj1 (main_stops_without_data (failing IndexError) (described ∅)
                    "AAPL" "" "US Stocks" (fresh two_bars))
             IndexError (fresh two_bars) eq_refl).
Defined.

(** X16: when the history is not empty and the info is there, [main]
    goes on exactly as the statistics and indicator part run on the
    fetched frame, under the symbol the user chose and from the world the
    provider left: nothing is shown in between, and the symbol shown in
    the headings is the chosen one, not the normalized ticker. *)
Theorem main_continues_with_fetched_frame
        (history : string -> M loc) (info : string -> M StockInfo)
        (selected custom market : string) (w w1 w2 : world)
        (r : loc) (f : DataFrame) (i : StockInfo) :
  let symbol := choose_symbol selected custom in
  history (get_stock_data_ticker symbol market) w = (Ok r, w1) ->
  heap w1 !! r = Some f -> is_empty f = false ->
  info (get_stock_data_ticker symbol market) w1 = (Ok i, w2) ->
  main_run history info selected custom market w
  = main_indicators symbol market r w2.
Proof.
  cbv zeta. intros H Hr He Hi. unfold main_run. cbv zeta.
  erewrite try_except_bind_ok by (eapply get_stock_data_found; eassumption).
  reflexivity.
Qed.

Lemma main_continues_with_fetched_frame_witness :
  main_run (serving 0%nat) (described ∅) "TCS.NS" "" "Indian Stocks" (fresh two_bars)
  = main_indicators "TCS.NS" "Indian Stocks" 0%nat (fresh two_bars).
Proof.
  exact (main_continues_with_fetched_frame (serving 0%nat) (described ∅)
           "TCS.NS" "" "Indian Stocks" (fresh two_bars) (fresh two_bars) (fresh two_bars)
           0%nat two_bars ∅ eq_refl eq_refl eq_refl eq_refl).
Defined.

(** X17: every preset symbol of a market is its own ticker in that
    market, so for the presets the symbol shown on the page is the one
    that is fetched. *)
Theorem default_symbols_are_tickers (market symbol : string) (symbols : list string) :
  In (market, symbols) default_symbols -> In symbol symbols ->
  get_stock_data_ticker symbol market = symbol.
Proof.
  intros Hm Hs. unfold default_symbols in Hm. cbn [In] in Hm.
  destruct Hm as [[= <- <-] | [[= <- <-] | []]]; cbn [In] in Hs;
    repeat (destruct Hs as [<- | Hs]; [reflexivity|]); destruct Hs.
Qed.

Lemma default_symbols_are_tickers_witness :
  get_stock_data_ticker "ZOMATO.NS" "Indian Stocks" = "ZOMATO.NS".
Proof.
  apply (default_symbols_are_tickers "Indian Stocks" "ZOMATO.NS"
           ["RELIANCE.NS"; "TCS.NS"; "HDFCBANK.NS"; "INFY.NS"; "ICICIBANK.NS";
            "BHARTIARTL.NS"; "WIPRO.NS"; "ZOMATO.NS"; "PAYTM.NS"; "JIOFIN.NS"]).
  - simpl. tauto.
  - simpl. tauto.
Defined.

(** ** The news section and the chat prompt *)

(** X18: the name searched for in the news is the long name when it is
    there and not empty, else the short name when it is there and not
    empty, else the chosen symbol; it is never empty when the symbol is
    not. *)
Theorem company_name_priority (stock_info : StockInfo) (selected_symbol : string) :
  (forall n, stock_info !! "longName" = Some n -> n <> "" ->
     company_name stock_info selected_symbol = n)
  /\ (stock_info !! "longName" = None \/ stock_info !! "longName" = Some "" ->
      (forall n, stock_info !! "shortName" = Some n -> n <> "" ->
         company_name stock_info selected_symbol = n)
      /\ (stock_info !! "shortName" = None \/ stock_info !! "shortName" = Some "" ->
          company_name stock_info selected_symbol = selected_symbol))
  /\ (selected_symbol <> "" -> company_name stock_info selected_symbol <> "").
Proof.
  unfold company_name. split; [|split].
  - intros n -> Hn. now destruct n.
  - intros Hl.
    assert (El : match stock_info !! "longName" with
                 | Some (String c s) => false
                 | _ => true
                 end = true) by (destruct Hl as [-> | ->]; reflexivity).
    split.
    + intros n Hs Hn. rewrite Hs.
      destruct (stock_info !! "longName") as [[|c s]|]; try discriminate;
        now destruct n.
    + intros Hs.
      destruct (stock_info !! "longName") as [[|c s]|]; try discriminate;
        destruct Hs as [-> | ->]; reflexivity.
  - intros Hsym.
    destruct (stock_info !! "longName") as [[|c s]|]; try discriminate;
      destruct (stock_info !! "shortName") as [[|c' s']|]; try discriminate;
      exact Hsym.
Qed.

Lemma company_name_priority_witness :
  company_name {[ "longName" := ""; "shortName" := "Tata" ]} "TCS.NS" = "Tata".
Proof.
  refine (proj1 (proj1 (proj2 (company_name_priority
                                 {[ "longName" := ""; "shortName" := "Tata" ]} "TCS.NS"))
                   _) "Tata" _ _).
  - right. reflexivity.
  - reflexivity.
  - discriminate.
Defined.

(** X19: [get_stock_news] never raises.  When the search answers, the
    result is the list of its results and nothing is shown; when the
    search raises, the result is [None] with the one message "Error
    fetching news: <exception>", after which the page shows "No news
    articles found." and building the prompt for a question raises
    [TypeError], since [len(None)] is not defined. *)
Theorem get_stock_news_outcomes
        (ddgs_news : string -> M (list Article)) (company : string) (w : world) :
  (exists v w', get_stock_news ddgs_news company w = (Ok v, w'))
  /\ (forall l w1, ddgs_news company w = (Ok l, w1) ->
        get_stock_news ddgs_news company w = (Ok (Some l), w1))
  /\ (forall e w1, ddgs_news company w = (Raise e, w1) ->
        exists news,
          get_stock_news ddgs_news company w
          = (Ok news,
             mkWorld (heap w1) (ui w1 ++ [StErrorExn "Error fetching news: " e]))
          /\ news_section news = ([PgWrite "No news articles found."], Ok tt)
          /\ forall sym market price low high cur question,
               chat_prompt sym market price low high cur news question
               = PromptTypeError).
Proof.
  assert (Hok : forall l w1, ddgs_news company w = (Ok l, w1) ->
                  get_stock_news ddgs_news company w = (Ok (Some l), w1)).
  { intros l w1 H. unfold get_stock_news.
    erewrite try_except_ok; [reflexivity|]. now run_with ltac:(exact H). }
  assert (Hraise : forall e w1, ddgs_news company w = (Raise e, w1) ->
                     get_stock_news ddgs_news company w
                     = (Ok None,
                        mkWorld (heap w1)
                          (ui w1 ++ [StErrorExn "Error fetching news: " e]))).
  { intros e w1 H. unfold get_stock_news.
    erewrite try_except_raise; [|eapply bind_raise; exact H].
    unfold st_error_exn. run_emit. reflexivity. }
  split; [|split].
  - destruct (ddgs_news company w) as [[l|e] w1] eqn:H.
    + eexists _, _. now apply Hok.
    + eexists _, _. now apply Hraise.
  - exact Hok.
  - intros e w1 H. exists None. split; [now apply Hraise|]. split; reflexivity.
Qed.

Lemma get_stock_news_outcomes_witness :
  get_stock_news (fun _ => ret [full_article]) "Tata" (fresh two_bars)
  = (Ok (Some [full_article]), fresh two_bars).
Proof.
  exact (proj1 (proj2 (get_stock_news_outcomes (fun _ => ret [full_article]) "Tata"
                         (fresh two_bars)))
           [full_article] (fresh two_bars) eq_refl).
Defined.

Lemma render_article_complete (a : Article) :
  is_Some (a !! "title") -> is_Some (a !! "url") ->
  exists items, render_article a = Ok items /\ length items = 5%nat.
Proof.
  intros [t Ht] [u Hu]. unfold render_article. rewrite Ht, Hu.
  eexists. split; reflexivity.
Qed.

Lemma render_article_incomplete (a : Article) (key : string) :
  (a !! "title" = None /\ key = "title")
  \/ (is_Some (a !! "title") /\ a !! "url" = None /\ key = "url") ->
  render_article a = Raise (KeyError key).
Proof.
  unfold render_article.
  intros [[-> ->] | [[t ->] [-> ->]]]; reflexivity.
Qed.

Lemma render_articles_app (good rest : list Article) (items : list page_item) :
  render_articles good = (items, Ok tt) ->
  render_articles (good ++ rest)
  = (items ++ fst (render_articles rest), snd (render_articles rest)).
Proof.
  revert items. induction good as [|a good IH]; intros items H.
  - cbn in H. injection H as <-. cbn. now destruct (render_articles rest).
  - cbn [render_articles app] in *.
    destruct (render_article a) as [its|e]; [|discriminate].
    destruct (render_articles good) as [more r] eqn:Hg.
    injection H as <- ->.
    rewrite (IH more eq_refl). now rewrite <- app_assoc.
Qed.

(** X20: the news loop.  Articles that all have a title and a url are
    shown in order with five page items each and the loop ends normally.
    An article without a title, or with a title and without a url, raises
    [KeyError] for that key: what the articles before it showed stays on
    the page, nothing of it or of the articles after it is shown. *)
Theorem news_rendering (good : list Article) :
  Forall (fun a => is_Some (a !! "title") /\ is_Some (a !! "url")) good ->
  exists items,
    length items = (5 * length good)%nat
    /\ render_articles good = (items, Ok tt)
    /\ (good <> [] -> news_section (Some good) = (items, Ok tt))
    /\ forall bad rest key,
         (bad !! "title" = None /\ key = "title")
         \/ (is_Some (bad !! "title") /\ bad !! "url" = None /\ key = "url") ->
         news_section (Some (good ++ bad :: rest)) = (items, Raise (KeyError key)).
Proof.
  intros Hgood.
  assert (Hr : exists items, length items = (5 * length good)%nat
                             /\ render_articles good = (items, Ok tt)).
  { induction Hgood as [|a good [Ht Hu] _ IH].
    - exists []. split; reflexivity.
    - destruct IH as (more & Hlen & Hmore).
      destruct (render_article_complete a Ht Hu) as (its & Hits & Hl).
      exists (its ++ more). split.
      + rewrite length_app, Hl, Hlen. cbn [length]. lia.
      + cbn [render_articles]. now rewrite Hits, Hmore. }
  destruct Hr as (items & Hlen & Hitems).
  exists items. split; [exact Hlen|]. split; [exact Hitems|]. split.
  - intros Hne. destruct good as [|a good]; [contradiction|]. exact Hitems.
  - intros bad rest key Hbad.
    assert (Hs : news_section (Some (good ++ bad :: rest))
                 = render_articles (good ++ bad :: rest))
      by (destruct good; reflexivity).
    rewrite Hs, (render_articles_app _ _ _ Hitems).
    cbn [render_articles]. rewrite (render_article_incomplete _ _ Hbad).
    cbn [fst snd]. now rewrite app_nil_r.
Qed.

Lemma news_rendering_witness :
  exists items,
    length items = 10%nat
    /\ render_articles [full_article; bare_article] = (items, Ok tt)
    /\ news_section (Some [full_article; bare_article; untitled_article; full_article])
       = (items, Raise (KeyError "title")).
Proof.
  destruct (news_rendering [full_article; bare_article]) as (items & Hl & Hr & _ & Hbad).
  - repeat constructor; eexists; reflexivity.
  - exists items. split; [exact Hl|]. split; [exact Hr|].
    apply (Hbad untitled_article [full_article] "title").
    left. split; reflexivity.
Defined.

(** X21: whenever an article is shown, its image is never the empty
    address: it is the article's own image when that is there and not
    empty, and the placeholder otherwise.  The body is treated
    differently: the default text stands in for an absent body only, an
    empty body is shown as it is. *)
Theorem article_image_never_empty (a : Article) (items : list page_item) :
  render_article a = Ok items ->
  exists heading image body source,
    items = [PgMarkdown heading; PgImage image; PgWrite body; PgWrite source;
             PgWrite "---"]
    /\ image <> ""
    /\ (a !! "image" = Some image
        \/ (image = "https://via.placeholder.com/150"
            /\ (a !! "image" = None \/ a !! "image" = Some "")))
    /\ (a !! "body" = Some body
        \/ (body = "No summary available." /\ a !! "body" = None)).
Proof.
  unfold render_article.
  destruct (a !! "title") as [t|]; [|discriminate].
  destruct (a !! "url") as [u|]; [|discriminate].
  intros [= <-]. eexists _, _, _, _. split; [reflexivity|].
  split; [|split].
  - destruct (a !! "image") as [[|c s]|]; discriminate.
  - destruct (a !! "image") as [[|c s]|]; auto.
  - unfold get_or. destruct (a !! "body"); auto.
Qed.

Lemma article_image_never_empty_witness :
  exists heading source,
    render_article bare_article
    = Ok [PgMarkdown heading; PgImage "https://via.placeholder.com/150"; PgWrite "";
          PgWrite source; PgWrite "---"].
Proof.
  destruct (article_image_never_empty bare_article
              [PgMarkdown "### [Shares rise](https://example.com/b)";
               PgImage "https://via.placeholder.com/150"; PgWrite "";
               PgWrite "**Source:** Unknown  |  **Published at:** None";
               PgWrite "---"] eq_refl)
    as (heading & image & body & source & E & _).
  exists heading, source. injection E as <- <- <- <-. reflexivity.
Defined.

Lemma title_at_cons (a : Article) (l : list Article) (i : nat) :
  title_at (a :: l) (S i) = title_at l i.
Proof. reflexivity. Qed.

Lemma titles_of_range (l : list Article) (n : nat) :
  (n <= length l)%nat ->
  map (title_at l) (seq 0 n) = map article_title (firstn n l).
Proof.
  revert n. induction l as [|a l IH]; intros n Hn.
  - destruct n; [reflexivity | cbn in Hn; lia].
  - destruct n as [|n]; [reflexivity|].
    cbn [seq firstn map]. f_equal.
    rewrite <- seq_shift, map_map.
    rewrite <- (IH n) by (cbn in Hn; lia).
    apply map_ext. intros i. apply title_at_cons.
Qed.

Lemma headlines_firstn (l : list Article) :
  headlines l = collect (map article_title (firstn 5 l)).
Proof.
  unfold headlines. rewrite titles_of_range by apply Nat.le_min_r.
  f_equal. f_equal.
  destruct (Nat.le_ge_cases 5 (length l)) as [H|H].
  - now rewrite Nat.min_l.
  - rewrite Nat.min_r by exact H. now rewrite !firstn_all2.
Qed.

Lemma collect_titles (l : list Article) (titles : list string) :
  Forall2 (fun a t => a !! "title" = Some t) l titles ->
  collect (map article_title l) = Ok titles.
Proof.
  induction 1 as [|a t l titles Ha _ IH]; [reflexivity|].
  cbn [map collect]. unfold article_title at 1. now rewrite Ha, IH.
Qed.

Lemma rendered_articles_have_titles (l : list Article) (items : list page_item) :
  render_articles l = (items, Ok tt) ->
  exists titles, Forall2 (fun a t => a !! "title" = Some t) l titles.
Proof.
  revert items. induction l as [|a l IH]; intros items H.
  - exists []. constructor.
  - cbn [render_articles] in H. unfold render_article in H.
    destruct (a !! "title") as [t|] eqn:Ht; [|discriminate].
    destruct (a !! "url") as [u|]; [|discriminate].
    destruct (render_articles l) as [more r] eqn:Hl.
    injection H as _ ->.
    destruct (IH more eq_refl) as (titles & Htitles).
    exists (t :: titles). now constructor.
Qed.

(** X22: the prompt of the chat after the news.  When the news section
    has ended normally on a list of articles, every article has a title
    and the prompt is built: its text carries the number of all the
    articles and the titles of the first five, in order, one per line;
    with no article at all it announces 0 articles and an empty line of
    titles. *)
Theorem prompt_reads_first_five_titles
        (articles : list Article) (items : list page_item)
        (sym market : string) (price low high : f64) (cur question : string) :
  news_section (Some articles) = (items, Ok tt) ->
  exists titles,
    Forall2 (fun a t => a !! "title" = Some t) articles titles
    /\ chat_prompt sym market price low high cur (Some articles) question
       = Prompt (prompt_text sym market price low high cur
                   (length articles) (firstn 5 titles) question).
Proof.
  intros H.
  assert (Ht : exists titles,
             Forall2 (fun a t => a !! "title" = Some t) articles titles).
  { destruct articles as [|a l]; [exists []; constructor|].
    now apply (rendered_articles_have_titles _ items). }
  destruct Ht as (titles & Ht).
  exists titles. split; [exact Ht|].
  unfold chat_prompt. rewrite headlines_firstn.
  now rewrite (collect_titles _ (firstn 5 titles)) by (now apply Forall2_take).
Qed.

Lemma prompt_reads_first_five_titles_witness :
  exists titles,
    Forall2 (fun a t => a !! "title" = Some t)
      [full_article; bare_article; full_article; bare_article; full_article;
       bare_article] titles
    /\ chat_prompt "TCS.NS" "Indian Stocks" (of_Z 100) (of_Z 90) (of_Z 110) "₹"
         (Some [full_article; bare_article; full_article; bare_article; full_article;
                bare_article])
         "Buy?"
       = Prompt (prompt_text "TCS.NS" "Indian Stocks" (of_Z 100) (of_Z 90) (of_Z 110) "₹"
                   6 (firstn 5 titles) "Buy?").
Proof.
  apply (prompt_reads_first_five_titles
           [full_article; bare_article; full_article; bare_article; full_article;
            bare_article]
           (fst (news_section
                   (Some [full_article; bare_article; full_article; bare_article;
                          full_article; bare_article])))).
  reflexivity.
Defined.

(** ** The change on a previous close of zero *)

(** X23: a previous close of zero raises nothing.  The change in percent
    is then infinite or NaN, whatever the latest close, and the metric
    shows it as "+inf%", "-inf%" or "+nan%"; it is NaN exactly when the
    latest close is zero or NaN as well. *)
Theorem zero_previous_close_is_shown
        (w : world) (r : loc) (df : DataFrame) (c : Series) :
  heap w !! r = Some df ->
  lookup_column (columns df) "Close" = Some c ->
  (2 <= length c)%nat ->
  is_zero (nth (length c - 2) c nan) = true ->
  exists pct,
    latest_change r w = (Ok (nth (length c - 1) c nan, pct), w)
    /\ is_finite pct = false
    /\ In (format_fixed2 true false pct +:+ "%") ["+inf%"; "-inf%"; "+nan%"]
    /\ (is_nan pct
        = is_zero (nth (length c - 1) c nan) || is_nan (nth (length c - 1) c nan)).
Proof.
  intros Hr Hc Hlen Hz.
  eexists. split; [now apply (latest_change_ok w r df c)|].
  destruct (nth (length c - 2) c nan) as [sp| | |]; try discriminate.
  destruct (nth (length c - 1) c nan) as [s|s| |s m e]; try destruct s; destruct sp;
    vm_compute; intuition.
Qed.

Lemma zero_previous_close_is_shown_witness :
  exists pct,
    latest_change 0%nat (fresh (bars [1; 2; 3]%Z [5; 0; 7]%Z))
    = (Ok (of_Z 7, pct), fresh (bars [1; 2; 3]%Z [5; 0; 7]%Z))
    /\ is_finite pct = false.
Proof.
  destruct (zero_previous_close_is_shown (fresh (bars [1; 2; 3]%Z [5; 0; 7]%Z)) 0%nat
              (bars [1; 2; 3]%Z [5; 0; 7]%Z) (map of_Z [5; 0; 7]%Z)
              eq_refl eq_refl ltac:(simpl; lia) eq_refl)
    as (pct & H & Hf & _).
  exists pct. split; [exact H | exact Hf].
Defined.
